(** * download_net_runtime.py: a shallow embedding and its properties

    The script keeps a cache of .NET runtimes under [Dependencies/dotnet]:
    it reads the [VERSION] stamp, wipes the cache when the stamp is stale,
    and downloads and unpacks one archive per requested platform.

    The embedding has three layers.

    - [PyStr] and [Path]: the string and path functions the script uses
      ([str.strip], [str.lower], [in], [str.endswith], [os.path.join]).
    - [Fs]: a POSIX directory tree without symbolic links and without
      permissions, and path resolution over it.
    - the program itself, in a state-and-exception monad over a [world]:
      the tree, the working directory, the chronological trace of every
      [print] and of every call that leaves the interpreter, and the
      environment (network, archive decoder, read faults).

    Text is modelled for an 8-bit locale encoding (ISO-8859-1): a file's
    bytes and the text read from it are the same [string].

    After the embedding come the vocabulary of the statements, the
    lemmas (the tree, path resolution, a weakest-precondition calculus
    for the monad, the relations that every step of the script respects,
    the version bookkeeping, one platform, one download) and, at the
    end, one theorem per property of the script, each followed by a run
    of the script that meets its hypotheses. *)

From Stdlib Require Import Ascii String.
From stdpp Require Import gmap strings list fin_maps.

Set Warnings "-register-all".
Open Scope string_scope.
Open Scope list_scope.

(** ** Python strings *)

Module PyStr.

Definition code (c : ascii) : nat := nat_of_ascii c.

(** [str.isspace] on code points below 256. *)
Definition isspace (c : ascii) : bool :=
  let n := code c in
  (((9 <=? n) && (n <=? 13)) || ((28 <=? n) && (n <=? 32))
   || (n =? 133) || (n =? 160))%nat.

Fixpoint lstrip (s : string) : string :=
  match s with
  | String c s' => if isspace c then lstrip s' else s
  | EmptyString => EmptyString
  end.

(** Drops the trailing whitespace: a character is kept when it is not
    a space or when something is kept after it. *)
Fixpoint rstrip (s : string) : string :=
  match s with
  | String c s' =>
      match rstrip s' with
      | EmptyString => if isspace c then EmptyString else String c EmptyString
      | t => String c t
      end
  | EmptyString => EmptyString
  end.

(** [s.strip()] *)
Definition strip (s : string) : string := rstrip (lstrip s).

(** [str.lower] on code points below 256: A-Z, and the upper-case
    letters of Latin-1 (0xC0-0xDE but the multiplication sign 0xD7). *)
Definition lower_char (c : ascii) : ascii :=
  let n := code c in
  if (((65 <=? n) && (n <=? 90))
      || ((192 <=? n) && (n <=? 222) && negb (n =? 215)))%nat
  then ascii_of_nat (n + 32) else c.

Fixpoint lower (s : string) : string :=
  match s with
  | String c s' => String (lower_char c) (lower s')
  | EmptyString => EmptyString
  end.

(** [s.startswith(pre)] *)
Definition startswith (s pre : string) : bool := String.prefix pre s.

(** [sub in s] *)
Fixpoint contains (sub s : string) : bool :=
  String.prefix sub s
  || match s with
     | String _ s' => contains sub s'
     | EmptyString => false
     end.

(** [s.endswith(suf)] *)
Fixpoint endswith (s suf : string) : bool :=
  String.eqb s suf
  || match s with
     | String _ s' => endswith s' suf
     | EmptyString => false
     end.

(** [s[:n]] *)
Fixpoint take (n : nat) (s : string) : string :=
  match n, s with
  | S n', String c s' => String c (take n' s')
  | _, _ => EmptyString
  end.

End PyStr.

(** ** Paths *)

Module Path.

Definition sep : ascii := "/"%char.

(** [p = os.path.join] (posixpath): a component that starts with the
    separator restarts the path, otherwise it is appended, with a
    separator unless the path so far is empty or ends in one. *)
Definition join2 (path b : string) : string :=
  if PyStr.startswith b "/" then b
  else if String.eqb path "" || PyStr.endswith path "/" then path +:+ b
  else path +:+ "/" +:+ b.

Definition p (a : string) (bs : list string) : string :=
  foldl join2 a bs.

(** The pieces between separators, empty ones included. *)
Fixpoint pieces (s : string) : list string :=
  match s with
  | EmptyString => [EmptyString]
  | String c s' =>
      if Ascii.eqb c sep then EmptyString :: pieces s'
      else match pieces s' with
           | x :: l => String c x :: l
           | [] => [String c EmptyString]
           end
  end.

(** What path resolution looks at: the non-empty pieces. *)
Definition components (s : string) : list string :=
  filter (fun x => x ≠ EmptyString) (pieces s).

Definition is_absolute (s : string) : bool := PyStr.startswith s "/".
Definition has_trailing_sep (s : string) : bool := PyStr.endswith s "/".

End Path.

(** ** The directory tree *)

Inductive node : Type :=
| File (data : string)
| Dir (entries : gmap string node).

(** A location is the list of names from the root of the tree. *)
Abbreviation location := (list string).

Module Fs.

Fixpoint lookup (n : node) (loc : location) {struct loc} : option node :=
  match loc with
  | [] => Some n
  | c :: loc' =>
      match n with
      | Dir m =>
          match m !! c with
          | Some n' => lookup n' loc'
          | None => None
          end
      | File _ => None
      end
  end.

(** Sets ([Some]) or removes ([None]) the entry at a location whose
    parent is a directory; anything else leaves the tree as it is. *)
Fixpoint put (n : node) (loc : location) (x : option node) {struct loc}
  : node :=
  match loc with
  | [] => n
  | c :: loc' =>
      match n with
      | Dir m =>
          match loc', x with
          | [], Some v => Dir (<[c:=v]> m)
          | [], None => Dir (delete c m)
          | _ :: _, _ => Dir (alter (fun n' => put n' loc' x) c m)
          end
      | File _ => n
      end
  end.

Inductive errno := ENOENT | ENOTDIR | EEXIST | EISDIR.

(** One step of path resolution, from a directory. *)
Definition step (cur : location) (c : string) : location :=
  if decide (c = ".") then cur
  else if decide (c = "..") then removelast cur
  else cur ++ [c].

(** Resolution of the components [cs] from [cur]: every component is
    looked up in an existing directory; the location reached need not
    exist. *)
Fixpoint walk (root : node) (cur : location) (cs : list string)
  {struct cs} : errno + location :=
  match cs with
  | [] => inr cur
  | c :: cs' =>
      match lookup root cur with
      | None => inl ENOENT
      | Some (File _) => inl ENOTDIR
      | Some (Dir _) => walk root (step cur c) cs'
      end
  end.

Definition resolve (root : node) (cwd : location) (path : string)
  : errno + location :=
  if decide (path = "") then inl ENOENT
  else walk root (if Path.is_absolute path then [] else cwd)
            (Path.components path).

(** What [stat] finds at a path. A trailing separator asks for a
    directory. *)
Inductive found :=
| Failed (e : errno)
| Absent (loc : location)
| IsFile (loc : location) (data : string)
| IsDir (loc : location) (entries : gmap string node).

Definition stat (root : node) (cwd : location) (path : string) : found :=
  match resolve root cwd path with
  | inl e => Failed e
  | inr loc =>
      match lookup root loc with
      | None => Absent loc
      | Some (File d) =>
          if Path.has_trailing_sep path then Failed ENOTDIR else IsFile loc d
      | Some (Dir m) => IsDir loc m
      end
  end.

(** [mkdir -p] of the components [cs] below [cur]. *)
Fixpoint mkdirs (root : node) (cur : location) (cs : list string)
  {struct cs} : errno + node :=
  match cs with
  | [] => inr root
  | c :: cs' =>
      match lookup root cur with
      | None => inl ENOENT
      | Some (File _) => inl ENOTDIR
      | Some (Dir _) =>
          let next := step cur c in
          match lookup root next with
          | Some (Dir _) => mkdirs root next cs'
          | Some (File _) =>
              inl (match cs' with [] => EEXIST | _ :: _ => ENOTDIR end)
          | None => mkdirs (put root next (Some (Dir ∅))) next cs'
          end
      end
  end.

End Fs.

(** ** Exceptions, output and the environment *)

(** The exceptions that reach the script's handlers. [URLError],
    [TarError] and [BadZipFile] stand for the class and its subclasses;
    [OtherError] is any other subclass of [Exception]. *)
Inductive exn :=
| KeyError (key : string)
| FileNotFoundError (path : string)
| NotADirectoryError (path : string)
| IsADirectoryError (path : string)
| FileExistsError (path : string)
| URLError (reason : string)
| TarError (msg : string)
| BadZipFile (msg : string)
| OtherError (name msg : string).

(** One constructor per [print] statement of the script, with the values
    it interpolates. *)
Inductive line :=
| LRule
| LStarted
| LArguments (argv : list string)
| LStarting (platforms : list string)
| LCacheDir (dir : string)
| LCurrentVersion (v : option string)
| LExpectedVersion (v : string)
| LClearing
| LCreating (dir : string)
| LWritingVersion (path : string)
| LNoPlatforms
| LProcessing (platform : string)
| LPlatformDir (dir : string)
| LDirMissing
| LDirEmpty
| LSkipping (items : nat)
| LComplete
| LDownloading (platform : string)
| LUrl (url : string)
| LTargetDir (dir : string)
| LTempFile (file : string)
| LStartingDownload
| LNotCreated (file : string)
| LDownloaded (size : Z)
| LHtmlInstead
| LPreview (content : string)
| LExtracting
| LTarExtracted
| LZipExtracted
| LUnknownFormat (url : string)
| LCleaning
| LDownloadComplete (platform : string)
| LNetworkError (url : string)
| LDetails (e : exn)
| LTarFailed (e : exn)
| LZipFailed (e : exn)
| LUnexpected (e : exn).

(** The calls that leave the interpreter, as the script writes them. *)
Inductive call :=
| COpenRead (path : string)
| COpenWrite (path data : string)
| CExists (path : string)
| CRmtree (path : string)
| CMakedirs (path : string)
| CListdir (path : string)
| CMkdir (path : string)
| CUrlretrieve (url file : string)
| CGetsize (path : string)
| COpenText (path : string)
| CRemove (path : string)
| CTarExtract (file dir : string)
| CZipExtract (file dir : string).

Inductive event :=
| Print (l : line)
| Call (c : call).

(** What [urlretrieve] does: it fails before anything is written, or it
    writes [data] and then returns or fails ([cut]), or it returns
    without a file (the case the script tests for). *)
Inductive fetch_outcome :=
| Refused (e : exn)
| Body (data : string) (cut : option exn)
| NoFile.

(** An archive as its decoder shows it: unreadable, or a list of members
    written in order, after which extraction may still fail. *)
Inductive member :=
| MFile (path : list string) (data : string)
| MDir (path : list string).

Inductive decoded :=
| Unreadable (e : exn)
| Readable (members : list member) (defect : option exn).

(** Everything the script does not decide: the outcomes may depend on
    the history so far. [read_fault] is a failure of the text-mode read
    of the downloaded file. *)
Record environment := {
  net : list event -> string -> fetch_outcome;
  untar : string -> decoded;
  unzip : string -> decoded;
  read_fault : list event -> option exn;
  dir_size : Z
}.

Record world := {
  fs : node;
  cwd : location;
  trace : list event;
  env : environment
}.

Definition with_fs (n : node) (w : world) : world :=
  {| fs := n; cwd := cwd w; trace := trace w; env := env w |}.

Definition with_trace (t : list event) (w : world) : world :=
  {| fs := fs w; cwd := cwd w; trace := t; env := env w |}.

(** ** The monad: state and exceptions *)

Inductive outcome (A : Type) :=
| Ok (a : A)
| Raise (e : exn).
Arguments Ok {A} a.
Arguments Raise {A} e.

Definition M (A : Type) : Type := world -> outcome A * world.

Definition ret {A} (a : A) : M A := fun w => (Ok a, w).

Definition bind {A B} (m : M A) (k : A -> M B) : M B :=
  fun w =>
    match m w with
    | (Ok a, w') => k a w'
    | (Raise e, w') => (Raise e, w')
    end.

Definition raise {A} (e : exn) : M A := fun w => (Raise e, w).

(** [try: m except ...]: the handler chooses the clause, [None] when no
    clause matches and the exception goes on. *)
Definition try_except {A} (m : M A) (h : exn -> option (M A)) : M A :=
  fun w =>
    match m w with
    | (Ok a, w') => (Ok a, w')
    | (Raise e, w') =>
        match h e with
        | Some k => k w'
        | None => (Raise e, w')
        end
    end.

Declare Scope py_scope.
Delimit Scope py_scope with py.
Notation "x <- m ;; k" := (bind m (fun x => k))
  (at level 100, m at next level, right associativity) : py_scope.
Notation "m ;; k" := (bind m (fun _ => k))
  (at level 100, right associativity) : py_scope.
Open Scope py_scope.

(** [for x in l: body] *)
Fixpoint for_ {A} (l : list A) (body : A -> M unit) : M unit :=
  match l with
  | [] => ret tt
  | x :: l' => body x ;; for_ l' body
  end.

Definition get : M world := fun w => (Ok w, w).
Definition set_fs (n : node) : M unit := fun w => (Ok tt, with_fs n w).
Definition log (e : event) (w : world) : world :=
  with_trace (trace w ++ [e]) w.
Definition emit (e : event) : M unit := fun w => (Ok tt, log e w).
Definition print (l : line) : M unit := emit (Print l).

(** ** The library calls *)

Definition oserror (e : Fs.errno) (path : string) : exn :=
  match e with
  | Fs.ENOENT => FileNotFoundError path
  | Fs.ENOTDIR => NotADirectoryError path
  | Fs.EEXIST => FileExistsError path
  | Fs.EISDIR => IsADirectoryError path
  end.

Definition stat (path : string) : M Fs.found :=
  fun w => (Ok (Fs.stat (fs w) (cwd w) path), w).

(** The content of a regular file. *)
Definition read_file (path : string) : M string :=
  st <- stat path ;;
  match st with
  | Fs.IsFile _ d => ret d
  | Fs.IsDir _ _ => raise (IsADirectoryError path)
  | Fs.Absent _ => raise (FileNotFoundError path)
  | Fs.Failed e => raise (oserror e path)
  end.

(** Creates or truncates a regular file and writes [data]. *)
Definition write_file (path data : string) : M unit :=
  st <- stat path ;;
  w <- get ;;
  match st with
  | Fs.IsFile loc _ => set_fs (Fs.put (fs w) loc (Some (File data)))
  | Fs.Absent loc =>
      if Path.has_trailing_sep path then raise (IsADirectoryError path)
      else set_fs (Fs.put (fs w) loc (Some (File data)))
  | Fs.IsDir _ _ => raise (IsADirectoryError path)
  | Fs.Failed e => raise (oserror e path)
  end.

(** [with open(path, "r") as f: f.read()] *)
Definition open_read (path : string) : M string :=
  emit (Call (COpenRead path)) ;; read_file path.

(** [with open(path, "w") as f: f.write(data)] *)
Definition open_write (path data : string) : M unit :=
  emit (Call (COpenWrite path data)) ;; write_file path data.

(** [with open(path, 'r', errors='ignore') as f: f.read()] *)
Definition open_read_text (path : string) : M string :=
  w <- get ;;
  emit (Call (COpenText path)) ;;
  match read_fault (env w) (trace w) with
  | Some e => raise e
  | None => read_file path
  end.

(** [os.path.exists(path)] *)
Definition os_path_exists (path : string) : M bool :=
  emit (Call (CExists path)) ;;
  st <- stat path ;;
  ret match st with
      | Fs.IsFile _ _ | Fs.IsDir _ _ => true
      | Fs.Absent _ | Fs.Failed _ => false
      end.

(** [os.listdir(path)] *)
Definition os_listdir (path : string) : M (list string) :=
  emit (Call (CListdir path)) ;;
  st <- stat path ;;
  match st with
  | Fs.IsDir _ m => ret (map_to_list m).*1
  | Fs.IsFile _ _ => raise (NotADirectoryError path)
  | Fs.Absent _ => raise (FileNotFoundError path)
  | Fs.Failed e => raise (oserror e path)
  end.

(** [os.mkdir(path)]: a trailing separator is allowed. *)
Definition os_mkdir (path : string) : M unit :=
  emit (Call (CMkdir path)) ;;
  w <- get ;;
  match Fs.resolve (fs w) (cwd w) path with
  | inl e => raise (oserror e path)
  | inr loc =>
      match Fs.lookup (fs w) loc with
      | Some _ => raise (FileExistsError path)
      | None => set_fs (Fs.put (fs w) loc (Some (Dir ∅)))
      end
  end.

(** [os.makedirs(path, exist_ok=True)] *)
Definition os_makedirs (path : string) : M unit :=
  emit (Call (CMakedirs path)) ;;
  w <- get ;;
  if decide (path = "") then raise (FileNotFoundError path)
  else
    match Fs.mkdirs (fs w) (if Path.is_absolute path then [] else cwd w)
            (Path.components path) with
    | inl e => raise (oserror e path)
    | inr n => set_fs n
    end.

(** [shutil.rmtree(path)] *)
Definition shutil_rmtree (path : string) : M unit :=
  emit (Call (CRmtree path)) ;;
  st <- stat path ;;
  w <- get ;;
  match st with
  | Fs.IsDir [] _ => raise (OtherError "OSError" path)
  | Fs.IsDir loc _ => set_fs (Fs.put (fs w) loc None)
  | Fs.IsFile _ _ => raise (NotADirectoryError path)
  | Fs.Absent _ => raise (FileNotFoundError path)
  | Fs.Failed e => raise (oserror e path)
  end.

(** [os.remove(path)] *)
Definition os_remove (path : string) : M unit :=
  emit (Call (CRemove path)) ;;
  st <- stat path ;;
  w <- get ;;
  match st with
  | Fs.IsFile loc _ => set_fs (Fs.put (fs w) loc None)
  | Fs.IsDir _ _ => raise (IsADirectoryError path)
  | Fs.Absent _ => raise (FileNotFoundError path)
  | Fs.Failed e => raise (oserror e path)
  end.

(** [os.path.getsize(path)] *)
Definition os_path_getsize (path : string) : M Z :=
  emit (Call (CGetsize path)) ;;
  st <- stat path ;;
  w <- get ;;
  match st with
  | Fs.IsFile _ d => ret (Z.of_nat (String.length d))
  | Fs.IsDir _ _ => ret (dir_size (env w))
  | Fs.Absent _ => raise (FileNotFoundError path)
  | Fs.Failed e => raise (oserror e path)
  end.

(** [urllib.request.urlretrieve(url, file)] *)
Definition urlretrieve (url file : string) : M unit :=
  w <- get ;;
  emit (Call (CUrlretrieve url file)) ;;
  match net (env w) (trace w) url with
  | Refused e => raise e
  | Body data cut =>
      write_file file data ;;
      match cut with
      | Some e => raise e
      | None => ret tt
      end
  | NoFile => ret tt
  end.

(** Member names as the extractors use them: empty, [.] and [..]
    components are dropped. *)
Definition member_path (path : list string) : list string :=
  filter (fun x => x ∉ [""; "."; ".."]) path.

Definition member_name (path : list string) : string :=
  String.concat "/" path.

(** Writes one member below the directory at [base]. *)
Definition write_member (base : location) (m : member) : M unit :=
  w <- get ;;
  match m with
  | MDir path =>
      match Fs.mkdirs (fs w) base (member_path path) with
      | inl e => raise (oserror e (member_name path))
      | inr n => set_fs n
      end
  | MFile path data =>
      match Fs.mkdirs (fs w) base (removelast (member_path path)) with
      | inl e => raise (oserror e (member_name path))
      | inr n =>
          let target := base ++ member_path path in
          match Fs.lookup n target with
          | Some (Dir _) =>
              set_fs n ;; raise (IsADirectoryError (member_name path))
          | _ => set_fs (Fs.put n target (Some (File data)))
          end
      end
  end.

(** [extractall(dir)] of an opened archive. *)
Definition extractall (d : decoded) (dir : string) : M unit :=
  match d with
  | Unreadable e => raise e
  | Readable ms defect =>
      st <- stat (if decide (dir = "") then "." else dir) ;;
      match st with
      | Fs.IsDir base _ =>
          for_ ms (write_member base) ;;
          match defect with
          | Some e => raise e
          | None => ret tt
          end
      | Fs.IsFile _ _ => raise (NotADirectoryError dir)
      | Fs.Absent _ => raise (FileNotFoundError dir)
      | Fs.Failed e => raise (oserror e dir)
      end
  end.

(** [with tarfile.open(file, "r:gz") as tar: tar.extractall(dir)] *)
Definition tar_extract (file dir : string) : M unit :=
  emit (Call (CTarExtract file dir)) ;;
  data <- read_file file ;;
  w <- get ;;
  extractall (untar (env w) data) dir.

(** [with zipfile.ZipFile(file) as zipF: zipF.extractall(dir)] *)
Definition zip_extract (file dir : string) : M unit :=
  emit (Call (CZipExtract file dir)) ;;
  data <- read_file file ;;
  w <- get ;;
  extractall (unzip (env w) data) dir.

(** ** The script *)

Definition PLATFORM_WINDOWS : string := "windows".
Definition PLATFORM_LINUX : string := "linux".
Definition PLATFORM_MACOS : string := "mac".

Definition DOTNET_RUNTIME_VERSION : string := "10.0.0".

Definition DOTNET_RUNTIME_DOWNLOADS : gmap string string :=
  {[ PLATFORM_LINUX :=
       "https://builds.dotnet.microsoft.com/dotnet/Runtime/10.0.0/dotnet-runtime-10.0.0-linux-x64.tar.gz";
     PLATFORM_WINDOWS :=
       "https://builds.dotnet.microsoft.com/dotnet/Runtime/10.0.0/dotnet-runtime-10.0.0-win-x64.zip";
     PLATFORM_MACOS :=
       "https://builds.dotnet.microsoft.com/dotnet/Runtime/10.0.0/dotnet-runtime-10.0.0-osx-x64.tar.gz" ]}.

Definition p := Path.p.

(** [d[k]] *)
Definition getitem (d : gmap string string) (k : string) : M string :=
  match d !! k with
  | Some v => ret v
  | None => raise (KeyError k)
  end.

(** Lines 117-127 of [download_platform_runtime], the look into a small
    download. The result is [true] when the function returns from
    there. The [except:] clause is bare: it takes every exception. *)
Definition html_check (download_file : string) (file_size : Z) : M bool :=
  if (file_size <? 10240)%Z then
    try_except
      (content <- open_read_text download_file ;;
       if PyStr.contains "html" (PyStr.lower content)
          || PyStr.contains "<!doctype" (PyStr.lower content)
       then
         print LHtmlInstead ;;
         print (LPreview (PyStr.take 300 content)) ;;
         os_remove download_file ;;
         ret true
       else ret false)
      (fun _ => Some (ret false))
  else ret false.

(** Lines 129-146: extraction by the suffix of the URL, then the removal
    of the temporary file. *)
Definition extract_and_clean (download_url download_file dir platform : string)
  : M unit :=
  print LExtracting ;;
  extracted <-
    (if PyStr.endswith download_url ".tar.gz" then
       tar_extract download_file dir ;;
       print LTarExtracted ;;
       ret true
     else if PyStr.endswith download_url ".zip" then
       zip_extract download_file dir ;;
       print LZipExtracted ;;
       ret true
     else
       print (LUnknownFormat download_url) ;;
       os_remove download_file ;;
       ret false) ;;
  if extracted : bool then
    print LCleaning ;;
    os_remove download_file ;;
    print (LDownloadComplete platform)
  else ret tt.

(** Lines 103-146: the body of the [try] statement. *)
Definition download_body (download_url download_file dir platform : string)
  : M unit :=
  print (LUrl download_url) ;;
  print (LTargetDir dir) ;;
  print (LTempFile download_file) ;;
  print LStartingDownload ;;
  urlretrieve download_url download_file ;;
  created <- os_path_exists download_file ;;
  if negb created then print (LNotCreated download_file)
  else
    file_size <- os_path_getsize download_file ;;
    print (LDownloaded file_size) ;;
    returned <- html_check download_file file_size ;;
    if returned : bool then ret tt
    else extract_and_clean download_url download_file dir platform.

(** [if os.path.exists(download_file): os.remove(download_file)] *)
Definition remove_if_exists (download_file : string) : M unit :=
  present <- os_path_exists download_file ;;
  if present : bool then os_remove download_file else ret tt.

(** Lines 148-164: the four [except] clauses, in order; the last one
    takes every [Exception]. *)
Definition download_handlers (download_url download_file : string) (e : exn)
  : option (M unit) :=
  Some match e with
       | URLError _ =>
           print (LNetworkError download_url) ;;
           print (LDetails e) ;;
           remove_if_exists download_file
       | TarError _ =>
           print (LTarFailed e) ;;
           remove_if_exists download_file
       | BadZipFile _ =>
           print (LZipFailed e) ;;
           remove_if_exists download_file
       | _ =>
           print (LUnexpected e) ;;
           remove_if_exists download_file
       end.

(** Lines 102-164: the [try] statement. *)
Definition download_guarded (download_url download_file dir platform : string)
  : M unit :=
  try_except (download_body download_url download_file dir platform)
             (download_handlers download_url download_file).

Definition download_platform_runtime (dir platform : string) : M unit :=
  print (LDownloading platform) ;;
  let download_file := p dir ["download.tmp"] in
  download_url <- getitem DOTNET_RUNTIME_DOWNLOADS platform ;;
  download_guarded download_url download_file dir platform.

Definition runtime_cache : string := p "Dependencies/dotnet" [].
Definition version_file_path : string := p runtime_cache ["VERSION"].

(** Lines 35-63: the version stamp is read, a stale cache is removed,
    the cache directory and the stamp are written. *)
Definition refresh_cache (platforms : list string) : M unit :=
  print (LStarting platforms) ;;
  print (LCacheDir runtime_cache) ;;
  current_version <-
    try_except
      (s <- open_read version_file_path ;; ret (Some (PyStr.strip s)))
      (fun e => match e with
                | FileNotFoundError _ => Some (ret None)
                | _ => None
                end) ;;
  print (LCurrentVersion current_version) ;;
  print (LExpectedVersion DOTNET_RUNTIME_VERSION) ;;
  stale <-
    (if decide (current_version ≠ Some DOTNET_RUNTIME_VERSION)
     then os_path_exists runtime_cache
     else ret false) ;;
  (if stale : bool then
     print LClearing ;;
     shutil_rmtree runtime_cache
   else ret tt) ;;
  print (LCreating runtime_cache) ;;
  os_makedirs runtime_cache ;;
  print (LWritingVersion version_file_path) ;;
  open_write version_file_path DOTNET_RUNTIME_VERSION.

(** Lines 71-92: the body of the loop over the platforms. *)
Definition process_platform (platform : string) : M unit :=
  let platform_runtime_cache := p runtime_cache [platform] in
  print (LProcessing platform) ;;
  print (LPlatformDir platform_runtime_cache) ;;
  present <- os_path_exists platform_runtime_cache ;;
  needs_download <-
    (if negb present then
       print LDirMissing ;;
       ret true
     else
       contents <- os_listdir platform_runtime_cache ;;
       if (length contents =? 0)%nat then
         print LDirEmpty ;;
         ret true
       else
         print (LSkipping (length contents)) ;;
         ret false) ;;
  if needs_download : bool then
    present' <- os_path_exists platform_runtime_cache ;;
    (if negb present' then os_mkdir platform_runtime_cache else ret tt) ;;
    download_platform_runtime platform_runtime_cache platform
  else ret tt.

Definition update_netcore_runtime (platforms : list string) : M unit :=
  refresh_cache platforms ;;
  match platforms with
  | [] => print LNoPlatforms
  | _ :: _ =>
      for_ platforms process_platform ;;
      print LComplete
  end.

(** [main], with [sys.argv] as its argument. *)
Definition main (argv : list string) : M unit :=
  print LRule ;;
  print LStarted ;;
  print (LArguments argv) ;;
  print LRule ;;
  update_netcore_runtime (tail argv).

(** * The vocabulary of the statements

    What the lemmas and the theorems below speak of: places in the tree,
    what a computation guarantees, and the events a run leaves in the
    trace. *)

(** The place [loc] of the tree [n] holds a directory. *)
Definition is_dir (n : node) (loc : location) : Prop :=
  ∃ m, Fs.lookup n loc = Some (Dir m).

(** The place holds a regular file. *)
Definition is_file (n : node) (loc : location) : Prop :=
  ∃ d, Fs.lookup n loc = Some (File d).

(** A place that holds nothing or a regular file: replacing what it
    holds takes no directory away. *)
Definition leaf (n : node) (loc : location) : Prop :=
  Fs.lookup n loc = None ∨ is_file n loc.

(** What a place holds, as far as the rest of the tree can tell: a file
    with its content, or a directory. *)
Inductive kind := KFile (d : string) | KDir.

Definition kind_of (n : node) (q : location) : option kind :=
  match Fs.lookup n q with
  | Some (File d) => Some (KFile d)
  | Some (Dir _) => Some KDir
  | None => None
  end.

(** A name that path resolution takes as it is: not empty, not [.] or
    [..], without a separator. *)
Definition plain (c : string) : Prop :=
  c ≠ "" ∧ c ≠ "." ∧ c ≠ ".." ∧ PyStr.contains "/" c = false.

(** What [os.path.exists] answers. *)
Definition path_exists (w : world) (path : string) : bool :=
  match Fs.stat (fs w) (cwd w) path with
  | Fs.IsFile _ _ | Fs.IsDir _ _ => true
  | Fs.Absent _ | Fs.Failed _ => false
  end.

(** [wp m Q w]: the outcome and the final state of [m] from [w]
    satisfy [Q]. *)
Definition wp {A} (m : M A) (Q : outcome A → world → Prop) (w : world) : Prop :=
  Q (m w).1 (m w).2.

(** Every directory stays a directory and every file a file. *)
Definition grows (n n' : node) : Prop :=
  ∀ q, (is_dir n q → is_dir n' q) ∧ (is_file n q → is_file n' q).

(** Nothing changes at the places that are not below [B]. *)
Definition inside (B : location) (n n' : node) : Prop :=
  ∀ q, ¬ B `prefix_of` q → kind_of n' q = kind_of n q.

(** What extraction can do to the tree: it only adds, and only below
    the target directory. *)
Definition extended (B : location) (w w' : world) : Prop :=
  grows (fs w) (fs w') ∧ inside B (fs w) (fs w')
  ∧ cwd w' = cwd w ∧ env w' = env w ∧ trace w' = trace w.

(** Relations between the world before and after a computation. *)
Definition respects {A} (R : world → world → Prop) (m : M A) : Prop :=
  ∀ w, wp m (λ _ w', R w w') w.

(** A relation every step that only writes to the trace respects. *)
Class Steady (R : world → world → Prop) := {
  steady_refl w : R w w;
  steady_trans w1 w2 w3 : R w1 w2 → R w2 w3 → R w1 w3
}.

(** A relation that allows every addition to the trace. *)
Class Logging (R : world → world → Prop) := {
  steady_log e w : R w (log e w)
}.

(** A relation that does not look at the tree. *)
Class TreeBlind (R : world → world → Prop) := {
  blind_fs n w : R w (with_fs n w)
}.

(** The file does not exist. *)
Definition gone (file : string) (w : world) : Prop := path_exists w file = false.

(** Every computation only appends to the trace and leaves the working
    directory and the environment alone. *)
Definition advances (w w' : world) : Prop :=
  cwd w' = cwd w ∧ env w' = env w ∧ ∃ evs, trace w' = trace w ++ evs.

(** What a handler prints for the exception it takes. *)
Definition failure_report (url : string) (e : exn) : list event :=
  match e with
  | URLError _ => [Print (LNetworkError url); Print (LDetails e)]
  | TarError _ => [Print (LTarFailed e)]
  | BadZipFile _ => [Print (LZipFailed e)]
  | _ => [Print (LUnexpected e)]
  end.

(** The calls of the cleanup. *)
Definition cleanup_events (w : world) (path : string) : list event :=
  Call (CExists path)
  :: (if path_exists w path then [Call (CRemove path)] else []).

(** Directories are kept, nothing outside [B] changes, and the
    temporary file is not a directory. *)
Definition kept (n0 : node) (c0 B : location) (w : world) : Prop :=
  (∀ q, is_dir n0 q → is_dir (fs w) q) ∧ inside B n0 (fs w) ∧ cwd w = c0
  ∧ ¬ is_dir (fs w) (B ++ ["download.tmp"]).

(** A step that keeps this. *)
Definition keeps (n0 : node) (c0 B : location) (w w' : world) : Prop :=
  kept n0 c0 B w → kept n0 c0 B w'.

(** The place of the cache directory [Dependencies/dotnet]. *)
Definition root_loc (w : world) : location := cwd w ++ ["Dependencies"; "dotnet"].

(** The trace of the version bookkeeping, for the version [cv] that was
    read and for a cache that was removed ([wipe]) or not. *)
Definition refresh_events (platforms : list string) (cv : option string)
    (wipe : bool) : list event :=
  [Print (LStarting platforms); Print (LCacheDir runtime_cache);
   Call (COpenRead version_file_path); Print (LCurrentVersion cv);
   Print (LExpectedVersion DOTNET_RUNTIME_VERSION)]
  ++ (if decide (cv ≠ Some DOTNET_RUNTIME_VERSION)
      then [Call (CExists runtime_cache)] else [])
  ++ (if wipe then [Print LClearing; Call (CRmtree runtime_cache)] else [])
  ++ [Print (LCreating runtime_cache); Call (CMakedirs runtime_cache);
      Print (LWritingVersion version_file_path);
      Call (COpenWrite version_file_path DOTNET_RUNTIME_VERSION)].

(** The place of the stamp. *)
Definition version_loc (w : world) : location := root_loc w ++ ["VERSION"].

(** The calls of the version bookkeeping. *)
Definition bookkeeping (e : event) : Prop :=
  match e with
  | Print _ => True
  | Call (COpenRead path) => path = version_file_path
  | Call (CExists path) | Call (CRmtree path) | Call (CMakedirs path) =>
      path = runtime_cache
  | Call (COpenWrite path data) =>
      path = version_file_path ∧ data = DOTNET_RUNTIME_VERSION
  | Call _ => False
  end.

(** The events added to the trace all satisfy [P]. *)
Definition only (P : event → Prop) (w w' : world) : Prop :=
  ∃ evs, trace w' = trace w ++ evs ∧ Forall P evs.

(** A platform directory that exists and is not empty. *)
Definition populated (w : world) (platform : string) : Prop :=
  ∃ loc m, Fs.stat (fs w) (cwd w) (p runtime_cache [platform]) = Fs.IsDir loc m
           ∧ m ≠ ∅.

(** A request to the network. *)
Definition is_fetch (e : event) : Prop :=
  ∃ url file, e = Call (CUrlretrieve url file).

(** The trace of a download up to its request to the network. *)
Definition fetch_events (url file dir : string) : list event :=
  [Print (LUrl url); Print (LTargetDir dir); Print (LTempFile file);
   Print LStartingDownload; Call (CUrlretrieve url file)].

(** The temporary file of a target directory. *)
Definition temp_file (dir : string) : string := p dir ["download.tmp"].

(** What [process_platform] does before it calls
    [download_platform_runtime], for a directory that is missing
    ([fresh]) or empty. *)
Definition entry_events (platform : string) (fresh : bool) : list event :=
  let dir := p runtime_cache [platform] in
  [Print (LProcessing platform); Print (LPlatformDir dir); Call (CExists dir)]
  ++ (if fresh then [Print LDirMissing; Call (CExists dir); Call (CMkdir dir)]
      else [Call (CListdir dir); Print LDirEmpty; Call (CExists dir)]).

(** A platform whose directory is missing or empty. *)
Definition needs_download (w : world) (platform : string) (B : location)
    (fresh : bool) : Prop :=
  Fs.stat (fs w) (cwd w) (p runtime_cache [platform])
  = if fresh then Fs.Absent B else Fs.IsDir B ∅.

(** The stamp is a regular file that holds the expected version. *)
Definition stamped (w : world) : Prop :=
  Fs.stat (fs w) (cwd w) version_file_path
  = Fs.IsFile (version_loc w) DOTNET_RUNTIME_VERSION.

(** The state in which [process_platform] enters the [try] statement of
    [download_platform_runtime], for a platform of the table whose
    directory at [B] was missing ([fresh]) or empty. *)
Definition guard_entry (platform : string) (B : location) (fresh : bool)
    (w : world) : world :=
  let w1 := with_trace (trace w ++ entry_events platform fresh
                          ++ [Print (LDownloading platform)]) w in
  if fresh then with_fs (Fs.put (fs w) B (Some (Dir ∅))) w1 else w1.

(** The archive of a platform was asked for. *)
Definition fetched (evs : list event) (platform : string) : Prop :=
  ∃ url, DOTNET_RUNTIME_DOWNLOADS !! platform = Some url
         ∧ Call (CUrlretrieve url (temp_file (p runtime_cache [platform]))) ∈ evs.

(** A platform of the table. *)
Definition supported (platform : string) : Prop :=
  is_Some (DOTNET_RUNTIME_DOWNLOADS !! platform).

(** The trace when [urlretrieve] asks the network. *)
Definition request_trace (w : world) (platform url dir : string) : list event :=
  trace w
  ++ [Print (LDownloading platform); Print (LUrl url); Print (LTargetDir dir);
      Print (LTempFile (temp_file dir)); Print LStartingDownload].

(** The trace when a download of [data] has been measured. *)
Definition peek_trace (w : world) (platform url dir data : string) : list event :=
  request_trace w platform url dir
  ++ [Call (CUrlretrieve url (temp_file dir)); Call (CExists (temp_file dir));
      Call (CGetsize (temp_file dir));
      Print (LDownloaded (Z.of_nat (String.length data)))].

(** The state then: the temporary file holds [data]. *)
Definition peek_state (w : world) (platform url dir : string) (B : location)
    (data : string) : world :=
  with_fs (Fs.put (fs w) (B ++ ["download.tmp"]) (Some (File data)))
    (with_trace (peek_trace w platform url dir data) w).

(** The markers of an HTML page. *)
Definition html_markers (content : string) : bool :=
  PyStr.contains "html" (PyStr.lower content)
  || PyStr.contains "<!doctype" (PyStr.lower content).

(** The calls that open an archive. *)
Definition is_extraction (e : event) : Prop :=
  match e with
  | Call (CTarExtract _ _) | Call (CZipExtract _ _) => True
  | _ => False
  end.

(** An event that opens no archive. *)
Definition quiet (e : event) : Prop := ¬ is_extraction e.

(** The event [c], then events that satisfy [P]. *)
Definition after (c : event) (P : event → Prop) (w w' : world) : Prop :=
  ∃ evs, trace w' = trace w ++ c :: evs ∧ Forall P evs.

(** The file member [path] with the content [d] is the last member of
    [ms] that is written to its place. *)
Definition last_file (ms : list member) (path : list string) (d : string)
  : Prop :=
  ∃ ms1 ms2, ms = ms1 ++ MFile path d :: ms2
    ∧ ∀ path' d', MFile path' d' ∈ ms2 → member_path path' ≠ member_path path.

(** The tree [n'] holds the members [ms] in the directory at [base]: every
    file member with its content (but for a member in the place [F] of
    the archive, which is removed afterwards), every directory member as
    a directory; and the places outside [base] and [F] hold what they
    held in [n]. *)
Definition unpacked (ms : list member) (base F : location) (n n' : node)
  : Prop :=
  (∀ path d, last_file ms path d → base ++ member_path path ≠ F →
     Fs.lookup n' (base ++ member_path path) = Some (File d))
  ∧ (∀ path, MDir path ∈ ms → is_dir n' (base ++ member_path path))
  ∧ (∀ q, ¬ base `prefix_of` q → ¬ F `prefix_of` q →
       kind_of n' q = kind_of n q).

(** The place of [Dependencies]. *)
Definition deps_loc (w : world) : location := cwd w ++ ["Dependencies"].

(** What reading the stamp raises, by what is in its place, when that is
    not [FileNotFoundError]. *)
Definition stamp_fault (st : Fs.found) : option exn :=
  match st with
  | Fs.IsDir _ _ => Some (IsADirectoryError version_file_path)
  | Fs.Failed Fs.ENOTDIR => Some (NotADirectoryError version_file_path)
  | _ => None
  end.

(** The lines other than the one that opens a platform and the one for
    an unknown format. *)
Definition ordinary (l : line) : Prop :=
  match l with
  | LProcessing _ | LUnknownFormat _ => False
  | _ => True
  end.

(** Events whose lines satisfy [L]; calls are free. *)
Definition prints_only (L : line → Prop) (e : event) : Prop :=
  match e with
  | Print l => L l
  | Call _ => True
  end.

(** The line for an unknown format is not printed. *)
Definition format_known (l : line) : Prop :=
  match l with
  | LUnknownFormat _ => False
  | _ => True
  end.

(** The platforms that the trace opens, in order. *)
Fixpoint processed (evs : list event) : list string :=
  match evs with
  | [] => []
  | Print (LProcessing platform) :: evs' => platform :: processed evs'
  | _ :: evs' => processed evs'
  end.

(** The lines and the calls of the banner. *)
Definition banner (argv : list string) : list event :=
  [Print LRule; Print LStarted; Print (LArguments argv); Print LRule].

(** The call of the extractor that the suffix of a URL selects. *)
Definition extract_call (url file dir : string) : call :=
  if PyStr.endswith url ".tar.gz" then CTarExtract file dir
  else CZipExtract file dir.

(** What the decoder of that extractor makes of the bytes. *)
Definition decoded_by (url : string) (e : environment) (data : string) : decoded :=
  if PyStr.endswith url ".tar.gz" then untar e data else unzip e data.

(** ** Worlds to run the script in *)

(** A network that serves a small archive, and decoders that read it. *)
Definition env_ok : environment := {|
  net := fun _ _ => Body "archive-bytes" None;
  untar := fun _ =>
    Readable [MDir ["shared"]; MFile ["shared"; "lib.so"] "elf";
              MFile ["dotnet"] "bin"] None;
  unzip := fun _ => Readable [MFile ["dotnet.exe"] "pe"] None;
  read_fault := fun _ => None;
  dir_size := 4096
|}.

(** A network that cannot be reached. *)
Definition env_refused : environment := {|
  net := fun _ _ => Refused (URLError "unreachable");
  untar := fun _ => Unreadable (TarError "not a gzip file");
  unzip := fun _ => Unreadable (BadZipFile "not a zip file");
  read_fault := fun _ => None;
  dir_size := 4096
|}.

(** A server that answers with an error page. *)
Definition env_html : environment := {|
  net := fun _ _ => Body "<!DOCTYPE HTML><title>404</title>" None;
  untar := fun _ => Unreadable (TarError "not a gzip file");
  unzip := fun _ => Unreadable (BadZipFile "not a zip file");
  read_fault := fun _ => None;
  dir_size := 4096
|}.

(** A download that cannot be read back as text. *)
Definition env_fault : environment := {|
  net := fun _ _ => Body "archive-bytes" None;
  untar := fun _ => Readable [MFile ["dotnet"] "bin"] None;
  unzip := fun _ => Readable [MFile ["dotnet.exe"] "pe"] None;
  read_fault := fun _ => Some (OtherError "PermissionError" "download.tmp");
  dir_size := 4096
|}.

(** A first run in the directory [home]. *)
Definition world_of (e : environment) (root : node) : world :=
  {| fs := root; cwd := ["home"]; trace := []; env := e |}.

(** No cache yet. *)
Definition tree_new : node := Dir {[ "home" := Dir ∅ ]}.

(** A cache of an older version, with a populated platform. *)
Definition tree_stale : node :=
  Dir {[ "home" := Dir {[ "Dependencies" := Dir {[ "dotnet" :=
    Dir {[ "VERSION" := File "9.0.0 ";
           "linux" := Dir {[ "dotnet" := File "old" ]} ]} ]} ]} ]}.

(** A current cache with an empty directory for linux. *)
Definition tree_empty_linux : node :=
  Dir {[ "home" := Dir {[ "Dependencies" := Dir {[ "dotnet" :=
    Dir {[ "VERSION" := File "10.0.0"; "linux" := Dir ∅ ]} ]} ]} ]}.

(** The place of the cache directory there. *)
Definition cache_loc : location := ["home"; "Dependencies"; "dotnet"].

(** The temporary file is downloaded, and the URL ends in [.rar]. *)
Definition tree_downloaded : node :=
  Dir {[ "home" := Dir {[ "Dependencies" := Dir {[ "dotnet" :=
    Dir {[ "VERSION" := File "10.0.0";
           "linux" := Dir {[ "download.tmp" := File "archive-bytes" ]} ]} ]} ]} ]}.

(** A machine on which nothing of the cache exists. *)
Definition tree_bare : node := Dir {[ "home" := Dir {[ "src" := Dir ∅ ]} ]}.

(** A stamp with white space around the version. *)
Definition tree_padded : node :=
  Dir {[ "home" := Dir {[ "Dependencies" := Dir {[ "dotnet" :=
    Dir {[ "VERSION" := File " 10.0.0 ";
           "linux" := Dir {[ "dotnet" := File "bin" ]} ]} ]} ]} ]}.

(** A directory in the place of the stamp. *)
Definition tree_stamp_dir : node :=
  Dir {[ "home" := Dir {[ "Dependencies" := Dir {[ "dotnet" :=
    Dir {[ "VERSION" := Dir ∅;
           "linux" := Dir {[ "dotnet" := File "bin" ]} ]} ]} ]} ]}.

(** A directory for [bogus], which is no platform of the table, with
    one entry. *)
Definition tree_bogus : node :=
  Dir {[ "home" := Dir {[ "Dependencies" := Dir {[ "dotnet" :=
    Dir {[ "VERSION" := File "10.0.0";
           "bogus" := Dir {[ "readme" := File "x" ]} ]} ]} ]} ]}.

(** A regular file called [mac] in the cache. *)
Definition tree_mac_file : node :=
  Dir {[ "home" := Dir {[ "Dependencies" := Dir {[ "dotnet" :=
    Dir {[ "VERSION" := File "10.0.0"; "mac" := File "" ]} ]} ]} ]}.

(** A fetch that returns and leaves no file. *)
Definition env_nofile : environment := {|
  net := fun _ _ => NoFile;
  untar := fun _ => Unreadable (TarError "not a gzip file");
  unzip := fun _ => Unreadable (BadZipFile "not a zip file");
  read_fault := fun _ => None;
  dir_size := 4096
|}.

(** An error page of more than 10240 bytes. *)
Definition page_10k : string :=
  "<!doctype html>" +:+ String.concat "" (replicate 1024 "0123456789").

(** A server that answers with it. *)
Definition env_big_page : environment := {|
  net := fun _ _ => Body page_10k None;
  untar := fun _ => Unreadable (TarError "not a gzip file");
  unzip := fun _ => Unreadable (BadZipFile "not a zip file");
  read_fault := fun _ => None;
  dir_size := 4096
|}.

(** An archive that breaks off after its first member. *)
Definition env_truncated : environment := {|
  net := fun _ _ => Body "archive-bytes" None;
  untar := fun _ =>
    Readable [MFile ["dotnet"] "bin"] (Some (TarError "unexpected end of data"));
  unzip := fun _ => Unreadable (BadZipFile "not a zip file");
  read_fault := fun _ => None;
  dir_size := 4096
|}.

(** A download that breaks off. *)
Definition env_cut : environment := {|
  net := fun _ _ => Body "archive-by" (Some (URLError "retrieval incomplete"));
  untar := fun _ => Unreadable (TarError "not a gzip file");
  unzip := fun _ => Unreadable (BadZipFile "not a zip file");
  read_fault := fun _ => None;
  dir_size := 4096
|}.

(** A server whose answer is no archive. *)
Definition env_garbled : environment := {|
  net := fun _ _ => Body "archive-bytes" None;
  untar := fun _ => Unreadable (TarError "not a gzip file");
  unzip := fun _ => Unreadable (BadZipFile "not a zip file");
  read_fault := fun _ => None;
  dir_size := 4096
|}.

(** * Lemmas *)

(** ** The tree: lookup and update *)

Section FsLemmas.
Implicit Types (n : node) (loc q : location) (x : option node).

Lemma lookup_app n l1 l2 :
  Fs.lookup n (l1 ++ l2) = Fs.lookup n l1 ≫= λ n', Fs.lookup n' l2.
Proof.
  revert n; induction l1 as [|c l1 IH]; intros n; simpl; [done|].
  destruct n as [d|m]; [done|].
  destruct (m !! c); simpl; [apply IH|done].
Qed.

Lemma lookup_snoc n l c :
  Fs.lookup n (l ++ [c]) =
  match Fs.lookup n l with
  | Some (Dir m) => m !! c
  | _ => None
  end.
Proof.
  rewrite lookup_app. destruct (Fs.lookup n l) as [[d|m]|]; simpl; try done.
  by destruct (m !! c).
Qed.

Lemma put_cons_ne n c l x c' q :
  c ≠ c' → Fs.lookup (Fs.put n (c :: l) x) (c' :: q) = Fs.lookup n (c' :: q).
Proof.
  intros Hc. destruct n as [d|m]; [done|].
  destruct l, x; simpl;
    rewrite ?lookup_insert_ne, ?lookup_delete_ne, ?lookup_alter_ne by done; done.
Qed.

Lemma put_cons_eq m c l x q n1 :
  l ≠ [] → m !! c = Some n1 →
  Fs.lookup (Fs.put (Dir m) (c :: l) x) (c :: q) = Fs.lookup (Fs.put n1 l x) q.
Proof.
  intros Hl Hm. destruct l; [done|]. simpl. by rewrite lookup_alter_eq, Hm.
Qed.

Lemma leaf_cons m c l n1 :
  m !! c = Some n1 → leaf (Dir m) (c :: l) → leaf n1 l.
Proof.
  intros Hm [Hl|[d Hl]]; simpl in Hl; rewrite Hm in Hl; [by left|right; by exists d].
Qed.

(** Nothing that is not a directory moves when a leaf is replaced. *)
Lemma put_leaf_keeps n loc x q y :
  leaf n loc → Fs.lookup n q = Some y → q ≠ loc →
  (∀ m, y ≠ Dir m) →
  Fs.lookup (Fs.put n loc x) q = Some y.
Proof.
  revert n q. induction loc as [|c l IH]; intros n q Hl Hq Hne Hy; [exact Hq|].
  destruct n as [d|m]; [done|].
  destruct q as [|c' q']; simpl in Hq.
  { simplify_eq. by destruct (Hy m). }
  destruct (decide (c = c')) as [<-|Hc]; [|by rewrite put_cons_ne].
  destruct (m !! c) as [n1|] eqn:Hm; [|done].
  pose proof (leaf_cons _ _ _ _ Hm Hl) as Hl1.
  destruct l as [|c2 l].
  - exfalso. destruct q' as [|c3 q']; [done|].
    destruct Hl1 as [Hl1|[d Hl1]]; simpl in Hl1; simplify_eq.
  - simpl. rewrite lookup_alter_eq, Hm. simpl.
    apply IH; [done|done|congruence|done].
Qed.

(** Directories stay directories when a leaf is replaced. *)
Lemma put_leaf_dirs n loc x q :
  leaf n loc → is_dir n q → is_dir (Fs.put n loc x) q.
Proof.
  revert n q. induction loc as [|c l IH]; intros n q Hl Hq; [exact Hq|].
  destruct n as [d|m]; [done|].
  destruct q as [|c' q'].
  { destruct l, x; simpl; eexists; done. }
  destruct Hq as [mq Hq]. simpl in Hq.
  destruct (decide (c = c')) as [<-|Hc];
    [|exists mq; by rewrite put_cons_ne].
  destruct (m !! c) as [n1|] eqn:Hm; [|done].
  pose proof (leaf_cons _ _ _ _ Hm Hl) as Hl1.
  destruct l as [|c2 l].
  - exfalso. destruct Hl1 as [Hl1|[d Hl1]]; simpl in Hl1; simplify_eq.
    destruct q'; done.
  - unfold is_dir. simpl. rewrite lookup_alter_eq, Hm. simpl.
    apply IH; [done|by exists mq].
Qed.

Lemma lookup_put_here n par c x m :
  Fs.lookup n par = Some (Dir m) →
  Fs.lookup (Fs.put n (par ++ [c]) x) (par ++ [c]) = x.
Proof.
  revert n. induction par as [|c0 par IH]; intros n Hp; simpl in Hp.
  - simplify_eq. destruct x; simpl;
      rewrite ?lookup_insert_eq, ?lookup_delete_eq; done.
  - destruct n as [d|m0]; [done|].
    destruct (m0 !! c0) as [n1|] eqn:Hm; [|done].
    change ((c0 :: par) ++ [c]) with (c0 :: (par ++ [c])).
    rewrite (put_cons_eq _ _ _ _ _ n1); [by apply IH|by destruct par|done].
Qed.

Lemma lookup_put_parent n par c x m :
  Fs.lookup n par = Some (Dir m) →
  Fs.lookup (Fs.put n (par ++ [c]) x) par =
  Some (Dir match x with Some v => <[c:=v]> m | None => delete c m end).
Proof.
  revert n. induction par as [|c0 par IH]; intros n Hp; simpl in Hp.
  - simplify_eq. by destruct x.
  - destruct n as [d|m0]; [done|].
    destruct (m0 !! c0) as [n1|] eqn:Hm; [|done].
    change ((c0 :: par) ++ [c]) with (c0 :: (par ++ [c])).
    rewrite (put_cons_eq _ _ _ _ _ n1); [by apply IH|by destruct par|done].
Qed.

Lemma put_put n loc x y : Fs.put (Fs.put n loc x) loc y = Fs.put n loc y.
Proof.
  revert n. induction loc as [|c l IH]; intros n; [done|].
  destruct n as [d|m]; [done|].
  destruct l as [|c2 l].
  - destruct x, y; simpl; f_equal;
      rewrite ?insert_insert_eq, ?delete_insert_eq, ?insert_delete_eq,
              ?delete_delete_eq; done.
  - simpl. f_equal. rewrite alter_alter_eq.
    apply alter_ext. intros n1 _. apply IH.
Qed.

Lemma put_same n loc x :
  loc ≠ [] → Fs.lookup n loc = x → Fs.put n loc x = n.
Proof.
  revert n. induction loc as [|c l IH]; intros n Hne Hl; [done|].
  destruct n as [d|m]; [done|]. simpl in Hl.
  destruct l as [|c2 l].
  - destruct (m !! c) eqn:Hm; subst x; simpl; f_equal.
    + by apply insert_id.
    + by apply delete_id.
  - simpl. f_equal. destruct (m !! c) as [n1|] eqn:Hm.
    + apply map_eq. intros i. rewrite lookup_alter.
      case_decide; subst; [|done]. rewrite Hm. simpl. f_equal. by apply IH.
    + apply map_eq. intros i. rewrite lookup_alter.
      case_decide; subst; [|done]. by rewrite Hm.
Qed.

Lemma put_undo n loc y :
  loc ≠ [] → Fs.lookup n loc = None →
  Fs.put (Fs.put n loc (Some y)) loc None = n.
Proof. intros. rewrite put_put. by apply put_same. Qed.

(** Resolution only asks whether the places it goes through are
    directories. *)
Lemma walk_stable n n' cur cs l :
  (∀ q, is_dir n q → is_dir n' q) →
  Fs.walk n cur cs = inr l → Fs.walk n' cur cs = inr l.
Proof.
  intros Hd. revert cur. induction cs as [|c cs IH]; intros cur Hw; [done|].
  simpl in *. destruct (Fs.lookup n cur) as [[d|m]|] eqn:Hc; try done.
  destruct (Hd cur) as [m' ->]; [by exists m|]. by apply IH.
Qed.

Lemma walk_app n cur cs1 cs2 :
  Fs.walk n cur (cs1 ++ cs2) =
  match Fs.walk n cur cs1 with
  | inr l => Fs.walk n l cs2
  | inl e => inl e
  end.
Proof.
  revert cur. induction cs1 as [|c cs1 IH]; intros cur; [done|].
  simpl. destruct (Fs.lookup n cur) as [[d|m]|]; try done.
Qed.
End FsLemmas.

(** ** Kinds of entries, plain names *)

Section More.
Implicit Types (n : node) (loc q : location) (x : option node).

Lemma put_outside n loc x q :
  ¬ loc `prefix_of` q → kind_of (Fs.put n loc x) q = kind_of n q.
Proof.
  revert n q. induction loc as [|c l IH]; intros n q Hp.
  { destruct Hp. apply prefix_nil. }
  destruct n as [d|m]; [done|].
  destruct q as [|c' q'].
  { destruct l, x; done. }
  unfold kind_of.
  destruct (decide (c = c')) as [<-|Hc]; [|by rewrite put_cons_ne].
  destruct l as [|c2 l].
  { destruct Hp. by apply prefix_cons, prefix_nil. }
  simpl. rewrite lookup_alter_eq. destruct (m !! c) as [n1|]; [|done].
  simpl. apply (IH n1 q'). intros Hq. apply Hp. by apply prefix_cons.
Qed.

Lemma below_leaf n loc q :
  leaf n loc → loc `prefix_of` q → q ≠ loc → Fs.lookup n q = None.
Proof.
  intros Hl [r ->] Hne. rewrite lookup_app.
  destruct Hl as [->|[d ->]]; [done|]. simpl.
  destruct r; [by rewrite app_nil_r in Hne|done].
Qed.

Lemma lookup_prefix_dir n par c y :
  Fs.lookup n (par ++ [c]) = Some y → is_dir n par.
Proof.
  rewrite lookup_snoc. unfold is_dir.
  destruct (Fs.lookup n par) as [[d|m]|]; try done. by exists m.
Qed.

Lemma kind_dir n q : kind_of n q = Some KDir ↔ is_dir n q.
Proof.
  unfold kind_of, is_dir. destruct (Fs.lookup n q) as [[d|m]|]; naive_solver.
Qed.

Lemma kind_file n q d : kind_of n q = Some (KFile d) ↔ Fs.lookup n q = Some (File d).
Proof.
  unfold kind_of. destruct (Fs.lookup n q) as [[d'|m]|]; naive_solver.
Qed.

Lemma kind_none n q : kind_of n q = None ↔ Fs.lookup n q = None.
Proof.
  unfold kind_of. destruct (Fs.lookup n q) as [[d'|m]|]; naive_solver.
Qed.

Lemma put_leaf_dirs' n loc x q :
  leaf n loc → is_dir n q → is_dir (Fs.put n loc x) q.
Proof.
  intros Hl Hq. apply kind_dir. rewrite put_outside; [by apply kind_dir|].
  intros Hp. destruct Hq as [m Hq].
  destruct (decide (q = loc)) as [->|Hne].
  - destruct Hl as [Hl|[d Hl]]; congruence.
  - by rewrite (below_leaf n loc q) in Hq.
Qed.
End More.

(** ** Strings and paths *)

Section Strings.
Implicit Types (s t b : string) (c : ascii).

Lemma startswith_sep_cons c s :
  PyStr.startswith (String c s) "/" = Ascii.eqb c Path.sep.
Proof.
  unfold PyStr.startswith. cbn [String.prefix].
  destruct (ascii_dec "/" c) as [<-|Hne]; [by destruct s|].
  symmetry. apply Ascii.eqb_neq. unfold Path.sep. congruence.
Qed.

Lemma contains_sep_cons c s :
  PyStr.contains "/" (String c s) = Ascii.eqb c Path.sep || PyStr.contains "/" s.
Proof.
  cbn [PyStr.contains]. f_equal. apply startswith_sep_cons.
Qed.

Lemma pieces_nonempty s : Path.pieces s ≠ [].
Proof.
  destruct s as [|c s]; simpl; [done|].
  destruct (Ascii.eqb c Path.sep); [done|]. by destruct (Path.pieces s).
Qed.

Lemma pieces_plain b : PyStr.contains "/" b = false → Path.pieces b = [b].
Proof.
  induction b as [|c b IH]; [done|]. rewrite contains_sep_cons.
  intros [Hc Hb]%orb_false_elim. simpl. rewrite Hc, (IH Hb). done.
Qed.

Lemma pieces_sep s t :
  Path.pieces (s +:+ String Path.sep t) = Path.pieces s ++ Path.pieces t.
Proof.
  induction s as [|c s IH]; simpl.
  - done.
  - destruct (Ascii.eqb c Path.sep); [by rewrite IH|].
    rewrite IH. pose proof (pieces_nonempty s).
    by destruct (Path.pieces s).
Qed.

Lemma components_sep s t :
  Path.components (s +:+ String Path.sep t) =
  Path.components s ++ Path.components t.
Proof. unfold Path.components. by rewrite pieces_sep, filter_app. Qed.

Lemma components_plain b : plain b → Path.components b = [b].
Proof.
  intros (Hne & _ & _ & Hs). unfold Path.components.
  rewrite (pieces_plain b Hs). by rewrite filter_cons_True, filter_nil.
Qed.

Lemma endswith_cons c s suf :
  PyStr.endswith (String c s) suf =
  String.eqb (String c s) suf || PyStr.endswith s suf.
Proof. done. Qed.

Lemma endswith_sep_inv s :
  PyStr.endswith s "/" = true → ∃ s', s = s' +:+ "/".
Proof.
  induction s as [|c s IH]; [done|]. rewrite endswith_cons.
  intros [H|H]%orb_true_elim.
  - apply String.eqb_eq in H. exists "". by rewrite H.
  - destruct (IH H) as [s' ->]. by exists (String c s').
Qed.

Lemma endswith_no_sep b :
  PyStr.contains "/" b = false → PyStr.endswith b "/" = false.
Proof.
  induction b as [|c b IH]; [done|]. rewrite contains_sep_cons.
  intros [Hc Hb]%orb_false_elim. rewrite endswith_cons, (IH Hb), orb_false_r.
  apply String.eqb_neq. intros [= -> _]. done.
Qed.

Lemma endswith_app_plain s b :
  plain b → PyStr.endswith (s +:+ b) "/" = false.
Proof.
  intros (Hne & _ & _ & Hs).
  induction s as [|c s IH]; [by apply endswith_no_sep|].
  change (String c s +:+ b) with (String c (s +:+ b)).
  rewrite endswith_cons, IH, orb_false_r.
  apply String.eqb_neq. intros [= -> E]. by destruct s, b.
Qed.

Lemma startswith_app s t :
  s ≠ "" → PyStr.startswith (s +:+ t) "/" = PyStr.startswith s "/".
Proof.
  destruct s as [|c s]; [done|]. intros _.
  change (String c s +:+ t) with (String c (s +:+ t)).
  by rewrite !startswith_sep_cons.
Qed.

Lemma startswith_plain b : plain b → PyStr.startswith b "/" = false.
Proof.
  intros (Hne & _ & _ & Hs). destruct b as [|c b]; [done|].
  rewrite contains_sep_cons in Hs. apply orb_false_elim in Hs as [Hc _].
  by rewrite startswith_sep_cons.
Qed.

Lemma append_assoc s t u : (s +:+ t) +:+ u = s +:+ t +:+ u.
Proof.
  induction s as [|c s IH]; [done|].
  change ((String c s +:+ t) +:+ u) with (String c ((s +:+ t) +:+ u)).
  by rewrite IH.
Qed.

Lemma join2_plain s b :
  plain b →
  Path.components (Path.join2 s b) = Path.components s ++ [b]
  ∧ Path.has_trailing_sep (Path.join2 s b) = false
  ∧ Path.join2 s b ≠ ""
  ∧ (s ≠ "" → Path.is_absolute (Path.join2 s b) = Path.is_absolute s)
  ∧ (s = "" → Path.join2 s b = b).
Proof.
  intros Hb. pose proof Hb as (Hne & _ & _ & Hs).
  unfold Path.join2, Path.has_trailing_sep, Path.is_absolute.
  rewrite (startswith_plain b Hb).
  destruct (String.eqb s "") eqn:Es.
  { apply String.eqb_eq in Es as ->.
    change ("" +:+ b) with b. cbn [orb].
    rewrite (components_plain b Hb).
    split_and!; try done. apply (endswith_app_plain "" b Hb). }
  apply String.eqb_neq in Es. cbn [orb].
  destruct (PyStr.endswith s "/") eqn:Ee.
  - split_and!; try done.
    + destruct (endswith_sep_inv s Ee) as [s' ->].
      rewrite append_assoc.
      change ("/" +:+ b) with (String Path.sep b).
      change (s' +:+ "/") with (s' +:+ String Path.sep "").
      rewrite !components_sep, (components_plain b Hb).
      change (Path.components "") with (@nil string). by rewrite app_nil_r.
    + apply endswith_app_plain, Hb.
    + destruct s, b; done.
    + intros _. by apply startswith_app.
  - change ("/" +:+ b) with (String Path.sep b).
    rewrite components_sep, (components_plain b Hb).
    split_and!; try done.
    + change (s +:+ String Path.sep b) with (s +:+ "/" +:+ b).
      rewrite <- append_assoc. apply endswith_app_plain, Hb.
    + destruct s; done.
    + intros _. by apply startswith_app.
Qed.
End Strings.

(** ** Path resolution *)

Section Resolve.
Implicit Types (n : node) (loc q : location) (x : option node).

Lemma step_plain cur c : plain c → Fs.step cur c = cur ++ [c].
Proof.
  intros (_ & H1 & H2 & _). unfold Fs.step.
  by rewrite !decide_False.
Qed.

Lemma resolve_stable n n' cwd path l :
  (∀ q, is_dir n q → is_dir n' q) →
  Fs.resolve n cwd path = inr l → Fs.resolve n' cwd path = inr l.
Proof.
  unfold Fs.resolve. intros Hd. case_decide; [done|]. by apply walk_stable.
Qed.

Lemma walk_snoc_plain n cur cs c :
  plain c →
  Fs.walk n cur (cs ++ [c]) =
  match Fs.walk n cur cs with
  | inr l =>
      match Fs.lookup n l with
      | Some (Dir _) => inr (l ++ [c])
      | Some (File _) => inl Fs.ENOTDIR
      | None => inl Fs.ENOENT
      end
  | inl e => inl e
  end.
Proof.
  intros Hc. rewrite walk_app. destruct (Fs.walk n cur cs) as [e|l]; [done|].
  simpl. by rewrite (step_plain _ _ Hc).
Qed.

(** The path of an entry [name] of [dir]. *)
Lemma resolve_join n cwd dir name :
  plain name → dir ≠ "" →
  Fs.resolve n cwd (Path.join2 dir name) =
  match Fs.resolve n cwd dir with
  | inr l =>
      match Fs.lookup n l with
      | Some (Dir _) => inr (l ++ [name])
      | Some (File _) => inl Fs.ENOTDIR
      | None => inl Fs.ENOENT
      end
  | inl e => inl e
  end.
Proof.
  intros Hp Hd. destruct (join2_plain dir name Hp) as (Hc & _ & Hne & Ha & _).
  unfold Fs.resolve. rewrite !decide_False by done.
  rewrite Hc, (Ha Hd). by apply walk_snoc_plain.
Qed.

Lemma resolve_join_parent n cwd dir name l :
  plain name →
  Fs.resolve n cwd (Path.join2 dir name) = inr l →
  ∃ par, l = par ++ [name] ∧ is_dir n par.
Proof.
  intros Hp. destruct (decide (dir = "")) as [->|Hd].
  - destruct (join2_plain "" name Hp) as (_ & _ & Hne & _ & He).
    rewrite (He eq_refl). unfold Fs.resolve. rewrite decide_False by apply Hp.
    unfold Path.is_absolute. rewrite (startswith_plain _ Hp).
    rewrite (components_plain _ Hp). simpl.
    destruct (Fs.lookup n cwd) as [[d|m]|] eqn:E; try done.
    rewrite (step_plain _ _ Hp). intros [= <-]. exists cwd. split; [done|by exists m].
  - rewrite (resolve_join _ _ _ _ Hp Hd).
    destruct (Fs.resolve n cwd dir) as [e|l0]; [done|].
    destruct (Fs.lookup n l0) as [[d|m]|] eqn:E; try done.
    intros [= <-]. exists l0. split; [done|by exists m].
Qed.

Lemma stat_join n cwd dir name :
  plain name → dir ≠ "" →
  Fs.stat n cwd (Path.join2 dir name) =
  match Fs.stat n cwd dir with
  | Fs.IsDir l m =>
      match m !! name with
      | None => Fs.Absent (l ++ [name])
      | Some (File d) => Fs.IsFile (l ++ [name]) d
      | Some (Dir m') => Fs.IsDir (l ++ [name]) m'
      end
  | Fs.IsFile _ _ => Fs.Failed Fs.ENOTDIR
  | Fs.Absent _ => Fs.Failed Fs.ENOENT
  | Fs.Failed e => Fs.Failed e
  end.
Proof.
  intros Hp Hd. unfold Fs.stat. rewrite (resolve_join _ _ _ _ Hp Hd).
  destruct (join2_plain dir name Hp) as (_ & -> & _).
  destruct (Fs.resolve n cwd dir) as [e|l]; [done|].
  destruct (Fs.lookup n l) as [[d|m]|] eqn:E.
  - by destruct (Path.has_trailing_sep dir).
  - rewrite lookup_snoc, E. by destruct (m !! name) as [[?|?]|].
  - done.
Qed.

(** What [stat] says is what resolution and lookup say. *)
Lemma stat_IsFile n cwd path l d :
  Fs.stat n cwd path = Fs.IsFile l d ↔
  Fs.resolve n cwd path = inr l ∧ Fs.lookup n l = Some (File d)
  ∧ Path.has_trailing_sep path = false.
Proof.
  unfold Fs.stat. destruct (Fs.resolve n cwd path) as [e|l']; [naive_solver|].
  destruct (Fs.lookup n l') as [[d'|m]|] eqn:E;
    [destruct (Path.has_trailing_sep path)|..]; naive_solver.
Qed.

Lemma stat_IsDir n cwd path l m :
  Fs.stat n cwd path = Fs.IsDir l m ↔
  Fs.resolve n cwd path = inr l ∧ Fs.lookup n l = Some (Dir m).
Proof.
  unfold Fs.stat. destruct (Fs.resolve n cwd path) as [e|l']; [naive_solver|].
  destruct (Fs.lookup n l') as [[d'|m']|] eqn:E;
    [destruct (Path.has_trailing_sep path)|..]; naive_solver.
Qed.

Lemma stat_Absent n cwd path l :
  Fs.stat n cwd path = Fs.Absent l ↔
  Fs.resolve n cwd path = inr l ∧ Fs.lookup n l = None.
Proof.
  unfold Fs.stat. destruct (Fs.resolve n cwd path) as [e|l']; [naive_solver|].
  destruct (Fs.lookup n l') as [[d'|m']|] eqn:E;
    [destruct (Path.has_trailing_sep path)|..]; naive_solver.
Qed.

(** Replacing the leaf a path resolves to. *)
Lemma stat_put_leaf n cwd path par c x :
  Fs.resolve n cwd path = inr (par ++ [c]) → is_dir n par →
  leaf n (par ++ [c]) →
  Fs.resolve (Fs.put n (par ++ [c]) x) cwd path = inr (par ++ [c])
  ∧ Fs.lookup (Fs.put n (par ++ [c]) x) (par ++ [c]) = x.
Proof.
  intros Hr [m Hm] Hl. split.
  - apply (resolve_stable n); [|done]. intros q. by apply put_leaf_dirs.
  - by apply (lookup_put_here _ _ _ _ m).
Qed.
End Resolve.

(** ** Weakest preconditions *)

Section Wp.
Context {A B : Type}.
Implicit Types (m : M A) (k : A → M B) (w : world).

Lemma wp_run m Q w r w' : wp m Q w → m w = (r, w') → Q r w'.
Proof. unfold wp. intros H E. by rewrite E in H. Qed.

Lemma wp_mono m (Q Q' : outcome A → world → Prop) w :
  wp m Q w → (∀ r w', Q r w' → Q' r w') → wp m Q' w.
Proof. unfold wp. auto. Qed.

Lemma wp_ret (a : A) Q w : Q (Ok a) w → wp (ret a) Q w.
Proof. done. Qed.

Lemma wp_raise e (Q : outcome A → world → Prop) w :
  Q (Raise e) w → wp (raise e) Q w.
Proof. done. Qed.

Lemma wp_bind m k (Q : outcome B → world → Prop) w :
  wp m (λ r w', match r with
                | Ok a => wp (k a) Q w'
                | Raise e => Q (Raise e) w'
                end) w →
  wp (bind m k) Q w.
Proof. unfold wp, bind. by destruct (m w) as [[a|e] w']. Qed.

Lemma wp_try m (h : exn → option (M A)) Q w :
  wp m (λ r w', match r with
                | Ok a => Q (Ok a) w'
                | Raise e =>
                    match h e with
                    | Some k => wp k Q w'
                    | None => Q (Raise e) w'
                    end
                end) w →
  wp (try_except m h) Q w.
Proof.
  unfold wp, try_except. destruct (m w) as [[a|e] w']; [done|].
  simpl. by destruct (h e).
Qed.
End Wp.

Lemma wp_emit e (Q : outcome unit → world → Prop) w :
  Q (Ok tt) (log e w) → wp (emit e) Q w.
Proof. done. Qed.

Lemma wp_print l (Q : outcome unit → world → Prop) w :
  Q (Ok tt) (log (Print l) w) → wp (print l) Q w.
Proof. done. Qed.

(** The loop rule: an invariant kept by every normal iteration, and a
    postcondition every raising iteration establishes. *)
Lemma wp_for {A} (l : list A) (body : A → M unit)
    (I : list A → world → Prop) (Q : outcome unit → world → Prop) w :
  I l w →
  (∀ x rest w, I (x :: rest) w →
     wp (body x) (λ r w', match r with
                          | Ok _ => I rest w'
                          | Raise e => Q (Raise e) w'
                          end) w) →
  (∀ w, I [] w → Q (Ok tt) w) →
  wp (for_ l body) Q w.
Proof.
  intros HI Hstep Hend. revert w HI.
  induction l as [|x l IH]; intros w HI; simpl.
  - apply wp_ret. by apply Hend.
  - apply wp_bind. eapply wp_mono; [by apply Hstep|].
    intros [[]|e] w' H; [by apply IH|done].
Qed.

Section Prims.
Implicit Types (w : world) (path : string).

Lemma stat_log e w path :
  Fs.stat (fs (log e w)) (cwd (log e w)) path = Fs.stat (fs w) (cwd w) path.
Proof. done. Qed.

Lemma path_exists_log e w path : path_exists (log e w) path = path_exists w path.
Proof. done. Qed.

Lemma os_path_exists_eq path w :
  os_path_exists path w = (Ok (path_exists w path), log (Call (CExists path)) w).
Proof.
  unfold os_path_exists, path_exists, bind, emit, stat, ret. simpl.
  by destruct (Fs.stat (fs w) (cwd w) path).
Qed.

Lemma os_remove_eq path w :
  os_remove path w =
  let w1 := log (Call (CRemove path)) w in
  match Fs.stat (fs w) (cwd w) path with
  | Fs.IsFile loc _ => (Ok tt, with_fs (Fs.put (fs w) loc None) w1)
  | Fs.IsDir _ _ => (Raise (IsADirectoryError path), w1)
  | Fs.Absent _ => (Raise (FileNotFoundError path), w1)
  | Fs.Failed e => (Raise (oserror e path), w1)
  end.
Proof.
  unfold os_remove, bind, emit, stat, get. simpl.
  by destruct (Fs.stat (fs w) (cwd w) path).
Qed.

Lemma os_remove_gone dir name w :
  plain name →
  wp (os_remove (Path.join2 dir name))
     (λ r w', r = Ok tt → path_exists w' (Path.join2 dir name) = false) w.
Proof.
  intros Hp. unfold wp. rewrite os_remove_eq. cbv zeta.
  destruct (Fs.stat _ _ _) as [e|l|l d|l m] eqn:Hs; try done.
  intros _. cbn [fst snd]. unfold path_exists. cbn [fs cwd with_fs log with_trace].
  apply stat_IsFile in Hs as (Hr & Hl & Ht).
  destruct (resolve_join_parent _ _ _ _ _ Hp Hr) as (par & -> & Hd).
  destruct (stat_put_leaf _ _ _ par name None Hr Hd) as [Hr' Hl'].
  { right. by exists d. }
  assert (Fs.stat (Fs.put (fs w) (par ++ [name]) None) (cwd w)
            (Path.join2 dir name) = Fs.Absent (par ++ [name])) as ->; [|done].
  by apply stat_Absent.
Qed.
End Prims.

(** ** What a write changes *)

Section Shape.
Implicit Types (n : node) (loc q B : location) (x : option node).

Lemma grows_refl n : grows n n.
Proof. done. Qed.

Lemma grows_trans n1 n2 n3 : grows n1 n2 → grows n2 n3 → grows n1 n3.
Proof. intros H1 H2 q. split; intros H; by apply H2, H1. Qed.

Lemma inside_refl B n : inside B n n.
Proof. done. Qed.

Lemma inside_trans B n1 n2 n3 : inside B n1 n2 → inside B n2 n3 → inside B n1 n3.
Proof. intros H1 H2 q Hq. by rewrite H2, H1. Qed.

Lemma inside_weaken B B' n n' : B' `prefix_of` B → inside B n n' → inside B' n n'.
Proof.
  intros Hp H q Hq. apply H. intros Hb. apply Hq. by etrans.
Qed.

Lemma put_inside B n loc x : B `prefix_of` loc → inside B n (Fs.put n loc x).
Proof.
  intros Hp q Hq. apply put_outside. intros Hl. apply Hq. by etrans.
Qed.

Lemma put_new_grows n loc x : Fs.lookup n loc = None → grows n (Fs.put n loc x).
Proof.
  intros Hl q. split.
  - apply put_leaf_dirs. by left.
  - intros [d Hq]. exists d. apply put_leaf_keeps; [by left|done|congruence|done].
Qed.

Lemma put_file_grows n loc d :
  is_file n loc → grows n (Fs.put n loc (Some (File d))).
Proof.
  intros Hl q. split.
  - apply put_leaf_dirs. by right.
  - intros [d' Hq]. destruct (decide (q = loc)) as [->|Hne].
    + destruct loc as [|c l _] using rev_ind; [by exists d'|].
      destruct (lookup_prefix_dir _ _ _ _ Hq) as [m Hm].
      exists d. by apply (lookup_put_here _ _ _ _ m).
    + exists d'. apply put_leaf_keeps; [by right|done|done|done].
Qed.

Lemma step_name cur c : c ≠ "." → c ≠ ".." → Fs.step cur c = cur ++ [c].
Proof. intros. unfold Fs.step. by rewrite !decide_False. Qed.

Lemma mkdirs_grows n cur cs n' :
  Fs.mkdirs n cur cs = inr n' → grows n n'.
Proof.
  revert n cur. induction cs as [|c cs IH]; intros n cur; simpl.
  { intros [= <-]. apply grows_refl. }
  destruct (Fs.lookup n cur) as [[d|m]|]; try done.
  destruct (Fs.lookup n (Fs.step cur c)) as [[d|m']|] eqn:E; try done.
  - apply IH.
  - intros H. eapply grows_trans; [by apply put_new_grows|by eapply IH].
Qed.

Lemma mkdirs_inside B n cur cs n' :
  Forall (λ c, c ≠ "." ∧ c ≠ "..") cs → B `prefix_of` cur →
  Fs.mkdirs n cur cs = inr n' → inside B n n'.
Proof.
  intros Hcs. revert n cur. induction Hcs as [|c cs [H1 H2] _ IH]; intros n cur Hp; simpl.
  { intros [= <-]. apply inside_refl. }
  destruct (Fs.lookup n cur) as [[d|m]|]; try done.
  rewrite (step_name _ _ H1 H2).
  assert (B `prefix_of` cur ++ [c]) by by apply prefix_app_r.
  destruct (Fs.lookup n (cur ++ [c])) as [[d|m']|] eqn:E; try done.
  - by apply IH.
  - intros H'. eapply inside_trans; [by apply put_inside|by eapply IH].
Qed.

Lemma member_path_ok path :
  Forall (λ c, c ≠ "." ∧ c ≠ "..") (member_path path).
Proof.
  unfold member_path. apply Forall_forall. intros c [Hc _]%list_elem_of_filter.
  split; intros ->; apply Hc; set_solver.
Qed.

Lemma removelast_ok (P : string → Prop) l : Forall P l → Forall P (removelast l).
Proof.
  induction 1 as [|c l Hc Hl IH]; [done|]. simpl. destruct l; [done|].
  by constructor.
Qed.
End Shape.

Lemma extended_refl B w : extended B w w.
Proof. by repeat split. Qed.

Lemma extended_trans B w1 w2 w3 :
  extended B w1 w2 → extended B w2 w3 → extended B w1 w3.
Proof.
  intros (G1 & I1 & C1 & E1 & T1) (G2 & I2 & C2 & E2 & T2).
  split_and!; [by eapply grows_trans|by eapply inside_trans|congruence..].
Qed.

Lemma write_member_extended base m w :
  wp (write_member base m) (λ _ w', extended base w w') w.
Proof.
  unfold wp, write_member, bind, get, set_fs, raise. simpl.
  destruct m as [path data|path].
  - destruct (Fs.mkdirs _ _ _) as [e|n] eqn:Hm; simpl; [apply extended_refl|].
    assert (Hg : grows (fs w) n) by by eapply mkdirs_grows.
    assert (Hi : inside base (fs w) n).
    { eapply mkdirs_inside; [|done|done]. apply removelast_ok, member_path_ok. }
    destruct (Fs.lookup n (base ++ member_path path)) as [[d|m']|] eqn:Hl; simpl.
    + split_and!; try done.
      * eapply grows_trans; [done|]. apply put_file_grows. by exists d.
      * eapply inside_trans; [done|]. apply put_inside. by apply prefix_app_r.
    + by split_and!.
    + split_and!; try done.
      * eapply grows_trans; [done|]. by apply put_new_grows.
      * eapply inside_trans; [done|]. apply put_inside. by apply prefix_app_r.
  - destruct (Fs.mkdirs _ _ _) as [e|n] eqn:Hm; simpl; [apply extended_refl|].
    split_and!; try done.
    + by eapply mkdirs_grows.
    + eapply mkdirs_inside; [apply member_path_ok|done|done].
Qed.

Lemma write_members_extended base ms w :
  wp (for_ ms (write_member base)) (λ _ w', extended base w w') w.
Proof.
  apply (wp_for _ _ (λ _ w', extended base w w')).
  - apply extended_refl.
  - intros m rest w1 H1. eapply wp_mono; [apply write_member_extended|].
    intros [[]|e] w2 H2; by eapply extended_trans.
  - done.
Qed.

(** ** Relations that every step respects *)

Create HintDb resp discriminated.

Section Respects.
Context (R : world → world → Prop) `{!Steady R}.

Lemma resp_ret {A} (a : A) : respects R (ret a).
Proof. intros w. apply wp_ret, steady_refl. Qed.

Lemma resp_raise {A} e : respects R (@raise A e).
Proof. intros w. apply wp_raise, steady_refl. Qed.

Lemma resp_bind {A B} (m : M A) (k : A → M B) :
  respects R m → (∀ a, respects R (k a)) → respects R (bind m k).
Proof.
  intros Hm Hk w. apply wp_bind. eapply wp_mono; [apply Hm|].
  intros [a|e] w1 H1; [|done].
  eapply wp_mono; [apply Hk|]. intros r w2 H2. by eapply steady_trans.
Qed.

Lemma resp_try {A} (m : M A) h :
  respects R m → (∀ e k, h e = Some k → respects R k) →
  respects R (try_except m h).
Proof.
  intros Hm Hh w. apply wp_try. eapply wp_mono; [apply Hm|].
  intros [a|e] w1 H1; [done|]. destruct (h e) as [k|] eqn:E; [|done].
  eapply wp_mono; [by eapply Hh|]. intros r w2 H2. by eapply steady_trans.
Qed.

Lemma resp_for {A} (l : list A) (body : A → M unit) :
  (∀ x, respects R (body x)) → respects R (for_ l body).
Proof.
  intros Hb. induction l as [|x l IH]; simpl; [apply resp_ret|].
  apply resp_bind; [apply Hb|done].
Qed.

Lemma resp_emit `{!Logging R} e : respects R (emit e).
Proof. intros w. apply wp_emit, steady_log. Qed.

Lemma resp_print `{!Logging R} l : respects R (print l).
Proof. intros w. apply wp_print, steady_log. Qed.

Lemma resp_get : respects R get.
Proof. intros w. unfold wp, get. simpl. apply steady_refl. Qed.

Lemma resp_stat path : respects R (stat path).
Proof. intros w. unfold wp, stat. simpl. apply steady_refl. Qed.

Lemma resp_getitem d k : respects R (getitem d k).
Proof. unfold getitem. destruct (d !! k); [apply resp_ret|apply resp_raise]. Qed.

Lemma resp_set_fs `{!TreeBlind R} n : respects R (set_fs n).
Proof. intros w. unfold wp, set_fs. simpl. apply blind_fs. Qed.
End Respects.

#[export] Hint Resolve resp_ret resp_raise resp_emit resp_print resp_get
  resp_stat resp_getitem resp_set_fs : resp.
#[export] Hint Extern 1 (respects _ (bind _ _)) =>
  apply resp_bind; [apply _| |intros ?] : resp.
#[export] Hint Extern 1 (respects _ (try_except _ _)) =>
  apply resp_try; [apply _| |intros ? ? ?] : resp.
#[export] Hint Extern 1 (respects _ (for_ _ _)) =>
  apply resp_for; [apply _|intros ?] : resp.
#[export] Hint Extern 2 (respects _ (match ?x with _ => _ end)) =>
  destruct x : resp.
#[export] Hint Extern 5 (respects _ _) =>
  match goal with
  | H : _ = Some ?k |- respects _ ?k => simplify_eq
  end : resp.
#[export] Hint Extern 0 (Steady _) => apply _ : resp.
#[export] Hint Extern 0 (TreeBlind _) => apply _ : resp.
#[export] Hint Extern 0 (Logging _) => apply _ : resp.

(** The calls that do not write to the tree. *)
Section Silent.
Context (R : world → world → Prop) `{!Steady R}.

Lemma resp_read_file path : respects R (read_file path).
Proof. unfold read_file. auto 20 with resp. Qed.

Lemma resp_write_file `{!TreeBlind R} path d : respects R (write_file path d).
Proof. unfold write_file. auto 20 with resp. Qed.
End Silent.

#[export] Hint Resolve resp_read_file resp_write_file : resp.

Section Reading.
Context (R : world → world → Prop) `{!Steady R, !Logging R}.

Lemma resp_open_read path : respects R (open_read path).
Proof. unfold open_read. auto 20 with resp. Qed.
Lemma resp_open_read_text path : respects R (open_read_text path).
Proof. unfold open_read_text. auto 20 with resp. Qed.
Lemma resp_os_path_exists path : respects R (os_path_exists path).
Proof. unfold os_path_exists. auto 20 with resp. Qed.
Lemma resp_os_listdir path : respects R (os_listdir path).
Proof. unfold os_listdir. auto 20 with resp. Qed.
Lemma resp_os_path_getsize path : respects R (os_path_getsize path).
Proof. unfold os_path_getsize. auto 20 with resp. Qed.
End Reading.

#[export] Hint Resolve resp_open_read resp_open_read_text
  resp_os_path_exists resp_os_listdir resp_os_path_getsize : resp.

(** The calls that do. *)
Section Writing.
Context (R : world → world → Prop) `{!Steady R, !Logging R, !TreeBlind R}.
Lemma resp_open_write path d : respects R (open_write path d).
Proof. unfold open_write. auto 20 with resp. Qed.
Lemma resp_os_mkdir path : respects R (os_mkdir path).
Proof. unfold os_mkdir. auto 20 with resp. Qed.
Lemma resp_os_makedirs path : respects R (os_makedirs path).
Proof. unfold os_makedirs. auto 20 with resp. Qed.
Lemma resp_shutil_rmtree path : respects R (shutil_rmtree path).
Proof. unfold shutil_rmtree. auto 20 with resp. Qed.
Lemma resp_os_remove path : respects R (os_remove path).
Proof. unfold os_remove. auto 20 with resp. Qed.
Lemma resp_urlretrieve url file : respects R (urlretrieve url file).
Proof. unfold urlretrieve. auto 20 with resp. Qed.
Lemma resp_write_member base m : respects R (write_member base m).
Proof. unfold write_member. auto 20 with resp. Qed.
Hint Resolve resp_write_member : resp.
Lemma resp_extractall d dir : respects R (extractall d dir).
Proof. unfold extractall. auto 20 with resp. Qed.
Hint Resolve resp_extractall : resp.
Lemma resp_tar_extract file dir : respects R (tar_extract file dir).
Proof. unfold tar_extract. auto 20 with resp. Qed.
Lemma resp_zip_extract file dir : respects R (zip_extract file dir).
Proof. unfold zip_extract. auto 20 with resp. Qed.
End Writing.

(** The script, from calls that are known to respect [R]. *)
Section Script.
Context (R : world → world → Prop) `{!Steady R, !Logging R}.
Context (file dir : string).
Context (Hexists : respects R (os_path_exists file))
        (Hgetsize : respects R (os_path_getsize file))
        (Hpeek : respects R (open_read_text file))
        (Hremove : respects R (os_remove file))
        (Hfetch : ∀ url, respects R (urlretrieve url file))
        (Htar : respects R (tar_extract file dir))
        (Hzip : respects R (zip_extract file dir)).

Lemma resp_html_check size : respects R (html_check file size).
Proof. unfold html_check. auto 20 with resp. Qed.
Lemma resp_extract_and_clean url platform :
  respects R (extract_and_clean url file dir platform).
Proof. unfold extract_and_clean. auto 30 with resp. Qed.
Hint Resolve resp_html_check resp_extract_and_clean : resp.
Lemma resp_download_body url platform :
  respects R (download_body url file dir platform).
Proof. unfold download_body. auto 30 with resp. Qed.
Lemma resp_remove_if_exists : respects R (remove_if_exists file).
Proof. unfold remove_if_exists. auto 30 with resp. Qed.
Hint Resolve resp_download_body resp_remove_if_exists : resp.
Lemma resp_download_guarded url platform :
  respects R (download_guarded url file dir platform).
Proof.
  unfold download_guarded. apply resp_try; [apply _|auto with resp|].
  intros e k [= <-]. destruct e; auto 20 with resp.
Qed.
End Script.

(** ** The temporary file *)

Lemma plain_tmp : plain "download.tmp".
Proof. by repeat split. Qed.

Section Gone.
Context {A B : Type}.

(** Sequencing when only the last step matters. *)
Lemma wp_bind_any (m : M A) (k : A → M B) (v : B) (P : world → Prop) w :
  (∀ a w', wp (k a) (λ r w'', r = Ok v → P w'') w') →
  wp (bind m k) (λ r w'', r = Ok v → P w'') w.
Proof.
  intros Hk. apply wp_bind. unfold wp at 1.
  destruct (m w) as [[a|e] w']; simpl; [apply Hk|done].
Qed.

Lemma wp_bind_skip (m : M A) (k : A → M B) Q w :
  (∀ e w', Q (Raise e) w') → (∀ a w', wp (k a) Q w') → wp (bind m k) Q w.
Proof.
  intros Hr Hk. apply wp_bind. unfold wp at 1.
  destruct (m w) as [[a|e] w']; simpl; [apply Hk|apply Hr].
Qed.

(** A step after which the property still holds when it held. *)
Lemma wp_then_print (m : M A) l (P : world → Prop) w :
  (∀ e w', P w' → P (log e w')) →
  wp m (λ r w', ∀ a, r = Ok a → P w') w →
  wp (bind m (λ _, print l)) (λ r w', r = Ok tt → P w') w.
Proof.
  intros Hlog Hm. apply wp_bind. eapply wp_mono; [exact Hm|].
  intros [a|e] w' H; [|done]. apply wp_print. intros _. eauto.
Qed.
End Gone.

Section TempFile.
Variables (dir : string).
Let file := Path.join2 dir "download.tmp".

Lemma gone_log e w : gone file w → gone file (log e w).
Proof. done. Qed.

Lemma os_remove_tmp_gone {A} (v : A) w :
  wp (os_remove file ;; ret v) (λ r w', r = Ok v → gone file w') w.
Proof.
  apply wp_bind. eapply wp_mono; [apply (os_remove_gone dir _ w plain_tmp)|].
  intros [[]|e] w' H; [|done]. apply wp_ret. intros _. by apply H.
Qed.

Lemma html_check_gone size w :
  wp (html_check file size) (λ r w', r = Ok true → gone file w') w.
Proof.
  unfold html_check. destruct (size <? 10240)%Z; [|by apply wp_ret].
  apply wp_try. apply wp_bind. unfold wp at 1.
  destruct (open_read_text file w) as [[content|e] w1]; simpl;
    [|by apply wp_ret].
  destruct (_ || _).
  - eapply wp_mono.
    { apply wp_bind, wp_print, wp_bind, wp_print, os_remove_tmp_gone. }
    intros [b|e] w' H; [done|]. by apply wp_ret.
  - by apply wp_ret.
Qed.

Lemma extract_and_clean_gone url platform w :
  wp (extract_and_clean url file dir platform) (λ r w', r = Ok tt → gone file w') w.
Proof.
  unfold extract_and_clean. apply wp_bind, wp_print, wp_bind.
  assert (Htail : ∀ w,
    wp (print LCleaning ;; os_remove file ;; print (LDownloadComplete platform))
       (λ r w', r = Ok tt → gone file w') w).
  { intros w0. apply wp_bind, wp_print.
    apply wp_bind. eapply wp_mono; [apply (os_remove_gone dir _ _ plain_tmp)|].
    intros [[]|e] w' H; [|done]. apply wp_print. intros _. by apply gone_log, H. }
  destruct (PyStr.endswith url ".tar.gz"); [|destruct (PyStr.endswith url ".zip")].
  - apply wp_bind_skip; [done|intros _ w1].
    apply wp_bind, wp_print, wp_ret, Htail.
  - apply wp_bind_skip; [done|intros _ w1].
    apply wp_bind, wp_print, wp_ret, Htail.
  - apply wp_bind, wp_print. eapply wp_mono; [apply (os_remove_tmp_gone false)|].
    intros [[]|e] w' H; try done. apply wp_ret. intros _. by apply H.
Qed.

Lemma download_body_gone url platform w :
  wp (download_body url file dir platform) (λ r w', r = Ok tt → gone file w') w.
Proof.
  unfold download_body.
  do 4 apply wp_bind, wp_print. apply wp_bind_any. intros _ w1.
  apply wp_bind. unfold wp at 1. rewrite os_path_exists_eq. simpl.
  destruct (path_exists w1 file) eqn:E; simpl.
  - apply wp_bind_any. intros size w2. apply wp_bind, wp_print.
    apply wp_bind. eapply wp_mono; [apply html_check_gone|].
    intros [[]|e] w3 H;
      [apply wp_ret; intros _; by apply H|apply extract_and_clean_gone|done].
  - apply wp_print. intros _. exact E.
Qed.

Lemma remove_if_exists_gone w :
  wp (remove_if_exists file) (λ r w', r = Ok tt → gone file w') w.
Proof.
  unfold remove_if_exists. apply wp_bind. unfold wp at 1.
  rewrite os_path_exists_eq. simpl.
  destruct (path_exists w file) eqn:E.
  - apply (os_remove_gone dir _ _ plain_tmp).
  - apply wp_ret. intros _. exact E.
Qed.

Lemma download_guarded_gone url platform w :
  wp (download_guarded url file dir platform) (λ r w', r = Ok tt → gone file w') w.
Proof.
  unfold download_guarded. apply wp_try.
  eapply wp_mono; [apply download_body_gone|].
  intros [[]|e] w' H; [done|].
  destruct e; simpl; repeat apply wp_bind, wp_print; apply remove_if_exists_gone.
Qed.
End TempFile.

(** ** The download of one platform, seen from its directory *)

#[export] Instance advances_steady : Steady advances.
Proof.
  split.
  - intros w. split_and!; [done..|]. exists []. by rewrite app_nil_r.
  - intros w1 w2 w3 (C1 & E1 & evs1 & T1) (C2 & E2 & evs2 & T2).
    split_and!; [congruence..|]. exists (evs1 ++ evs2).
    by rewrite T2, T1, app_assoc.
Qed.

#[export] Instance advances_logging : Logging advances.
Proof. split. intros e w. split_and!; [done..|]. by exists [e]. Qed.

#[export] Instance advances_blind : TreeBlind advances.
Proof. split. intros n w. split_and!; [done..|]. exists []. by rewrite app_nil_r. Qed.

Lemma adv_download_guarded url file dir platform :
  respects advances (download_guarded url file dir platform).
Proof.
  apply resp_download_guarded; try apply _; intros;
    auto using resp_os_path_exists, resp_os_path_getsize, resp_open_read_text,
      resp_os_remove, resp_urlretrieve, resp_tar_extract, resp_zip_extract
      with typeclass_instances.
Qed.

Section Download.
Variables (n0 : node) (c0 B : location) (dir : string).
Hypothesis Hdir : Fs.resolve n0 c0 dir = inr B.
Hypothesis HB : is_dir n0 B.
Hypothesis Hne : dir ≠ "".

Let file := Path.join2 dir "download.tmp".
Let F := B ++ ["download.tmp"].

Local Abbreviation kept := (kept n0 c0 B).
Local Abbreviation keeps := (keeps n0 c0 B).

#[local] Instance keeps_steady : Steady keeps.
Proof. split; unfold keeps; [done|auto]. Qed.

#[local] Instance keeps_logging : Logging keeps.
Proof. split. by unfold keeps. Qed.

Lemma kept_resolve_dir w : kept w → Fs.resolve (fs w) (cwd w) dir = inr B.
Proof using Hdir.
  intros (Hd & _ & -> & _). by apply (resolve_stable n0).
Qed.

Lemma kept_resolve_file w : kept w → Fs.resolve (fs w) (cwd w) file = inr F.
Proof using Hdir HB Hne.
  intros Hk. unfold file. rewrite (resolve_join _ _ _ _ plain_tmp Hne).
  rewrite (kept_resolve_dir w Hk). destruct Hk as (Hd & _).
  by destruct (Hd B HB) as [m ->].
Qed.

Lemma kept_stat_dir w : kept w → ∃ m, Fs.stat (fs w) (cwd w) dir = Fs.IsDir B m.
Proof using Hdir HB.
  intros Hk. destruct Hk as (Hd & Hk). destruct (Hd B HB) as [m Hm].
  exists m. apply stat_IsDir. split; [|done].
  apply kept_resolve_dir. by split.
Qed.

Lemma kept_stat_file w :
  kept w →
  Fs.stat (fs w) (cwd w) file =
  match Fs.lookup (fs w) F with
  | None => Fs.Absent F
  | Some (File d) => Fs.IsFile F d
  | Some (Dir m) => Fs.IsDir F m
  end.
Proof using Hdir HB Hne.
  intros Hk. unfold Fs.stat. rewrite (kept_resolve_file w Hk).
  destruct (join2_plain dir "download.tmp" plain_tmp) as (_ & Ht & _).
  fold file in Ht. by rewrite Ht.
Qed.

Lemma kept_put w x :
  kept w → (∀ m, x ≠ Some (Dir m)) →
  kept (with_fs (Fs.put (fs w) F x) w).
Proof using HB.
  intros (Hd & Hi & Hc & Hf) Hx. fold F in Hf.
  assert (Hl : leaf (fs w) F).
  { unfold leaf, is_file, is_dir in *.
    destruct (Fs.lookup (fs w) F) as [[d|m]|]; [right; by exists d| |by left].
    destruct Hf. by exists m. }
  split_and!; simpl.
  - intros q Hq. by apply put_leaf_dirs, Hd.
  - eapply inside_trans; [done|]. apply put_inside. by apply prefix_app_r.
  - done.
  - intros [m Hm]. destruct (Hd B HB) as [mB HmB]. unfold F in Hm.
    rewrite (lookup_put_here _ _ _ _ mB HmB) in Hm. by destruct (Hx m).
Qed.

Lemma keeps_os_remove : respects keeps (os_remove file).
Proof using Hdir HB Hne.
  intros w. unfold wp. rewrite os_remove_eq. cbv zeta.
  destruct (Fs.stat _ _ _) as [e|l|l d|l m] eqn:Hs;
    try (intros Hk; exact Hk).
  simpl. intros Hk. rewrite (kept_stat_file w Hk) in Hs.
  assert (l = F) as -> by (by destruct (Fs.lookup (fs w) F) as [[?|?]|]; simplify_eq).
  by apply (kept_put w None).
Qed.

Lemma keeps_write_file d : respects keeps (write_file file d).
Proof using Hdir HB Hne.
  intros w. unfold wp, write_file, bind, stat, get, set_fs, raise. simpl.
  destruct (Fs.stat _ _ _) as [e|l|l d'|l m] eqn:Hs;
    try (intros Hk; exact Hk).
  - destruct (Path.has_trailing_sep file); [intros Hk; exact Hk|].
    simpl. intros Hk.
    rewrite (kept_stat_file w Hk) in Hs.
    assert (l = F) as -> by (by destruct (Fs.lookup (fs w) F) as [[?|?]|]; simplify_eq).
    by apply (kept_put w (Some (File d))).
  - simpl. intros Hk. rewrite (kept_stat_file w Hk) in Hs.
    assert (l = F) as -> by (by destruct (Fs.lookup (fs w) F) as [[?|?]|]; simplify_eq).
    by apply (kept_put w (Some (File d))).
Qed.

Lemma keeps_urlretrieve url : respects keeps (urlretrieve url file).
Proof using Hdir HB Hne.
  unfold urlretrieve. pose proof keeps_write_file. auto 20 with resp.
Qed.

Lemma keeps_write_members ms w :
  kept w → is_file (fs w) F →
  wp (for_ ms (write_member B)) (λ _ w', kept w') w.
Proof using HB.
  intros (Hd & Hi & Hc & Hf) Hfile.
  eapply wp_mono; [apply write_members_extended|]. simpl.
  intros _ w' (Hg & Hi' & Hc' & _). split_and!.
  - intros q Hq. by apply Hg, Hd.
  - by eapply inside_trans.
  - congruence.
  - intros [m Hm]. destruct (proj2 (Hg F) Hfile) as [d Hd']. unfold F in Hd'.
    congruence.
Qed.

Lemma keeps_extractall d w :
  kept w → is_file (fs w) F →
  wp (extractall d dir) (λ _ w', kept w') w.
Proof using Hdir HB Hne.
  intros Hk Hfile. unfold extractall. destruct d as [e|ms defect]; [done|].
  rewrite decide_False by done. apply wp_bind. unfold wp at 1, stat. simpl.
  destruct (kept_stat_dir w Hk) as [m ->].
  apply wp_bind. eapply wp_mono; [by apply keeps_write_members|].
  intros [[]|e] w' Hk'; [|done]. by destruct defect.
Qed.

Lemma keeps_extract (decode : environment → string → decoded) c :
  respects keeps
    (emit (Call c) ;; data <- read_file file ;; w <- get ;;
     extractall (decode (env w) data) dir).
Proof using Hdir HB Hne.
  intros w. apply wp_bind, wp_emit, wp_bind.
  unfold wp at 1, read_file, bind, stat, ret, raise. simpl.
  destruct (Fs.stat _ _ _) as [e|l|l d|l m] eqn:Hs; simpl;
    try (intros Hk; exact Hk).
  unfold wp. intros Hk.
  assert (Hk' : kept (log (Call c) w)) by done.
  rewrite (kept_stat_file w Hk) in Hs.
  refine (keeps_extractall _ (log (Call c) w) Hk' _).
  simpl. destruct (Fs.lookup (fs w) F) as [[d'|?]|] eqn:E; simplify_eq.
  by eexists.
Qed.

Lemma keeps_tar_extract : respects keeps (tar_extract file dir).
Proof using Hdir HB Hne. apply (keeps_extract untar). Qed.

Lemma keeps_zip_extract : respects keeps (zip_extract file dir).
Proof using Hdir HB Hne. apply (keeps_extract unzip). Qed.

Lemma keeps_download_body url platform :
  respects keeps (download_body url file dir platform).
Proof using Hdir HB Hne.
  apply resp_download_body; try apply _; intros;
    auto using resp_os_path_exists, resp_os_path_getsize, resp_open_read_text,
      keeps_os_remove, keeps_urlretrieve, keeps_tar_extract, keeps_zip_extract
      with typeclass_instances.
Qed.

(** The handlers return: the file they remove is not a directory. *)
Lemma remove_if_exists_returns w :
  kept w → wp (remove_if_exists file) (λ r w', r = Ok tt ∧ kept w') w.
Proof using Hdir HB Hne.
  intros Hk. unfold remove_if_exists. apply wp_bind. unfold wp at 1.
  rewrite os_path_exists_eq. simpl. unfold path_exists.
  assert (Hk' : kept (log (Call (CExists file)) w)) by done.
  pose proof (kept_stat_file w Hk) as Hs.
  destruct (Fs.lookup (fs w) F) as [[d|m]|] eqn:E; rewrite Hs.
  - unfold wp. rewrite os_remove_eq. cbv zeta. simpl. rewrite Hs. simpl.
    split; [done|].
    refine (kept_put (log _ (log _ w)) None _ _); [exact Hk|done].
  - destruct Hk as (_ & _ & _ & Hf). destruct Hf. by exists m.
  - by apply wp_ret.
Qed.

Lemma download_guarded_returns url platform w :
  kept w →
  wp (download_guarded url file dir platform) (λ r w', r = Ok tt ∧ kept w') w.
Proof using Hdir HB Hne.
  intros Hk. unfold download_guarded. apply wp_try.
  eapply wp_mono; [apply keeps_download_body|]. simpl.
  intros [[]|e] w' Hk'; [by auto|]. specialize (Hk' Hk).
  destruct e; simpl; repeat apply wp_bind, wp_print;
    by apply remove_if_exists_returns.
Qed.

Lemma remove_if_exists_events w :
  kept w →
  wp (remove_if_exists file)
     (λ r w', r = Ok tt ∧ trace w' = trace w ++ cleanup_events w file) w.
Proof using Hdir HB Hne.
  intros Hk. unfold remove_if_exists, cleanup_events. apply wp_bind.
  unfold wp at 1.
  rewrite os_path_exists_eq. simpl. unfold path_exists.
  pose proof (kept_stat_file w Hk) as Hs.
  destruct (Fs.lookup (fs w) F) as [[d|m]|] eqn:E; rewrite Hs.
  - unfold wp. rewrite os_remove_eq. cbv zeta. simpl. rewrite Hs. simpl.
    by rewrite <- app_assoc.
  - destruct Hk as (_ & _ & _ & Hf). destruct Hf. by exists m.
  - by apply wp_ret.
Qed.

(** An exception of the guarded region is reported, the temporary
    file is looked for and removed, and the statement completes. *)
Lemma download_guarded_catches url platform w e w2 :
  kept w →
  download_body url file dir platform w = (Raise e, w2) →
  ∃ w3, download_guarded url file dir platform w = (Ok tt, w3)
        ∧ trace w3 = trace w2 ++ failure_report url e
                       ++ cleanup_events w2 file.
Proof using Hdir HB Hne.
  intros Hk Hbody.
  pose proof (wp_run _ _ _ _ _ (keeps_download_body url platform w) Hbody Hk)
    as Hk2.
  unfold download_guarded, try_except. rewrite Hbody.
  assert (Hrm : ∀ evs w', kept w' → trace w' = trace w2 ++ evs →
            path_exists w' file = path_exists w2 file →
            ∃ w3, remove_if_exists file w' = (Ok tt, w3)
                  ∧ trace w3 = trace w2 ++ evs ++ cleanup_events w2 file).
  { intros evs w' Hk' Ht Hp.
    pose proof (remove_if_exists_events w' Hk') as Hwp. unfold wp in Hwp.
    destruct (remove_if_exists file w') as [r w3]. simpl in Hwp.
    destruct Hwp as [-> Ht3]. exists w3. split; [done|].
    rewrite Ht3, Ht. unfold cleanup_events. by rewrite Hp, <- app_assoc. }
  destruct e; cbv [download_handlers bind print emit failure_report];
    (eapply Hrm; [exact Hk2|simpl; by rewrite <- ?app_assoc|done]).
Qed.
End Download.

(** ** The paths of the cache *)

Section CachePaths.
Implicit Types (n : node) (cwd : location).

Lemma runtime_cache_eq : runtime_cache = Path.join2 "Dependencies" "dotnet".
Proof. reflexivity. Qed.

Lemma version_file_path_eq : version_file_path = Path.join2 runtime_cache "VERSION".
Proof. reflexivity. Qed.

Lemma platform_dir_eq platform :
  p runtime_cache [platform] = Path.join2 runtime_cache platform.
Proof. reflexivity. Qed.

Lemma plain_dotnet : plain "dotnet".
Proof. by repeat split. Qed.
Lemma plain_VERSION : plain "VERSION".
Proof. by repeat split. Qed.
Lemma plain_Dependencies : plain "Dependencies".
Proof. by repeat split. Qed.

Lemma runtime_cache_ne : runtime_cache ≠ "".
Proof. done. Qed.

Lemma resolve_Dependencies n cwd :
  Fs.resolve n cwd "Dependencies" =
  match Fs.lookup n cwd with
  | Some (Dir _) => inr (cwd ++ ["Dependencies"])
  | Some (File _) => inl Fs.ENOTDIR
  | None => inl Fs.ENOENT
  end.
Proof.
  unfold Fs.resolve. rewrite decide_False by done.
  change (Path.is_absolute "Dependencies") with false.
  change (Path.components "Dependencies") with ["Dependencies"].
  simpl. by rewrite (step_plain _ _ plain_Dependencies).
Qed.

Lemma resolve_runtime_cache n cwd :
  is_dir n (cwd ++ ["Dependencies"]) →
  Fs.resolve n cwd runtime_cache = inr (cwd ++ ["Dependencies"; "dotnet"]).
Proof.
  intros [m Hm]. rewrite runtime_cache_eq.
  rewrite (resolve_join _ _ _ _ plain_dotnet) by done.
  rewrite resolve_Dependencies.
  destruct (lookup_prefix_dir _ _ _ _ Hm) as [m0 ->]. rewrite Hm.
  by rewrite <- app_assoc.
Qed.

Lemma root_parent_dir n cwd y :
  Fs.lookup n (cwd ++ ["Dependencies"; "dotnet"]) = Some y →
  is_dir n (cwd ++ ["Dependencies"]).
Proof.
  change (cwd ++ ["Dependencies"; "dotnet"])
    with (cwd ++ ["Dependencies"] ++ ["dotnet"]).
  rewrite app_assoc. apply lookup_prefix_dir.
Qed.

(** The cache directory exists with the entries [m]. *)
Lemma stat_runtime_cache w m :
  Fs.lookup (fs w) (root_loc w) = Some (Dir m) →
  Fs.stat (fs w) (cwd w) runtime_cache = Fs.IsDir (root_loc w) m.
Proof.
  intros Hm. apply stat_IsDir. split; [|done].
  apply resolve_runtime_cache. by eapply root_parent_dir.
Qed.

(** An entry of the cache directory. *)
Lemma stat_cache_entry w m name :
  plain name →
  Fs.lookup (fs w) (root_loc w) = Some (Dir m) →
  Fs.stat (fs w) (cwd w) (Path.join2 runtime_cache name) =
  match m !! name with
  | None => Fs.Absent (root_loc w ++ [name])
  | Some (File d) => Fs.IsFile (root_loc w ++ [name]) d
  | Some (Dir m') => Fs.IsDir (root_loc w ++ [name]) m'
  end.
Proof.
  intros Hp Hm. rewrite (stat_join _ _ _ _ Hp runtime_cache_ne).
  by rewrite (stat_runtime_cache w m Hm).
Qed.
End CachePaths.

(** ** One rule per call *)

(** One rule per call and per answer of [stat]. *)
Section Rules.
Implicit Types (w : world) (path : string).

Lemma wp_open_read_file path w loc d Q :
  Fs.stat (fs w) (cwd w) path = Fs.IsFile loc d →
  Q (Ok d) (log (Call (COpenRead path)) w) → wp (open_read path) Q w.
Proof.
  intros Hs HQ. unfold wp, open_read, read_file, bind, emit, stat. simpl.
  by rewrite Hs.
Qed.

Lemma wp_open_read_absent path w loc Q :
  Fs.stat (fs w) (cwd w) path = Fs.Absent loc →
  Q (Raise (FileNotFoundError path)) (log (Call (COpenRead path)) w) →
  wp (open_read path) Q w.
Proof.
  intros Hs HQ. unfold wp, open_read, read_file, bind, emit, stat. simpl.
  by rewrite Hs.
Qed.

Lemma wp_open_read_failed path w e Q :
  Fs.stat (fs w) (cwd w) path = Fs.Failed e →
  Q (Raise (oserror e path)) (log (Call (COpenRead path)) w) →
  wp (open_read path) Q w.
Proof.
  intros Hs HQ. unfold wp, open_read, read_file, bind, emit, stat. simpl.
  by rewrite Hs.
Qed.

Lemma wp_os_path_exists path w Q :
  Q (Ok (path_exists w path)) (log (Call (CExists path)) w) →
  wp (os_path_exists path) Q w.
Proof. intros HQ. unfold wp. by rewrite os_path_exists_eq. Qed.

Lemma wp_shutil_rmtree_dir path w c loc m Q :
  Fs.stat (fs w) (cwd w) path = Fs.IsDir (c :: loc) m →
  Q (Ok tt) (with_fs (Fs.put (fs w) (c :: loc) None) (log (Call (CRmtree path)) w)) →
  wp (shutil_rmtree path) Q w.
Proof.
  intros Hs HQ. unfold wp, shutil_rmtree, bind, emit, stat, get. simpl.
  by rewrite Hs.
Qed.

Lemma wp_os_makedirs path w n Q :
  path ≠ "" →
  Fs.mkdirs (fs w) (if Path.is_absolute path then [] else cwd w)
    (Path.components path) = inr n →
  Q (Ok tt) (with_fs n (log (Call (CMakedirs path)) w)) →
  wp (os_makedirs path) Q w.
Proof.
  intros Hne Hm HQ. unfold wp, os_makedirs, bind, emit, get. simpl.
  rewrite decide_False by done. by rewrite Hm.
Qed.

Lemma wp_open_write_over path d w loc d' Q :
  Fs.stat (fs w) (cwd w) path = Fs.IsFile loc d' →
  Q (Ok tt) (with_fs (Fs.put (fs w) loc (Some (File d)))
               (log (Call (COpenWrite path d)) w)) →
  wp (open_write path d) Q w.
Proof.
  intros Hs HQ. unfold wp, open_write, write_file, bind, emit, stat, get. simpl.
  by rewrite Hs.
Qed.

Lemma wp_open_write_new path d w loc Q :
  Fs.stat (fs w) (cwd w) path = Fs.Absent loc →
  Path.has_trailing_sep path = false →
  Q (Ok tt) (with_fs (Fs.put (fs w) loc (Some (File d)))
               (log (Call (COpenWrite path d)) w)) →
  wp (open_write path d) Q w.
Proof.
  intros Hs Ht HQ. unfold wp, open_write, write_file, bind, emit, stat, get. simpl.
  by rewrite Hs, Ht.
Qed.

Lemma wp_os_listdir_dir path w loc m Q :
  Fs.stat (fs w) (cwd w) path = Fs.IsDir loc m →
  Q (Ok (map_to_list m).*1) (log (Call (CListdir path)) w) →
  wp (os_listdir path) Q w.
Proof.
  intros Hs HQ. unfold wp, os_listdir, bind, emit, stat. simpl. by rewrite Hs.
Qed.

Lemma wp_os_listdir_file path w loc d Q :
  Fs.stat (fs w) (cwd w) path = Fs.IsFile loc d →
  Q (Raise (NotADirectoryError path)) (log (Call (CListdir path)) w) →
  wp (os_listdir path) Q w.
Proof.
  intros Hs HQ. unfold wp, os_listdir, bind, emit, stat. simpl. by rewrite Hs.
Qed.

Lemma wp_os_mkdir_new path w loc Q :
  Fs.stat (fs w) (cwd w) path = Fs.Absent loc →
  Q (Ok tt) (with_fs (Fs.put (fs w) loc (Some (Dir ∅))) (log (Call (CMkdir path)) w)) →
  wp (os_mkdir path) Q w.
Proof.
  intros Hs HQ. apply stat_Absent in Hs as [Hr Hl].
  unfold wp, os_mkdir, bind, emit, get. simpl. by rewrite Hr, Hl.
Qed.

Lemma wp_getitem_known d k v w Q :
  d !! k = Some v → Q (Ok v) w → wp (getitem d k) Q w.
Proof. intros Hk HQ. unfold wp, getitem. by rewrite Hk. Qed.

Lemma wp_getitem_unknown d k w Q :
  d !! k = None → Q (Raise (KeyError k)) w → wp (getitem d k) Q w.
Proof. intros Hk HQ. unfold wp, getitem. by rewrite Hk. Qed.
End Rules.

Lemma length_listdir (m : gmap string node) :
  length (map_to_list m).*1 = 0 ↔ m = ∅.
Proof.
  rewrite length_fmap, length_map_to_list. apply map_size_empty_iff.
Qed.

(** ** The version bookkeeping *)

Lemma put_app n B r x t :
  Fs.lookup n B = Some t → B ≠ [] → r ≠ [] →
  Fs.put n (B ++ r) x = Fs.put n B (Some (Fs.put t r x)).
Proof.
  intros Hl HB Hr. revert n Hl. induction B as [|c B IH]; intros n Hl; [done|].
  destruct n as [d|m]; [done|]. simpl in Hl.
  destruct (m !! c) as [n1|] eqn:Hm; [|done].
  destruct B as [|c' B].
  - simpl in Hl. simplify_eq. destruct r as [|c2 r]; [done|]. simpl. f_equal.
    apply map_eq. intros i. rewrite lookup_alter, lookup_insert.
    case_decide; subst; [by rewrite Hm|done].
  - change ((c :: c' :: B) ++ r) with (c :: ((c' :: B) ++ r)).
    change (Fs.put (Dir m) (c :: (c' :: B) ++ r) x)
      with (Dir (alter (λ n', Fs.put n' ((c' :: B) ++ r) x) c m)).
    change (Fs.put (Dir m) (c :: c' :: B) (Some (Fs.put t r x)))
      with (Dir (alter (λ n', Fs.put n' (c' :: B) (Some (Fs.put t r x))) c m)).
    f_equal. apply alter_ext. intros n2 Hn2. rewrite Hm in Hn2. simplify_eq.
    by apply IH.
Qed.

Lemma mkdirs_cache_present n cwd :
  is_dir n (cwd ++ ["Dependencies"; "dotnet"]) →
  Fs.mkdirs n cwd (Path.components runtime_cache) = inr n.
Proof.
  intros [m Hm]. change (Path.components runtime_cache) with ["Dependencies"; "dotnet"].
  destruct (root_parent_dir _ _ _ Hm) as [m1 Hm1].
  destruct (lookup_prefix_dir _ _ _ _ Hm1) as [m0 Hm0].
  simpl. rewrite Hm0, !step_plain by (by repeat split).
  rewrite Hm1, <- app_assoc. simpl. by rewrite Hm.
Qed.

Lemma mkdirs_cache_absent n cwd :
  is_dir n (cwd ++ ["Dependencies"]) →
  Fs.lookup n (cwd ++ ["Dependencies"; "dotnet"]) = None →
  Fs.mkdirs n cwd (Path.components runtime_cache) =
  inr (Fs.put n (cwd ++ ["Dependencies"; "dotnet"]) (Some (Dir ∅))).
Proof.
  intros [m1 Hm1] Hm. change (Path.components runtime_cache) with ["Dependencies"; "dotnet"].
  destruct (lookup_prefix_dir _ _ _ _ Hm1) as [m0 Hm0].
  simpl. rewrite Hm0, !step_plain by (by repeat split).
  rewrite Hm1, <- app_assoc. simpl. by rewrite Hm.
Qed.

Lemma stat_version w m :
  Fs.lookup (fs w) (root_loc w) = Some (Dir m) →
  Fs.stat (fs w) (cwd w) version_file_path =
  match m !! "VERSION" with
  | None => Fs.Absent (version_loc w)
  | Some (File d) => Fs.IsFile (version_loc w) d
  | Some (Dir m') => Fs.IsDir (version_loc w) m'
  end.
Proof. apply (stat_cache_entry w m "VERSION" plain_VERSION). Qed.

Lemma root_loc_snoc w : root_loc w = (cwd w ++ ["Dependencies"]) ++ ["dotnet"].
Proof. unfold root_loc. by rewrite <- app_assoc. Qed.

Lemma root_loc_cons w : ∃ c l, root_loc w = c :: l.
Proof. unfold root_loc. destruct (cwd w); simpl; eauto. Qed.

(** The stamp is current: nothing is removed, the stamp is rewritten. *)
Lemma refresh_cache_current platforms w m d :
  Fs.lookup (fs w) (root_loc w) = Some (Dir m) →
  m !! "VERSION" = Some (File d) →
  PyStr.strip d = DOTNET_RUNTIME_VERSION →
  wp (refresh_cache platforms)
     (λ r w', r = Ok tt
        ∧ fs w' = Fs.put (fs w) (version_loc w) (Some (File DOTNET_RUNTIME_VERSION))
        ∧ cwd w' = cwd w ∧ env w' = env w
        ∧ trace w' = trace w
            ++ refresh_events platforms (Some DOTNET_RUNTIME_VERSION) false) w.
Proof.
  intros Hm Hv Hd.
  pose proof (stat_version w m Hm) as Hs. rewrite Hv in Hs.
  unfold refresh_cache. do 2 apply wp_bind, wp_print.
  apply wp_bind, wp_try, wp_bind. eapply wp_open_read_file; [exact Hs|].
  apply wp_ret. rewrite Hd. do 2 apply wp_bind, wp_print.
  rewrite decide_False by (by intros []).
  apply wp_bind, wp_ret, wp_bind, wp_ret, wp_bind, wp_print, wp_bind.
  eapply wp_os_makedirs; [done| |].
  { apply mkdirs_cache_present. by exists m. }
  apply wp_bind, wp_print. eapply wp_open_write_over; [exact Hs|].
  split_and!; try done. simpl. unfold refresh_events.
  rewrite decide_False by (by intros []). simpl. by rewrite <- !app_assoc.
Qed.

(** The stamp is stale or missing: the cache directory is replaced by one
    that holds the stamp only. *)
Lemma refresh_cache_stale platforms w m cv :
  Fs.lookup (fs w) (root_loc w) = Some (Dir m) →
  match m !! "VERSION" with
  | None => cv = None
  | Some (File d) => cv = Some (PyStr.strip d)
  | Some (Dir _) => False
  end →
  cv ≠ Some DOTNET_RUNTIME_VERSION →
  wp (refresh_cache platforms)
     (λ r w', r = Ok tt
        ∧ fs w' = Fs.put (fs w) (root_loc w)
                    (Some (Dir {[ "VERSION" := File DOTNET_RUNTIME_VERSION ]}))
        ∧ cwd w' = cwd w ∧ env w' = env w
        ∧ trace w' = trace w ++ refresh_events platforms cv true) w.
Proof.
  intros Hm Hv Hcv.
  pose proof (stat_version w m Hm) as Hs.
  pose proof (stat_runtime_cache w m Hm) as Hr.
  destruct (root_parent_dir _ _ _ Hm) as [m1 Hm1].
  destruct (root_loc_cons w) as (c & l & Hcl).
  assert (Hgone : Fs.lookup (Fs.put (fs w) (root_loc w) None) (root_loc w) = None).
  { rewrite root_loc_snoc. by apply (lookup_put_here _ _ _ _ m1). }
  assert (Hpar : is_dir (Fs.put (fs w) (root_loc w) None) (cwd w ++ ["Dependencies"])).
  { unfold is_dir. rewrite root_loc_snoc, (lookup_put_parent _ _ _ _ m1 Hm1).
    by eexists. }
  set (n2 := Fs.put (fs w) (root_loc w) (Some (Dir ∅))).
  assert (Hn2 : Fs.lookup n2 (root_loc w) = Some (Dir ∅)).
  { unfold n2. rewrite root_loc_snoc. by apply (lookup_put_here _ _ _ _ m1). }
  unfold refresh_cache. do 2 apply wp_bind, wp_print.
  apply wp_bind, wp_try, wp_bind.
  assert (Hstep :
    wp (stale <- (if decide (cv ≠ Some DOTNET_RUNTIME_VERSION)
                  then os_path_exists runtime_cache else ret false) ;;
        (if stale : bool then print LClearing ;; shutil_rmtree runtime_cache
         else ret tt) ;;
        print (LCreating runtime_cache) ;;
        os_makedirs runtime_cache ;;
        print (LWritingVersion version_file_path) ;;
        open_write version_file_path DOTNET_RUNTIME_VERSION)
      (λ r w', r = Ok tt
        ∧ fs w' = Fs.put (fs w) (root_loc w)
                    (Some (Dir {[ "VERSION" := File DOTNET_RUNTIME_VERSION ]}))
        ∧ cwd w' = cwd w ∧ env w' = env w
        ∧ trace w' = trace w ++ refresh_events platforms cv true)
      (log (Print (LExpectedVersion DOTNET_RUNTIME_VERSION))
         (log (Print (LCurrentVersion cv))
            (log (Call (COpenRead version_file_path))
               (log (Print (LCacheDir runtime_cache))
                  (log (Print (LStarting platforms)) w)))))).
  { rewrite decide_True by done. apply wp_bind, wp_os_path_exists.
    unfold path_exists. simpl. rewrite Hr.
    apply wp_bind, wp_bind, wp_print. rewrite Hcl in Hr.
    eapply wp_shutil_rmtree_dir; [exact Hr|]. rewrite <- Hcl.
    apply wp_bind, wp_print, wp_bind.
    eapply wp_os_makedirs; [done| |].
    { simpl. by apply mkdirs_cache_absent. }
    fold (root_loc w). rewrite put_put. fold n2.
    apply wp_bind, wp_print.
    eapply wp_open_write_new; [|done|].
    { pose proof (stat_version (with_fs n2 w) ∅ Hn2) as Hs2.
      rewrite lookup_empty in Hs2. exact Hs2. }
    split_and!; try done.
    - simpl. unfold version_loc, n2. simpl.
      rewrite (put_app _ _ _ _ (Dir ∅) Hn2); [|by rewrite Hcl|done].
      unfold n2. by rewrite put_put.
    - simpl. unfold refresh_events. rewrite decide_True by done.
      simpl. by rewrite <- !app_assoc. }
  destruct (m !! "VERSION") as [[d|?]|] eqn:E; [|done|]; subst cv.
  - eapply wp_open_read_file; [exact Hs|]. apply wp_ret.
    do 2 apply wp_bind, wp_print. exact Hstep.
  - eapply wp_open_read_absent; [exact Hs|]. simpl. apply wp_ret.
    do 2 apply wp_bind, wp_print. exact Hstep.
Qed.

(** ** The calls of the bookkeeping; populated platforms *)

Section Only.
Context (P : event → Prop).

#[local] Instance only_steady : Steady (only P).
Proof.
  split.
  - intros w. exists []. by rewrite app_nil_r.
  - intros w1 w2 w3 (evs1 & T1 & F1) (evs2 & T2 & F2).
    exists (evs1 ++ evs2). rewrite T2, T1, app_assoc. split; [done|].
    by apply Forall_app.
Qed.

#[local] Instance only_blind : TreeBlind (only P).
Proof. split. intros n w. exists []. by rewrite app_nil_r. Qed.

Lemma only_emit e : P e → respects (only P) (emit e).
Proof. intros He w. apply wp_emit. exists [e]. split; [done|]. by constructor. Qed.

Lemma only_print l : P (Print l) → respects (only P) (print l).
Proof. apply only_emit. Qed.
End Only.

#[local] Existing Instances only_steady only_blind.
#[local] Hint Extern 1 (respects (only _) (emit _)) =>
  apply only_emit; simpl; done : resp.
#[local] Hint Extern 1 (respects (only _) (print _)) =>
  apply only_print; simpl; done : resp.

Lemma refresh_cache_only platforms : respects (only bookkeeping) (refresh_cache platforms).
Proof.
  unfold refresh_cache.
  repeat (apply resp_bind; [apply _| |intros ?]); auto with resp.
  - apply resp_try; [apply _|unfold open_read; auto 20 with resp|].
    intros e k. destruct e; intros [= <-]; apply resp_ret, _.
  - case_decide; [|apply resp_ret, _].
    unfold os_path_exists. auto 20 with resp.
  - destruct a4; [|apply resp_ret, _].
    unfold shutil_rmtree. auto 20 with resp.
Qed.

(** A write that returns has written. *)
Lemma open_write_written dir name d w :
  plain name →
  wp (open_write (Path.join2 dir name) d)
     (λ r w', r = Ok tt →
        ∃ loc, Fs.stat (fs w') (cwd w') (Path.join2 dir name) = Fs.IsFile loc d) w.
Proof.
  intros Hp. unfold wp, open_write, write_file, bind, emit, stat, get, set_fs, raise.
  simpl.
  destruct (Fs.stat _ _ _) as [e|l|l d'|l m] eqn:Hs; simpl; try done.
  - destruct (Path.has_trailing_sep _) eqn:Ht; simpl; [done|]. intros _.
    apply stat_Absent in Hs as [Hr Hl].
    destruct (resolve_join_parent _ _ _ _ _ Hp Hr) as (par & -> & Hd).
    destruct (stat_put_leaf _ _ _ par name (Some (File d)) Hr Hd) as [Hr' Hl'];
      [by left|].
    exists (par ++ [name]). by apply stat_IsFile.
  - intros _. apply stat_IsFile in Hs as (Hr & Hl & Ht).
    destruct (resolve_join_parent _ _ _ _ _ Hp Hr) as (par & -> & Hd).
    destruct (stat_put_leaf _ _ _ par name (Some (File d)) Hr Hd) as [Hr' Hl'];
      [right; by eexists|].
    exists (par ++ [name]). by apply stat_IsFile.
Qed.

Lemma refresh_cache_stamps platforms w :
  wp (refresh_cache platforms)
     (λ r w', r = Ok tt →
        ∃ loc, Fs.stat (fs w') (cwd w') version_file_path
               = Fs.IsFile loc DOTNET_RUNTIME_VERSION) w.
Proof.
  unfold refresh_cache.
  do 10 (apply wp_bind_any; intros ? ?).
  apply (open_write_written runtime_cache "VERSION" _ _ plain_VERSION).
Qed.

(** A populated platform is skipped. *)
Lemma process_platform_skips platform w :
  populated w platform →
  wp (process_platform platform)
     (λ r w', r = Ok tt ∧ fs w' = fs w ∧ cwd w' = cwd w ∧ env w' = env w
        ∧ ∃ evs, trace w' = trace w ++ evs ∧ Forall (λ e, ¬ is_fetch e) evs) w.
Proof.
  intros (loc & m & Hs & Hm). unfold process_platform. cbv zeta.
  rewrite platform_dir_eq in *.
  do 2 apply wp_bind, wp_print. apply wp_bind, wp_os_path_exists.
  unfold path_exists. simpl. rewrite Hs. simpl.
  apply wp_bind, wp_bind. eapply wp_os_listdir_dir; [exact Hs|].
  destruct (length _ =? 0)%nat eqn:El.
  { apply Nat.eqb_eq, length_listdir in El. done. }
  apply wp_bind, wp_print, wp_ret, wp_ret. split_and!; try done.
  eexists. simpl. rewrite <- !app_assoc. split; [done|].
  repeat constructor; intros (? & ? & ?); done.
Qed.

(** ** Traces of the bookkeeping *)

Lemma strip_version : PyStr.strip DOTNET_RUNTIME_VERSION = DOTNET_RUNTIME_VERSION.
Proof. reflexivity. Qed.

Lemma version_loc_lookup w d :
  Fs.lookup (fs w) (version_loc w) = Some (File d) →
  ∃ m, Fs.lookup (fs w) (root_loc w) = Some (Dir m) ∧ m !! "VERSION" = Some (File d).
Proof.
  unfold version_loc. rewrite lookup_snoc.
  destruct (Fs.lookup (fs w) (root_loc w)) as [[?|m]|]; try done. eauto.
Qed.

Lemma only_log P e w0 w : only P w0 w → P e → only P w0 (log e w).
Proof.
  intros (evs & Htr & Hevs) He. exists (evs ++ [e]). simpl.
  rewrite Htr, app_assoc. split; [done|]. apply Forall_app. split; [done|].
  by constructor.
Qed.

Lemma only_trans P w1 w2 w3 : only P w1 w2 → only P w2 w3 → only P w1 w3.
Proof. apply (only_steady P). Qed.

Lemma not_fetch_print l : ¬ is_fetch (Print l).
Proof. by intros (? & ? & ?). Qed.

(** ** What a download starts with *)

Lemma components_nil s :
  Path.components s = [] → s = "" ∨ Path.is_absolute s = true.
Proof.
  destruct s as [|c s]; [by left|]. intros Hc. right.
  unfold Path.is_absolute. rewrite startswith_sep_cons.
  destruct (Ascii.eqb c Path.sep) eqn:E; [done|].
  unfold Path.components in Hc. simpl in Hc. rewrite E in Hc.
  pose proof (pieces_nonempty s).
  destruct (Path.pieces s); [done|]. by rewrite filter_cons_True in Hc.
Qed.

Lemma lookup_removelast n l y :
  Fs.lookup n l = Some y → is_Some (Fs.lookup n (removelast l)).
Proof.
  destruct l as [|c l _] using rev_ind; [by eauto|].
  rewrite removelast_last. intros [m Hm]%lookup_prefix_dir. eauto.
Qed.

Lemma walk_absent_parent n cur cs loc :
  Fs.walk n cur cs = inr loc → Fs.lookup n loc = None →
  (cs = [] ∧ loc = cur) ∨ ∃ par c, loc = par ++ [c] ∧ is_dir n par.
Proof.
  destruct cs as [|c cs _] using rev_ind; [intros [= <-]; by left|].
  rewrite walk_app. destruct (Fs.walk n cur cs) as [e|l1]; [done|]. simpl.
  destruct (Fs.lookup n l1) as [[d|m]|] eqn:E; try done.
  intros [= <-] Hl. right. unfold Fs.step in *.
  case_decide; [congruence|].
  case_decide.
  - destruct (lookup_removelast _ _ _ E) as [y Hy]. congruence.
  - exists l1, c. split; [done|by exists m].
Qed.

(** A path that resolves to a missing entry names it in an existing
    directory. *)
Lemma resolve_absent_parent n cwd path loc :
  Fs.resolve n cwd path = inr loc → Fs.lookup n loc = None →
  ∃ par c, loc = par ++ [c] ∧ is_dir n par.
Proof.
  unfold Fs.resolve. case_decide as Hne; [done|]. intros Hw Hl.
  destruct (walk_absent_parent _ _ _ _ Hw Hl) as [[Hc ->]|H]; [|done].
  destruct (components_nil _ Hc) as [?|Ha]; [done|]. by rewrite Ha in Hl.
Qed.

Lemma stat_after_mkdir n cwd path loc :
  Fs.stat n cwd path = Fs.Absent loc →
  Fs.stat (Fs.put n loc (Some (Dir ∅))) cwd path = Fs.IsDir loc ∅.
Proof.
  intros [Hr Hl]%stat_Absent.
  destruct (resolve_absent_parent _ _ _ _ Hr Hl) as (par & c & -> & Hd).
  destruct (stat_put_leaf _ _ _ par c (Some (Dir ∅)) Hr Hd) as [Hr' Hl'];
    [by left|].
  by apply stat_IsDir.
Qed.

Lemma wp_conj {A} (m : M A) (Q1 Q2 : outcome A → world → Prop) w :
  wp m Q1 w → wp m Q2 w → wp m (λ r w', Q1 r w' ∧ Q2 r w') w.
Proof. by split. Qed.

(** The first steps of a download, whatever comes next. *)
Lemma try_print {A} l (k : unit → M A) h w :
  try_except (bind (print l) k) h w = try_except (k tt) h (log (Print l) w).
Proof. done. Qed.

Lemma try_urlretrieve {A} url file (k : unit → M A) h w :
  try_except (bind (urlretrieve url file) k) h w =
  try_except
    (bind match net (env w) (trace w) url with
          | Refused e => raise e
          | Body data cut =>
              write_file file data ;;
              match cut with
              | Some e => raise e
              | None => ret tt
              end
          | NoFile => ret tt
          end k) h (log (Call (CUrlretrieve url file)) w).
Proof. done. Qed.

#[local] Hint Resolve resp_os_path_exists resp_os_path_getsize
  resp_open_read_text resp_os_remove resp_urlretrieve resp_tar_extract
  resp_zip_extract resp_os_mkdir resp_os_listdir resp_html_check
  resp_extract_and_clean resp_remove_if_exists : resp.

Lemma download_guarded_fetches url file dir platform w :
  wp (download_guarded url file dir platform)
     (λ _ w', cwd w' = cwd w ∧ env w' = env w
        ∧ ∃ evs, trace w' = trace w ++ fetch_events url file dir ++ evs) w.
Proof.
  unfold wp, download_guarded, download_body.
  rewrite !try_print, try_urlretrieve.
  set (w4 := log _ (log _ (log _ (log _ w)))).
  set (w5 := log _ w4).
  match goal with |- context [try_except ?m ?h w5] =>
    assert (H : respects advances (try_except m h)) end.
  { apply resp_try; [apply _| |].
    - apply resp_bind; [apply _| |intros ?].
      + destruct (net _ _ _) as [e|data [e|]|]; auto 10 with resp.
      + auto 30 with resp.
    - intros e k [= <-]. destruct e; auto 20 with resp. }
  specialize (H w5). unfold wp in H. destruct H as (Hc & He & evs & Ht).
  split_and!; [done..|]. exists evs. rewrite Ht. unfold w5, w4, fetch_events.
  simpl. by rewrite <- !app_assoc.
Qed.

(** ** One platform *)

Lemma stat_dir_ne n cwd dir B m : Fs.stat n cwd dir = Fs.IsDir B m → dir ≠ "".
Proof. intros [Hr _]%stat_IsDir ->. done. Qed.

Lemma empty_dir_not_above n B V d :
  Fs.lookup n B = Some (Dir ∅) → Fs.lookup n V = Some (File d) →
  ¬ B `prefix_of` V.
Proof.
  intros HB HV [r ->]. rewrite lookup_app, HB in HV. simpl in HV.
  destruct r; simpl in HV; [done|]. by rewrite lookup_empty in HV.
Qed.

Lemma inside_keeps_file B n n' V d :
  inside B n n' → ¬ B `prefix_of` V →
  Fs.lookup n V = Some (File d) → Fs.lookup n' V = Some (File d).
Proof. intros Hi Hp HV. apply kind_file. rewrite Hi by done. by apply kind_file. Qed.

(** The download into an empty directory. *)
Lemma dpr_empty dir platform B w :
  Fs.stat (fs w) (cwd w) dir = Fs.IsDir B ∅ →
  wp (download_platform_runtime dir platform)
     (λ r w',
        cwd w' = cwd w ∧ env w' = env w
        ∧ (∀ q, is_dir (fs w) q → is_dir (fs w') q)
        ∧ inside B (fs w) (fs w')
        ∧ match DOTNET_RUNTIME_DOWNLOADS !! platform with
          | Some url =>
              r = Ok tt ∧ path_exists w' (temp_file dir) = false
              ∧ ∃ evs, trace w' = trace w
                  ++ Print (LDownloading platform)
                     :: fetch_events url (temp_file dir) dir ++ evs
          | None =>
              r = Raise (KeyError platform) ∧ fs w' = fs w
              ∧ trace w' = trace w ++ [Print (LDownloading platform)]
          end) w.
Proof.
  intros Hs. unfold download_platform_runtime.
  apply wp_bind, wp_print, wp_bind.
  destruct (DOTNET_RUNTIME_DOWNLOADS !! platform) as [url|] eqn:Hk.
  - eapply wp_getitem_known; [done|].
    pose proof (stat_dir_ne _ _ _ _ _ Hs) as Hne.
    apply stat_IsDir in Hs as [Hr HB].
    set (w1 := log (Print (LDownloading platform)) w).
    assert (Hk1 : kept (fs w) (cwd w) B w1).
    { split_and!; [done|apply inside_refl|done|]. intros [m Hm].
      simpl in Hm. rewrite lookup_snoc, HB, lookup_empty in Hm. done. }
    eapply wp_mono.
    { apply wp_conj; [|apply wp_conj].
      - apply (download_guarded_returns (fs w) (cwd w) B dir Hr); [by eexists|done|exact Hk1].
      - apply (download_guarded_gone dir url platform w1).
      - apply (download_guarded_fetches url (temp_file dir) dir platform w1). }
    simpl. intros r w' ((-> & Hd & Hi & Hc & _) & Hg & Hc' & He & evs & Ht).
    split_and!; try done; [by apply Hg|].
    exists evs. rewrite Ht. simpl. by rewrite <- app_assoc.
  - eapply wp_getitem_unknown; [done|]. by split_and!.
Qed.

Lemma process_platform_downloads platform B fresh w :
  needs_download w platform B fresh →
  wp (process_platform platform)
     (λ r w',
        cwd w' = cwd w ∧ env w' = env w
        ∧ (∀ q, is_dir (fs w) q → is_dir (fs w') q)
        ∧ inside B (fs w) (fs w')
        ∧ is_dir (fs w') B
        ∧ let dir := p runtime_cache [platform] in
          match DOTNET_RUNTIME_DOWNLOADS !! platform with
          | Some url =>
              r = Ok tt ∧ path_exists w' (temp_file dir) = false
              ∧ ∃ evs, trace w' = trace w ++ entry_events platform fresh
                  ++ Print (LDownloading platform)
                     :: fetch_events url (temp_file dir) dir ++ evs
          | None =>
              r = Raise (KeyError platform)
              ∧ Fs.stat (fs w') (cwd w') dir = Fs.IsDir B ∅
              ∧ trace w' = trace w ++ entry_events platform fresh
                  ++ [Print (LDownloading platform)]
          end) w.
Proof.
  unfold needs_download. intros Hs. unfold process_platform. cbv zeta.
  set (dir := p runtime_cache [platform]) in *.
  do 2 apply wp_bind, wp_print. apply wp_bind, wp_os_path_exists.
  unfold path_exists. simpl. rewrite Hs.
  destruct fresh.
  - (* the directory is created *)
    simpl. apply wp_bind, wp_bind, wp_print, wp_ret, wp_bind, wp_os_path_exists.
    unfold path_exists. simpl. rewrite Hs. simpl. apply wp_bind.
    eapply wp_os_mkdir_new; [exact Hs|].
    set (w3 := with_fs _ _).
    pose proof (stat_after_mkdir _ _ _ _ Hs) as Hs3.
    assert (Hl : Fs.lookup (fs w) B = None) by (by apply stat_Absent in Hs as [_ ?]).
    eapply wp_mono; [apply (dpr_empty dir platform B w3); exact Hs3|].
    simpl. intros r w' (Hc & He & Hd & Hi & Hrest).
    assert (HdB : is_dir (fs w') B).
    { apply Hd. apply stat_IsDir in Hs3 as [_ ?]. by eexists. }
    split_and!; try done.
    + intros q Hq. apply Hd. simpl. apply put_leaf_dirs; [by left|done].
    + eapply inside_trans; [|exact Hi]. simpl. by apply put_inside.
    + destruct (DOTNET_RUNTIME_DOWNLOADS !! platform) as [url|].
      * destruct Hrest as (-> & Hg & evs & Ht). split_and!; [done..|].
        exists evs. rewrite Ht. simpl. unfold entry_events. simpl.
        by rewrite <- !app_assoc.
      * destruct Hrest as (-> & Hfs & Ht). split_and!; [done| |].
        -- by rewrite Hfs, Hc.
        -- rewrite Ht. simpl. unfold entry_events. simpl. by rewrite <- !app_assoc.
  - (* the directory is there, and empty *)
    simpl. apply wp_bind, wp_bind. eapply wp_os_listdir_dir; [exact Hs|].
    rewrite map_to_list_empty. simpl.
    apply wp_bind, wp_print, wp_ret, wp_bind, wp_os_path_exists.
    unfold path_exists. simpl. rewrite Hs. simpl. apply wp_bind, wp_ret.
    set (w3 := log _ _).
    eapply wp_mono; [apply (dpr_empty dir platform B w3); exact Hs|].
    simpl. intros r w' (Hc & He & Hd & Hi & Hrest).
    assert (HdB : is_dir (fs w') B).
    { apply Hd. apply stat_IsDir in Hs as [_ ?]. by eexists. }
    split_and!; try done.
    destruct (DOTNET_RUNTIME_DOWNLOADS !! platform) as [url|].
    + destruct Hrest as (-> & Hg & evs & Ht). split_and!; [done..|].
      exists evs. rewrite Ht. simpl. unfold entry_events. simpl.
      by rewrite <- !app_assoc.
    + destruct Hrest as (-> & Hfs & Ht). split_and!; [done| |].
      * by rewrite Hfs, Hc.
      * rewrite Ht. simpl. unfold entry_events. simpl. by rewrite <- !app_assoc.
Qed.

(** ** The stamp survives the platforms *)

(** The platforms of the table have plain names. *)
Lemma known_platform platform url :
  DOTNET_RUNTIME_DOWNLOADS !! platform = Some url →
  platform ∈ [PLATFORM_LINUX; PLATFORM_WINDOWS; PLATFORM_MACOS].
Proof.
  unfold DOTNET_RUNTIME_DOWNLOADS. intros H.
  apply lookup_insert_Some in H as [[<- _]|[_ H]]; [set_solver|].
  apply lookup_insert_Some in H as [[<- _]|[_ H]]; [set_solver|].
  apply lookup_singleton_Some in H as [<- _]. set_solver.
Qed.

Lemma known_plain platform url :
  DOTNET_RUNTIME_DOWNLOADS !! platform = Some url → plain platform.
Proof.
  intros H%known_platform. repeat (apply elem_of_cons in H as [->|H]);
    [by repeat split..|by apply elem_of_nil in H].
Qed.

(** Where the path of the stamp leads. *)
Lemma resolve_version n cwd loc :
  Fs.resolve n cwd version_file_path = inr loc →
  loc = cwd ++ ["Dependencies"; "dotnet"; "VERSION"].
Proof.
  rewrite version_file_path_eq, (resolve_join _ _ _ _ plain_VERSION runtime_cache_ne).
  rewrite runtime_cache_eq, (resolve_join _ _ _ _ plain_dotnet) by done.
  rewrite resolve_Dependencies.
  destruct (Fs.lookup n cwd) as [[?|?]|]; try done.
  destruct (Fs.lookup n (cwd ++ ["Dependencies"])) as [[?|?]|]; try done.
  destruct (Fs.lookup n _) as [[?|?]|]; try done.
  intros [= <-]. by rewrite <- !app_assoc.
Qed.

(** [os.mkdir] returns only when it has made a new, empty directory. *)
Lemma os_mkdir_spec path w :
  wp (os_mkdir path)
     (λ r w', cwd w' = cwd w ∧ env w' = env w
        ∧ trace w' = trace w ++ [Call (CMkdir path)]
        ∧ match r with
          | Ok _ => ∃ loc, Fs.stat (fs w) (cwd w) path = Fs.Absent loc
                           ∧ fs w' = Fs.put (fs w) loc (Some (Dir ∅))
          | Raise _ => fs w' = fs w
          end) w.
Proof.
  unfold wp, os_mkdir, bind, emit, get, set_fs, raise. simpl.
  destruct (Fs.resolve _ _ _) as [e|loc] eqn:Hr; simpl; [done|].
  destruct (Fs.lookup _ loc) as [y|] eqn:Hl; simpl; [done|].
  split_and!; try done. exists loc. split; [|done]. by apply stat_Absent.
Qed.

(** A file outside an empty directory survives the download into it. *)
Lemma dpr_empty_keeps dir platform B V d w :
  Fs.stat (fs w) (cwd w) dir = Fs.IsDir B ∅ →
  Fs.lookup (fs w) V = Some (File d) →
  wp (download_platform_runtime dir platform)
     (λ r w', cwd w' = cwd w
        ∧ (∀ q, is_dir (fs w) q → is_dir (fs w') q)
        ∧ Fs.lookup (fs w') V = Some (File d)) w.
Proof.
  intros Hs HV. eapply wp_mono; [by apply dpr_empty|]. simpl.
  intros r w' (Hc & _ & Hd & Hi & _). split_and!; [done..|].
  apply stat_IsDir in Hs as [_ HB].
  eapply inside_keeps_file; [done| |done]. by eapply empty_dir_not_above.
Qed.

(** Whatever the platform is called, and whatever becomes of it, a
    regular file that the step does not name stays as it is: a step
    writes below a directory that it found or made empty. *)
Lemma process_platform_keeps platform V d w :
  Fs.lookup (fs w) V = Some (File d) →
  wp (process_platform platform)
     (λ r w', cwd w' = cwd w
        ∧ (∀ q, is_dir (fs w) q → is_dir (fs w') q)
        ∧ Fs.lookup (fs w') V = Some (File d)) w.
Proof.
  intros HV. unfold process_platform. cbv zeta.
  set (dir := p runtime_cache [platform]).
  do 2 apply wp_bind, wp_print. apply wp_bind, wp_os_path_exists.
  unfold path_exists. simpl.
  destruct (Fs.stat (fs w) (cwd w) dir) as [e|loc|loc d'|loc m] eqn:Hs; simpl.
  - (* no answer: [os.mkdir] raises *)
    apply wp_bind, wp_bind, wp_print, wp_ret, wp_bind, wp_os_path_exists.
    unfold path_exists. simpl. rewrite Hs. simpl. apply wp_bind.
    eapply wp_mono; [apply os_mkdir_spec|]. simpl.
    intros [[]|e'] w' (Hc & _ & _ & H).
    + destruct H as (loc & Hs' & _). by rewrite Hs in Hs'.
    + rewrite H, Hc. by split_and!.
  - (* missing: made, then filled *)
    apply wp_bind, wp_bind, wp_print, wp_ret, wp_bind, wp_os_path_exists.
    unfold path_exists. simpl. rewrite Hs. simpl. apply wp_bind.
    eapply wp_os_mkdir_new; [exact Hs|].
    pose proof (stat_after_mkdir _ _ _ _ Hs) as Hs3.
    apply stat_Absent in Hs as [Hr Hl].
    destruct (resolve_absent_parent _ _ _ _ Hr Hl) as (par & c & -> & Hd).
    eapply wp_mono.
    { eapply (dpr_empty_keeps dir platform (par ++ [c]) V d); [exact Hs3|].
      simpl. apply put_leaf_keeps; [by left|done|congruence|done]. }
    simpl. intros r w' (Hc & Hdirs & HV'). split_and!; [done| |done].
    intros q Hq. apply Hdirs. apply put_leaf_dirs; [by left|done].
  - (* a regular file: [os.listdir] raises *)
    apply wp_bind, wp_bind. eapply wp_os_listdir_file; [exact Hs|].
    by split_and!.
  - (* a directory *)
    apply wp_bind, wp_bind. eapply wp_os_listdir_dir; [exact Hs|].
    destruct (length _ =? 0)%nat eqn:El.
    + apply Nat.eqb_eq, length_listdir in El. subst m.
      apply wp_bind, wp_print, wp_ret, wp_bind, wp_os_path_exists.
      unfold path_exists. simpl. rewrite Hs. simpl. apply wp_bind, wp_ret.
      eapply wp_mono; [by eapply (dpr_empty_keeps dir platform loc V d)|].
      simpl. intros r w' H. exact H.
    + apply wp_bind, wp_print, wp_ret, wp_ret. by split_and!.
Qed.

(** ** The stamp at the end of a call *)

Lemma for_app {A} (xs ys : list A) (f : A → M unit) w :
  for_ (xs ++ ys) f w =
  match for_ xs f w with
  | (Ok _, w') => for_ ys f w'
  | (Raise e, w') => (Raise e, w')
  end.
Proof.
  revert w. induction xs as [|x xs IH]; intros w; [done|].
  simpl. unfold bind. destruct (f x w) as [[[]|e] w']; [apply IH|done].
Qed.

(** With platforms to process, the calls of [update_netcore_runtime]. *)
Lemma update_loop platforms w :
  platforms ≠ [] →
  update_netcore_runtime platforms w =
  (refresh_cache platforms ;; for_ platforms process_platform ;; print LComplete)%py w.
Proof. by destruct platforms. Qed.

(** The platforms keep the stamp. *)
Lemma for_process_keeps platforms V d w :
  Fs.lookup (fs w) V = Some (File d) →
  wp (for_ platforms process_platform)
     (λ r w', cwd w' = cwd w
        ∧ (∀ q, is_dir (fs w) q → is_dir (fs w') q)
        ∧ Fs.lookup (fs w') V = Some (File d)) w.
Proof.
  intros HV.
  apply (wp_for _ _ (λ _ w', cwd w' = cwd w
    ∧ (∀ q, is_dir (fs w) q → is_dir (fs w') q)
    ∧ Fs.lookup (fs w') V = Some (File d))).
  - by split_and!.
  - intros x rest w1 (Hc & Hd & HV1).
    eapply wp_mono; [by apply (process_platform_keeps x V d)|]. simpl.
    intros r w2 (Hc2 & Hd2 & HV2).
    assert (cwd w2 = cwd w ∧ (∀ q, is_dir (fs w) q → is_dir (fs w2) q)
            ∧ Fs.lookup (fs w2) V = Some (File d)) by (split_and!; [congruence|auto|done]).
    by destruct r.
  - done.
Qed.

Lemma stamped_later w1 w' :
  stamped w1 → cwd w' = cwd w1 →
  (∀ q, is_dir (fs w1) q → is_dir (fs w') q) →
  Fs.lookup (fs w') (version_loc w1) = Some (File DOTNET_RUNTIME_VERSION) →
  stamped w'.
Proof.
  unfold stamped. intros (Hr & Hl & Ht)%stat_IsFile Hc Hd HV.
  apply stat_IsFile. unfold version_loc, root_loc in *. rewrite Hc.
  split_and!; [|done..]. by apply (resolve_stable (fs w1)).
Qed.

Lemma refresh_cache_stamped platforms w w1 :
  refresh_cache platforms w = (Ok tt, w1) → stamped w1.
Proof.
  intros Hrun.
  destruct (wp_run _ _ _ _ _ (refresh_cache_stamps platforms w) Hrun eq_refl)
    as [loc Hs].
  unfold stamped. rewrite Hs. f_equal.
  apply stat_IsFile in Hs as (Hr%resolve_version & _). subst loc.
  unfold version_loc, root_loc. by rewrite <- app_assoc.
Qed.

(** A call that got through the version bookkeeping ends with the
    stamp in place. *)
Lemma update_stamped platforms w w1 r w' :
  refresh_cache platforms w = (Ok tt, w1) →
  update_netcore_runtime platforms w = (r, w') →
  stamped w'.
Proof.
  intros H1 Hrun. pose proof (refresh_cache_stamped _ _ _ H1) as Hst.
  assert (HV : Fs.lookup (fs w1) (version_loc w1) = Some (File DOTNET_RUNTIME_VERSION)).
  { by apply stat_IsFile in Hst as (_ & ? & _). }
  unfold update_netcore_runtime, bind in Hrun. rewrite H1 in Hrun.
  destruct platforms as [|x xs].
  - unfold print, emit in Hrun. simplify_eq. exact Hst.
  - destruct (for_ (x :: xs) process_platform w1) as [r2 w2] eqn:Hloop.
    destruct (wp_run _ _ _ _ _ (for_process_keeps (x :: xs) _ _ w1 HV) Hloop)
      as (Hc & Hd & HV2).
    assert (stamped w2) by by apply (stamped_later w1).
    destruct r2 as [[]|e]; unfold print, emit in Hrun; by simplify_eq.
Qed.

Lemma update_refreshed platforms w w' :
  update_netcore_runtime platforms w = (Ok tt, w') →
  ∃ w1, refresh_cache platforms w = (Ok tt, w1).
Proof.
  unfold update_netcore_runtime, bind.
  destruct (refresh_cache platforms w) as [[[]|e] w1]; [by eexists|done].
Qed.

(** ** The entry into the guarded region *)

Lemma process_platform_enters platform url B fresh w :
  DOTNET_RUNTIME_DOWNLOADS !! platform = Some url →
  needs_download w platform B fresh →
  process_platform platform w
  = download_guarded url (temp_file (p runtime_cache [platform]))
      (p runtime_cache [platform]) platform (guard_entry platform B fresh w).
Proof.
  unfold needs_download. intros Hk Hs. set (dir := p runtime_cache [platform]) in *.
  enough (wp (process_platform platform)
            (λ r w', (r, w') = download_guarded url (temp_file dir) dir platform
                                 (guard_entry platform B fresh w)) w) as H.
  { unfold wp in H. by destruct (process_platform platform w). }
  unfold process_platform. cbv zeta. fold dir.
  do 2 apply wp_bind, wp_print. apply wp_bind, wp_os_path_exists.
  unfold path_exists. simpl. rewrite Hs.
  assert (Hend : ∀ w3, w3 = guard_entry platform B fresh w →
    wp (download_guarded url (temp_file dir) dir platform)
       (λ r w', (r, w') = download_guarded url (temp_file dir) dir platform
                            (guard_entry platform B fresh w)) w3).
  { intros w3 ->. unfold wp. by destruct (download_guarded _ _ _ _ _). }
  destruct fresh; simpl.
  - apply wp_bind, wp_bind, wp_print, wp_ret, wp_bind, wp_os_path_exists.
    unfold path_exists. simpl. rewrite Hs. simpl. apply wp_bind.
    eapply wp_os_mkdir_new; [exact Hs|].
    unfold download_platform_runtime. apply wp_bind, wp_print, wp_bind.
    eapply wp_getitem_known; [done|]. apply Hend.
    unfold guard_entry, log, with_fs, with_trace, entry_events. simpl.
    by rewrite <- !app_assoc.
  - apply wp_bind, wp_bind. eapply wp_os_listdir_dir; [exact Hs|].
    rewrite map_to_list_empty. simpl.
    apply wp_bind, wp_print, wp_ret, wp_bind, wp_os_path_exists.
    unfold path_exists. simpl. rewrite Hs. simpl. apply wp_bind, wp_ret.
    unfold download_platform_runtime. apply wp_bind, wp_print, wp_bind.
    eapply wp_getitem_known; [done|]. apply Hend.
    unfold guard_entry, log, with_fs, with_trace, entry_events. simpl.
    by rewrite <- !app_assoc.
Qed.

(** The directory of the platform is empty at the entry of the [try]
    statement. *)
Lemma guard_entry_stat platform B fresh w :
  needs_download w platform B fresh →
  Fs.stat (fs (guard_entry platform B fresh w)) (cwd (guard_entry platform B fresh w))
    (p runtime_cache [platform]) = Fs.IsDir B ∅.
Proof.
  unfold needs_download, guard_entry. intros Hs.
  destruct fresh; simpl; [by apply stat_after_mkdir|done].
Qed.

(** ** A rebuilt cache *)

(** A platform of the table whose entry in the cache directory is
    missing or a directory. *)
Lemma process_known platform url w :
  DOTNET_RUNTIME_DOWNLOADS !! platform = Some url →
  is_dir (fs w) (root_loc w) →
  Fs.lookup (fs w) (root_loc w ++ [platform]) = None
  ∨ is_dir (fs w) (root_loc w ++ [platform]) →
  wp (process_platform platform)
     (λ r w',
        r = Ok tt ∧ cwd w' = cwd w
        ∧ (∀ q, is_dir (fs w) q → is_dir (fs w') q)
        ∧ inside (root_loc w ++ [platform]) (fs w) (fs w')
        ∧ is_dir (fs w') (root_loc w ++ [platform])
        ∧ ∃ evs, trace w' = trace w ++ evs
            ∧ (Fs.lookup (fs w) (root_loc w ++ [platform]) = None →
               Call (CUrlretrieve url (temp_file (p runtime_cache [platform]))) ∈ evs)) w.
Proof.
  intros Hk [m Hm] Hentry.
  pose proof (stat_cache_entry w m platform (known_plain _ _ Hk) Hm) as Hs.
  rewrite <- platform_dir_eq in Hs.
  set (B := root_loc w ++ [platform]) in *.
  assert (Hl : Fs.lookup (fs w) B = m !! platform)
    by (unfold B; by rewrite lookup_snoc, Hm).
  unfold is_dir in Hentry. rewrite Hl in Hentry. rewrite Hl.
  assert (Hdl : ∀ fresh, needs_download w platform B fresh →
    wp (process_platform platform)
     (λ r w',
        r = Ok tt ∧ cwd w' = cwd w
        ∧ (∀ q, is_dir (fs w) q → is_dir (fs w') q)
        ∧ inside B (fs w) (fs w') ∧ is_dir (fs w') B
        ∧ ∃ evs, trace w' = trace w ++ evs
            ∧ (m !! platform = None →
               Call (CUrlretrieve url (temp_file (p runtime_cache [platform]))) ∈ evs)) w).
  { intros fresh Hn.
    eapply wp_mono; [apply (process_platform_downloads _ _ _ _ Hn)|].
    cbv zeta. rewrite Hk. intros r w' (Hc & _ & Hd & Hi & HB & -> & _ & evs & Ht).
    split_and!; [done..|]. eexists. split; [exact Ht|]. intros _.
    unfold fetch_events. set_solver. }
  destruct (m !! platform) as [[d|m']|] eqn:E.
  - destruct Hentry as [?|[? ?]]; done.
  - destruct (decide (m' = ∅)) as [->|Hm'].
    + by apply (Hdl false).
    + eapply wp_mono; [apply process_platform_skips; by exists B, m'|].
      simpl. intros r w' (-> & Hfs & Hc & _ & evs & Ht & _).
      rewrite Hfs. split_and!; [done..|apply inside_refl| |].
      * exists m'. by rewrite Hl.
      * exists evs. by split.
  - by apply (Hdl true).
Qed.

Lemma supported_not_version platform :
  supported platform → platform ≠ "VERSION".
Proof. intros [url H%known_platform] ->. set_solver. Qed.

Lemma snoc_not_prefix {A} (l : list A) x y : x ≠ y → ¬ (l ++ [x]) `prefix_of` (l ++ [y]).
Proof.
  intros Hne [k Hk]. rewrite <- app_assoc in Hk. apply app_inv_head in Hk.
  simpl in Hk. congruence.
Qed.

(** In a cache directory that holds the stamp only, every platform of
    the list is fetched, when they all are in the table. *)
Lemma for_process_fetches platforms w1 :
  Forall supported platforms →
  Fs.lookup (fs w1) (root_loc w1)
  = Some (Dir {[ "VERSION" := File DOTNET_RUNTIME_VERSION ]}) →
  wp (for_ platforms process_platform)
     (λ r w', r = Ok tt
        ∧ ∃ evs, trace w' = trace w1 ++ evs ∧ Forall (fetched evs) platforms) w1.
Proof.
  intros Hsup Hroot. set (root := root_loc w1).
  apply (wp_for _ _ (λ rest w,
    Forall supported rest ∧ cwd w = cwd w1 ∧ is_dir (fs w) root
    ∧ ∃ evs, trace w = trace w1 ++ evs
        ∧ ∀ q, supported q →
            (fetched evs q ∧ is_dir (fs w) (root ++ [q]))
            ∨ (Fs.lookup (fs w) (root ++ [q]) = None
               ∧ (q ∈ platforms → q ∈ rest)))).
  - split_and!; [done|done|by eexists|].
    exists []. rewrite app_nil_r. split; [done|]. intros q Hq. right.
    split; [|done]. unfold root. rewrite lookup_snoc, Hroot. simpl.
    apply lookup_singleton_ne. intros Heq. by apply (supported_not_version q).
  - intros x rest w (Hx & Hc & Hd & evs & Ht & Hall).
    apply Forall_cons in Hx as [[url Hurl] Hrest].
    assert (Hroot_w : root_loc w = root) by (unfold root, root_loc; by rewrite Hc).
    eapply wp_mono.
    { apply (process_known x url w Hurl); rewrite Hroot_w; [done|].
      destruct (Hall x) as [[_ ?]|[? _]]; [by eexists|by right|by left]. }
    rewrite Hroot_w. simpl.
    intros r w' (-> & Hc' & Hd' & Hi & HB & evs' & Ht' & Hf).
    split_and!; [done|congruence|by apply Hd'|].
    exists (evs ++ evs'). rewrite Ht', Ht, app_assoc. split; [done|].
    intros q Hq. destruct (decide (q = x)) as [->|Hne].
    + left. split; [|done].
      destruct (Hall x) as [[(u & Hu & Hin) _]|[Hnone _]]; [by eexists| |].
      * exists u. split; [done|]. apply elem_of_app. by left.
      * exists url. split; [done|]. apply elem_of_app. right. by apply Hf.
    + destruct (Hall q Hq) as [[(u & Hu & Hin) Hdq]|[Hnone Hin]].
      * left. split; [|by apply Hd'].
        exists u. split; [done|]. apply elem_of_app. by left.
      * right. split.
        -- apply kind_none. rewrite Hi; [by apply kind_none|].
           by apply snoc_not_prefix.
        -- intros Hq'. specialize (Hin Hq').
           apply elem_of_cons in Hin as [?|?]; done.
  - intros w (_ & _ & _ & evs & Ht & Hall). split; [done|].
    exists evs. split; [done|]. apply Forall_forall. intros q Hq.
    assert (Hs : supported q) by (by eapply Forall_forall in Hsup).
    destruct (Hall q Hs) as [[? _]|[_ Hin]]; [done|].
    specialize (Hin Hq). by apply elem_of_nil in Hin.
Qed.

Lemma fetched_app evs evs' platform :
  fetched evs platform → fetched (evs ++ evs') platform.
Proof.
  intros (url & Hu & Hin). exists url. split; [done|]. apply elem_of_app. by left.
Qed.

(** ** A download that the network answers *)

Lemma bind_ok {A B} (m : M A) (k : A → M B) w a w1 :
  m w = (Ok a, w1) → bind m k w = k a w1.
Proof. intros H. unfold bind. by rewrite H. Qed.

Lemma try_step {A B} (m : M A) (k : A → M B) h w a w1 :
  m w = (Ok a, w1) → try_except (bind m k) h w = try_except (k a) h w1.
Proof. intros H. unfold try_except, bind. by rewrite H. Qed.

(** The temporary file in a directory that has none. *)
Lemma stat_temp_new n cwd dir B m :
  Fs.stat n cwd dir = Fs.IsDir B m → m !! "download.tmp" = None →
  Fs.stat n cwd (temp_file dir) = Fs.Absent (B ++ ["download.tmp"]).
Proof.
  intros Hs Hm. unfold temp_file. change (p dir ["download.tmp"])
    with (Path.join2 dir "download.tmp").
  rewrite (stat_join _ _ _ _ plain_tmp (stat_dir_ne _ _ _ _ _ Hs)), Hs.
  by rewrite Hm.
Qed.

Lemma stat_temp_written n cwd dir B m x :
  Fs.stat n cwd dir = Fs.IsDir B m → m !! "download.tmp" = None →
  Fs.stat (Fs.put n (B ++ ["download.tmp"]) (Some (File x))) cwd (temp_file dir)
  = Fs.IsFile (B ++ ["download.tmp"]) x.
Proof.
  intros Hs Hm. pose proof (stat_temp_new _ _ _ _ _ Hs Hm) as Ha.
  apply stat_Absent in Ha as [Hr Hl]. apply stat_IsDir in Hs as [_ HB].
  destruct (stat_put_leaf n cwd (temp_file dir) B "download.tmp"
              (Some (File x)) Hr) as [Hr' Hl']; [by eexists|by left|].
  apply stat_IsFile. split_and!; [done..|].
  by destruct (join2_plain dir "download.tmp" plain_tmp) as (_ & Ht & _).
Qed.

Lemma urlretrieve_body url file data F w :
  net (env w) (trace w) url = Body data None →
  Fs.stat (fs w) (cwd w) file = Fs.Absent F →
  Path.has_trailing_sep file = false →
  urlretrieve url file w
  = (Ok tt, with_fs (Fs.put (fs w) F (Some (File data)))
              (log (Call (CUrlretrieve url file)) w)).
Proof.
  intros Hn Hs Ht. unfold urlretrieve. cbv [bind get emit]. rewrite Hn.
  cbv [write_file bind stat get set_fs ret]. cbn [fs cwd log with_trace].
  by rewrite Hs, Ht.
Qed.

Lemma os_path_getsize_file path F d w :
  Fs.stat (fs w) (cwd w) path = Fs.IsFile F d →
  os_path_getsize path w
  = (Ok (Z.of_nat (String.length d)), log (Call (CGetsize path)) w).
Proof.
  intros Hs. unfold os_path_getsize, bind, get, emit, stat. simpl. by rewrite Hs.
Qed.

(** A download that the network answers in full, into a directory
    without a temporary file: what is left to do is the look at the
    size and the extraction, under the handlers. *)
Lemma download_reaches_peek dir platform url B m data w :
  DOTNET_RUNTIME_DOWNLOADS !! platform = Some url →
  Fs.stat (fs w) (cwd w) dir = Fs.IsDir B m →
  m !! "download.tmp" = None →
  net (env w) (request_trace w platform url dir) url = Body data None →
  download_platform_runtime dir platform w
  = try_except
      (returned <- html_check (temp_file dir) (Z.of_nat (String.length data)) ;;
       if returned : bool then ret tt
       else extract_and_clean url (temp_file dir) dir platform)
      (download_handlers url (temp_file dir))
      (peek_state w platform url dir B data).
Proof.
  intros Hk Hs Hm Hn. unfold download_platform_runtime.
  erewrite bind_ok; [|reflexivity]. cbv zeta.
  erewrite bind_ok; [|unfold getitem; by rewrite Hk].
  fold (temp_file dir). unfold download_guarded, download_body.
  rewrite !try_print.
  set (w4 := log _ (log _ (log _ (log _ (log _ w))))).
  assert (Ht4 : trace w4 = request_trace w platform url dir).
  { unfold w4, request_trace. simpl. by rewrite <- !app_assoc. }
  erewrite try_step; cycle 1.
  { apply (urlretrieve_body _ _ data (B ++ ["download.tmp"])).
    - by rewrite Ht4.
    - by apply (stat_temp_new _ _ _ _ m).
    - by destruct (join2_plain dir "download.tmp" plain_tmp) as (_ & Ht & _). }
  set (w5 := with_fs _ _).
  assert (Hs5 : Fs.stat (fs w5) (cwd w5) (temp_file dir)
                = Fs.IsFile (B ++ ["download.tmp"]) data).
  { by apply (stat_temp_written _ _ _ _ m). }
  erewrite try_step; [|apply os_path_exists_eq].
  unfold path_exists. rewrite Hs5. simpl negb. cbv iota.
  erewrite try_step;
    [|apply (os_path_getsize_file _ (B ++ ["download.tmp"]) data); exact Hs5].
  rewrite try_print. f_equal.
  unfold peek_state, peek_trace, log, with_fs, with_trace. simpl.
  unfold request_trace. by rewrite <- !app_assoc.
Qed.

Lemma open_read_text_file path F d w :
  read_fault (env w) (trace w) = None →
  Fs.stat (fs w) (cwd w) path = Fs.IsFile F d →
  open_read_text path w = (Ok d, log (Call (COpenText path)) w).
Proof.
  intros Hf Hs. unfold open_read_text. cbv [bind get emit]. rewrite Hf.
  cbv [read_file bind stat]. cbn [fs cwd log with_trace]. by rewrite Hs.
Qed.

Lemma open_read_text_fault path e w :
  read_fault (env w) (trace w) = Some e →
  open_read_text path w = (Raise e, log (Call (COpenText path)) w).
Proof.
  intros Hf. unfold open_read_text. cbv [bind get emit]. by rewrite Hf.
Qed.

(** Whatever it raises, [open_read_text] has logged its call and done
    nothing else. *)
Lemma open_read_text_raises path e w w1 :
  open_read_text path w = (Raise e, w1) → w1 = log (Call (COpenText path)) w.
Proof.
  unfold open_read_text. cbv [bind get emit].
  destruct (read_fault _ _); [by intros [= _ <-]|].
  cbv [read_file bind stat]. cbn [fs cwd log with_trace].
  by destruct (Fs.stat _ _ _); intros [= <-].
Qed.

Lemma open_read_text_returns path d w w1 :
  open_read_text path w = (Ok d, w1) → w1 = log (Call (COpenText path)) w.
Proof.
  unfold open_read_text. cbv [bind get emit].
  destruct (read_fault _ _); [done|].
  cbv [read_file bind stat]. cbn [fs cwd log with_trace].
  by destruct (Fs.stat _ _ _); intros [= <-].
Qed.

(** A small file with a marker is reported and removed. *)
Lemma html_check_drops file F data w :
  Fs.stat (fs w) (cwd w) file = Fs.IsFile F data →
  (Z.of_nat (String.length data) < 10240)%Z →
  html_markers data = true →
  read_fault (env w) (trace w) = None →
  html_check file (Z.of_nat (String.length data)) w
  = (Ok true,
     with_fs (Fs.put (fs w) F None)
       (with_trace (trace w ++ [Call (COpenText file); Print LHtmlInstead;
                                Print (LPreview (PyStr.take 300 data));
                                Call (CRemove file)]) w)).
Proof.
  intros Hs Hsz Hmk Hf. unfold html_check.
  rewrite (proj2 (Z.ltb_lt _ _) Hsz).
  erewrite try_step; [|by apply (open_read_text_file _ F data)].
  unfold html_markers in Hmk. rewrite Hmk. rewrite !try_print.
  erewrite try_step; cycle 1.
  { rewrite os_remove_eq. cbv zeta. cbn [fs cwd log with_trace]. rewrite Hs.
    reflexivity. }
  unfold try_except, ret. f_equal.
  unfold log, with_fs, with_trace. simpl. by rewrite <- !app_assoc.
Qed.

(** The look into a small download never raises. *)
Lemma html_check_total file size w :
  ∃ b w', html_check file size w = (Ok b, w').
Proof.
  unfold html_check. destruct (size <? 10240)%Z; [|by eexists _, _].
  unfold try_except.
  match goal with |- context [match ?m w with _ => _ end] =>
    destruct (m w) as [[b|e] w'] end; by eexists _, _.
Qed.

Lemma html_check_swallows file size e w w1 :
  (size < 10240)%Z →
  open_read_text file w = (Raise e, w1) →
  html_check file size w = (Ok false, w1).
Proof.
  intros Hsz Hr. unfold html_check. rewrite (proj2 (Z.ltb_lt _ _) Hsz).
  unfold try_except, bind. by rewrite Hr.
Qed.

Lemma html_check_passes file size content w w1 :
  (size < 10240)%Z →
  open_read_text file w = (Ok content, w1) →
  html_markers content = false →
  html_check file size w = (Ok false, w1).
Proof.
  intros Hsz Hr Hmk. unfold html_check. rewrite (proj2 (Z.ltb_lt _ _) Hsz).
  unfold try_except, bind. rewrite Hr. unfold html_markers in Hmk.
  by rewrite Hmk.
Qed.

(** ** The extraction step *)

Lemma after_only c P w w1 w2 : after c P w w1 → only P w1 w2 → after c P w w2.
Proof.
  intros (evs1 & T1 & F1) (evs2 & T2 & F2). exists (evs1 ++ evs2).
  rewrite T2, T1, <- app_assoc. split; [done|]. by apply Forall_app.
Qed.

Lemma only_after c P w w' : only P (log c w) w' → after c P w w'.
Proof.
  intros (evs & T & F). exists evs. split; [|done]. simpl in T.
  by rewrite T, <- app_assoc.
Qed.

#[local] Hint Extern 1 (respects (only _) (emit _)) =>
  apply only_emit; unfold quiet; simpl; tauto : resp.
#[local] Hint Extern 1 (respects (only _) (print _)) =>
  apply only_print; unfold quiet; simpl; tauto : resp.

Lemma extractall_quiet d dir : respects (only quiet) (extractall d dir).
Proof.
  unfold extractall.
  assert (∀ base m, respects (only quiet) (write_member base m)).
  { intros base m. unfold write_member. auto 20 with resp. }
  auto 20 with resp.
Qed.

Lemma os_remove_quiet file : respects (only quiet) (os_remove file).
Proof. unfold os_remove. auto 20 with resp. Qed.

Lemma unpack_quiet (dec : environment → string → decoded) file dir :
  respects (only quiet)
    (data <- read_file file ;; w <- get ;; extractall (dec (env w) data) dir)%py.
Proof.
  apply resp_bind; [apply _|apply resp_read_file, _|].
  intros data. apply resp_bind; [apply _|apply resp_get, _|].
  intros w1. apply extractall_quiet.
Qed.

Lemma tar_extract_opens file dir w :
  wp (tar_extract file dir)
     (λ _ w', after (Call (CTarExtract file dir)) quiet w w') w.
Proof.
  unfold tar_extract. apply wp_bind, wp_emit.
  eapply wp_mono; [apply (unpack_quiet untar)|].
  intros r w' H. by apply only_after.
Qed.

Lemma zip_extract_opens file dir w :
  wp (zip_extract file dir)
     (λ _ w', after (Call (CZipExtract file dir)) quiet w w') w.
Proof.
  unfold zip_extract. apply wp_bind, wp_emit.
  eapply wp_mono; [apply (unpack_quiet unzip)|].
  intros r w' H. by apply only_after.
Qed.

(** After a successful extraction: two lines and the removal. *)
Lemma cleaning_quiet file platform :
  respects (only quiet)
    (print LCleaning ;; os_remove file ;; print (LDownloadComplete platform))%py.
Proof.
  pose proof (os_remove_quiet file). auto 20 with resp.
Qed.

(** The suffixes exclude each other. *)
Lemma endswith_zip_not_tar_gz url :
  PyStr.endswith url ".zip" = true → PyStr.endswith url ".tar.gz" = false.
Proof.
  induction url as [|c s IH]; [done|]. rewrite !endswith_cons.
  intros [H|H]%orb_true_elim.
  - apply String.eqb_eq in H. injection H as -> ->. reflexivity.
  - rewrite (IH H), orb_false_r. apply String.eqb_neq. intros E.
    injection E as -> ->. by vm_compute in H.
Qed.

Lemma extract_and_clean_tar url file dir platform w :
  PyStr.endswith url ".tar.gz" = true →
  wp (extract_and_clean url file dir platform)
     (λ _ w', after (Call (CTarExtract file dir)) quiet
                (log (Print LExtracting) w) w') w.
Proof.
  intros H. unfold extract_and_clean. rewrite H.
  apply wp_bind, wp_print, wp_bind, wp_bind.
  eapply wp_mono; [apply tar_extract_opens|].
  intros [[]|e] w1 HR; [|done].
  apply wp_bind, wp_print, wp_ret.
  eapply wp_mono; [apply cleaning_quiet|]. simpl. intros r w2 H2.
  eapply after_only; [|exact H2].
  eapply after_only; [exact HR|]. exists [Print LTarExtracted].
  split; [done|]. repeat constructor. by intros [].
Qed.

Lemma extract_and_clean_zip url file dir platform w :
  PyStr.endswith url ".zip" = true →
  wp (extract_and_clean url file dir platform)
     (λ _ w', after (Call (CZipExtract file dir)) quiet
                (log (Print LExtracting) w) w') w.
Proof.
  intros H. unfold extract_and_clean.
  rewrite (endswith_zip_not_tar_gz _ H), H.
  apply wp_bind, wp_print, wp_bind, wp_bind.
  eapply wp_mono; [apply zip_extract_opens|].
  intros [[]|e] w1 HR; [|done].
  apply wp_bind, wp_print, wp_ret.
  eapply wp_mono; [apply cleaning_quiet|]. simpl. intros r w2 H2.
  eapply after_only; [|exact H2].
  eapply after_only; [exact HR|]. exists [Print LZipExtracted].
  split; [done|]. repeat constructor. by intros [].
Qed.

Lemma extract_and_clean_other url file dir platform w :
  PyStr.endswith url ".tar.gz" = false →
  PyStr.endswith url ".zip" = false →
  wp (extract_and_clean url file dir platform)
     (λ r w',
        trace w' = trace w ++ [Print LExtracting; Print (LUnknownFormat url);
                               Call (CRemove file)]
        ∧ match Fs.stat (fs w) (cwd w) file with
          | Fs.IsFile F _ => r = Ok tt ∧ fs w' = Fs.put (fs w) F None
          | _ => fs w' = fs w
          end) w.
Proof.
  intros H1 H2. unfold extract_and_clean. rewrite H1, H2.
  destruct (Fs.stat (fs w) (cwd w) file) as [e|l|l d|l m] eqn:Hs;
    apply wp_bind, wp_print, wp_bind, wp_bind, wp_print, wp_bind;
    unfold wp; rewrite os_remove_eq; cbv zeta; cbn [fs cwd log with_trace];
    rewrite Hs; simpl; rewrite <- ?app_assoc; done.
Qed.

(** Making directories leaves the files as they are. *)
Lemma mkdirs_keeps n cur cs n' T d :
  Fs.mkdirs n cur cs = inr n' →
  Fs.lookup n T = Some (File d) → Fs.lookup n' T = Some (File d).
Proof.
  revert n cur. induction cs as [|c cs IH]; intros n cur; simpl.
  { by intros [= <-]. }
  destruct (Fs.lookup n cur) as [[d0|m]|]; try done.
  destruct (Fs.lookup n (Fs.step cur c)) as [[d0|m']|] eqn:E; try done.
  - apply IH.
  - intros H HT. eapply IH; [exact H|].
    apply put_leaf_keeps; [by left|done|congruence|done].
Qed.

(** The directory that was asked for is there afterwards. *)
Lemma mkdirs_reaches n cur cs n' :
  Forall (λ c, c ≠ "." ∧ c ≠ "..") cs →
  Fs.mkdirs n cur cs = inr n' → is_dir n cur → is_dir n' (cur ++ cs).
Proof.
  intros Hcs. revert n cur.
  induction Hcs as [|c cs [H1 H2] _ IH]; intros n cur; simpl.
  { intros [= <-]. by rewrite app_nil_r. }
  destruct (Fs.lookup n cur) as [[d0|m]|] eqn:Hc; try done.
  rewrite (step_name _ _ H1 H2).
  change (cur ++ c :: cs) with (cur ++ [c] ++ cs). rewrite app_assoc.
  destruct (Fs.lookup n (cur ++ [c])) as [[d0|m']|] eqn:E; try done.
  - intros H _. eapply IH; [exact H|by exists m'].
  - intros H _. eapply IH; [exact H|]. exists ∅.
    by apply (lookup_put_here _ _ _ _ m).
Qed.

(** A member leaves the files in other places as they are. *)
Lemma write_member_keeps base m w w' T d :
  write_member base m w = (Ok tt, w') →
  Fs.lookup (fs w) T = Some (File d) →
  (∀ path' d', m = MFile path' d' → base ++ member_path path' ≠ T) →
  Fs.lookup (fs w') T = Some (File d).
Proof.
  unfold write_member, bind, get, set_fs, raise. simpl.
  destruct m as [path data|path].
  - destruct (Fs.mkdirs _ _ _) as [e|n] eqn:Hm; simpl; [done|].
    intros Hrun HT Hne. specialize (Hne path data eq_refl).
    pose proof (mkdirs_keeps _ _ _ _ _ _ Hm HT) as HT'.
    destruct (Fs.lookup n (base ++ member_path path)) as [[d0|m']|] eqn:Hl;
      simpl in Hrun; [|done|]; injection Hrun as <-; simpl.
    + apply put_leaf_keeps; [right; by exists d0|done|congruence|done].
    + apply put_leaf_keeps; [by left|done|congruence|done].
  - destruct (Fs.mkdirs _ _ _) as [e|n] eqn:Hm; simpl; [done|].
    intros [= <-] HT _. simpl. by eapply mkdirs_keeps.
Qed.

(** A file member is in its place, with its content. *)
Lemma write_member_file base path d w w' :
  is_dir (fs w) base →
  write_member base (MFile path d) w = (Ok tt, w') →
  Fs.lookup (fs w') (base ++ member_path path) = Some (File d).
Proof.
  unfold write_member, bind, get, set_fs, raise. simpl. intros Hb.
  destruct (Fs.mkdirs _ _ _) as [e|n] eqn:Hm; simpl; [done|].
  assert (Hpar : is_dir n (base ++ removelast (member_path path))).
  { eapply mkdirs_reaches; [|exact Hm|done].
    apply removelast_ok, member_path_ok. }
  destruct (member_path path) as [|c l _] using rev_ind.
  { rewrite app_nil_r. simpl in Hpar. rewrite app_nil_r in Hpar.
    destruct Hpar as [m' ->]. by simpl. }
  rewrite removelast_last in Hpar. destruct Hpar as [mp Hpar].
  rewrite app_assoc.
  assert (Hput : ∀ x, Fs.lookup (Fs.put n ((base ++ l) ++ [c]) x)
                        ((base ++ l) ++ [c]) = x).
  { intros x. by apply (lookup_put_here _ _ _ _ mp). }
  destruct (Fs.lookup n ((base ++ l) ++ [c])) as [[d0|m']|]; simpl;
    [|done|]; intros [= <-]; simpl; apply Hput.
Qed.

(** A directory member is a directory. *)
Lemma write_member_dir base path w w' :
  is_dir (fs w) base →
  write_member base (MDir path) w = (Ok tt, w') →
  is_dir (fs w') (base ++ member_path path).
Proof.
  unfold write_member, bind, get, set_fs, raise. simpl. intros Hb.
  destruct (Fs.mkdirs _ _ _) as [e|n] eqn:Hm; simpl; [done|].
  intros [= <-]. simpl. eapply mkdirs_reaches; [apply member_path_ok|done..].
Qed.

(** The members one after the other. *)
Lemma for_split {A} (xs ys : list A) (x : A) (f : A → M unit) w w' :
  for_ (xs ++ x :: ys) f w = (Ok tt, w') →
  ∃ w1 w2, for_ xs f w = (Ok tt, w1) ∧ f x w1 = (Ok tt, w2)
           ∧ for_ ys f w2 = (Ok tt, w').
Proof.
  rewrite for_app. destruct (for_ xs f w) as [[[]|e] w1] eqn:H1; [|done].
  simpl. unfold bind. destruct (f x w1) as [[[]|e] w2] eqn:H2; [|done].
  intros H. by exists w1, w2.
Qed.

Lemma write_members_keep base ms w w' T d :
  for_ ms (write_member base) w = (Ok tt, w') →
  Fs.lookup (fs w) T = Some (File d) →
  (∀ path' d', MFile path' d' ∈ ms → base ++ member_path path' ≠ T) →
  Fs.lookup (fs w') T = Some (File d).
Proof.
  revert w. induction ms as [|m ms IH]; intros w; simpl.
  { by intros [= <-]. }
  unfold bind. destruct (write_member base m w) as [[[]|e] w1] eqn:H1; [|done].
  intros Hrun HT Hne. eapply IH; [exact Hrun| |].
  - eapply write_member_keeps; [exact H1|done|].
    intros path' d' ->. apply (Hne path' d'). by left.
  - intros path' d' Hin. apply (Hne path' d'). by right.
Qed.

(** After the members of an archive are written below a directory. *)
Lemma write_members_unpacked base ms w w' :
  is_dir (fs w) base →
  for_ ms (write_member base) w = (Ok tt, w') →
  (∀ path d, last_file ms path d →
     Fs.lookup (fs w') (base ++ member_path path) = Some (File d))
  ∧ (∀ path, MDir path ∈ ms → is_dir (fs w') (base ++ member_path path)).
Proof.
  intros Hb Hrun. split.
  - intros path d (ms1 & ms2 & -> & Hlast).
    destruct (for_split _ _ _ _ _ _ Hrun) as (w1 & w2 & H1 & Hm & H2).
    assert (Hb1 : is_dir (fs w1) base).
    { destruct (wp_run _ _ _ _ _ (write_members_extended base ms1 w) H1)
        as (Hg & _). by apply Hg. }
    eapply write_members_keep; [exact H2|by eapply write_member_file|].
    intros path' d' Hin E. apply (Hlast path' d' Hin).
    by apply app_inv_head in E.
  - intros path (ms1 & ms2 & ->)%list_elem_of_split.
    destruct (for_split _ _ _ _ _ _ Hrun) as (w1 & w2 & H1 & Hm & H2).
    assert (Hb1 : is_dir (fs w1) base).
    { destruct (wp_run _ _ _ _ _ (write_members_extended base ms1 w) H1)
        as (Hg & _). by apply Hg. }
    destruct (wp_run _ _ _ _ _ (write_members_extended base ms2 w2) H2)
      as (Hg & _). apply Hg. by eapply write_member_dir.
Qed.

(** What the file holds may change, the place it is in does not. *)
Lemma grows_stat_file n n' cwd path F d :
  grows n n' → Fs.stat n cwd path = Fs.IsFile F d →
  ∃ d', Fs.stat n' cwd path = Fs.IsFile F d'.
Proof.
  intros Hg (Hr & Hl & Ht)%stat_IsFile.
  destruct (proj2 (Hg F)) as [d' Hl']; [by exists d|].
  exists d'. apply stat_IsFile. split_and!; [|done..].
  apply (resolve_stable n); [|done]. intros q. apply Hg.
Qed.

(** An extraction step that returns: the archive was read from the
    file, its members are in the target directory, and the file is
    removed. *)
Lemma unpack_and_clean (dec : environment → string → decoded) c l
    file dir platform w w' :
  (print LExtracting ;;
   extracted <-
     ((emit (Call c) ;;
       data <- read_file file ;;
       w0 <- get ;;
       extractall (dec (env w0) data) dir) ;;
      print l ;;
      ret true) ;;
   if extracted : bool then
     print LCleaning ;;
     os_remove file ;;
     print (LDownloadComplete platform)
   else ret tt)%py w = (Ok tt, w') →
  ∃ F data base m0 ms,
    Fs.stat (fs w) (cwd w) file = Fs.IsFile F data
    ∧ Fs.stat (fs w) (cwd w) (if decide (dir = "") then "." else dir)
      = Fs.IsDir base m0
    ∧ dec (env w) data = Readable ms None
    ∧ unpacked ms base F (fs w) (fs w').
Proof.
  intros Hrun. set (w1 := log (Call c) (log (Print LExtracting) w)).
  cbv [bind print emit read_file stat get ret raise] in Hrun.
  fold w1 in Hrun. change (fs w1) with (fs w) in Hrun.
  change (cwd w1) with (cwd w) in Hrun. change (env w1) with (env w) in Hrun.
  destruct (Fs.stat (fs w) (cwd w) file) as [e|l0|F data|l0 m1] eqn:Hsf;
    try done.
  unfold extractall in Hrun. change (env w1) with (env w) in Hrun.
  destruct (dec (env w) data) as [e|ms defect] eqn:Hd;
    cbv [bind stat get ret raise] in Hrun; [done|].
  change (fs w1) with (fs w) in Hrun. change (cwd w1) with (cwd w) in Hrun.
  destruct (Fs.stat (fs w) (cwd w) (if decide (dir = "") then "." else dir))
    as [e|l0|l0 d0|base m0] eqn:Hsd; try done.
  destruct (for_ ms (write_member base) w1) as [[[]|e] w2] eqn:Hfor; [|done].
  destruct defect as [e|]; [done|].
  rewrite os_remove_eq in Hrun. cbv zeta in Hrun.
  cbn [fs cwd env log with_trace] in Hrun.
  destruct (wp_run _ _ _ _ _ (write_members_extended base ms w1) Hfor)
    as (Hg & Hi & Hc & _).
  change (fs w1) with (fs w) in Hg, Hi. change (cwd w1) with (cwd w) in Hc.
  destruct (grows_stat_file _ _ _ _ _ _ Hg Hsf) as [d' Hsf2].
  rewrite Hc, Hsf2 in Hrun. injection Hrun as <-.
  cbn [fs with_fs with_trace log].
  exists F, data, base, m0, ms. split_and!; [done..|].
  assert (Hb : is_dir (fs w1) base).
  { apply stat_IsDir in Hsd as [_ Hl]. by exists m0. }
  destruct (write_members_unpacked base ms w1 w2 Hb Hfor) as [Hfiles Hdirs].
  assert (HF : is_file (fs w2) F).
  { apply stat_IsFile in Hsf2 as (_ & Hl & _). by exists d'. }
  split_and!.
  - intros path d Hlast Hne. apply put_leaf_keeps; [by right|auto|done|done].
  - intros path Hin. apply put_leaf_dirs; [by right|auto].
  - intros q Hq HqF. rewrite put_outside by done. by apply Hi.
Qed.

(** * The properties of the script *)




(** C2. After a run that returned normally and left every platform of
    the list with a directory that is not empty, a second run with the
    same list, from the state the first one left, returns normally, asks
    the network for nothing, and leaves the tree as it was: every
    platform is skipped. *)
Theorem C2_second_run_fetches_nothing platforms w0 w1 :
  update_netcore_runtime platforms w0 = (Ok tt, w1) →
  Forall (populated w1) platforms →
  ∃ w2 evs,
    update_netcore_runtime platforms w1 = (Ok tt, w2)
    ∧ fs w2 = fs w1
    ∧ trace w2 = trace w1 ++ evs
    ∧ Forall (λ e, ¬ is_fetch e) evs.
Proof.
  intros Hrun Hpop.
  destruct (update_refreshed _ _ _ Hrun) as [w0' H0].
  pose proof (update_stamped _ _ _ _ _ H0 Hrun) as Hst.
  assert (Hv : Fs.lookup (fs w1) (version_loc w1)
               = Some (File DOTNET_RUNTIME_VERSION)).
  { by apply stat_IsFile in Hst as (_ & ? & _). }
  destruct (version_loc_lookup _ _ Hv) as (m & Hm & Hmv).
  assert (Hwp : wp (update_netcore_runtime platforms)
    (λ r w2, r = Ok tt ∧ fs w2 = fs w1 ∧ only (λ e, ¬ is_fetch e) w1 w2) w1).
  { unfold update_netcore_runtime. apply wp_bind.
    eapply wp_mono; [by apply (refresh_cache_current _ _ m _ Hm Hmv strip_version)|].
    intros r w (-> & Hfs & Hcwd & Henv & Htr).
    rewrite put_same in Hfs; [|unfold version_loc; by destruct (root_loc w1)|done].
    assert (Hev : only (λ e, ¬ is_fetch e) w1 w).
    { eexists. split; [exact Htr|]. unfold refresh_events.
      rewrite decide_False by (by intros []).
      repeat constructor; intros (? & ? & ?); done. }
    clear Htr. destruct platforms as [|p0 ps].
    { apply wp_print. split_and!; [done..|].
      apply only_log; [done|apply not_fetch_print]. }
    apply wp_bind.
    apply (wp_for _ _ (λ rest w, Forall (populated w1) rest ∧ fs w = fs w1
      ∧ cwd w = cwd w1 ∧ only (λ e, ¬ is_fetch e) w1 w)).
    - by split_and!.
    - intros x rest w' (Hp & Hfs' & Hcwd' & Hev').
      apply Forall_cons in Hp as [Hx Hrest].
      eapply wp_mono; [apply process_platform_skips|].
      { unfold populated in *. by rewrite Hfs', Hcwd'. }
      intros r w'' (-> & Hfs'' & Hcwd'' & _ & Hev'').
      split_and!; [done|congruence..|]. by eapply only_trans.
    - intros w' (_ & Hfs' & _ & Hev'). apply wp_print.
      split_and!; [done..|]. apply only_log; [done|apply not_fetch_print]. }
  unfold wp in Hwp. destruct (update_netcore_runtime platforms w1) as [r w2].
  simpl in Hwp. destruct Hwp as (-> & Hfs & evs & Htr & Hnf).
  by exists w2, evs.
Qed.

(** C2 at work: two runs for linux and windows, the first on a machine without a cache. *)
Lemma C2_second_run_fetches_nothing_witness :
  let w0 := world_of env_ok tree_new in
  let w1 := (update_netcore_runtime ["linux"; "windows"] w0).2 in
  ∃ w2 evs,
    update_netcore_runtime ["linux"; "windows"] w1 = (Ok tt, w2)
    ∧ fs w2 = fs w1
    ∧ trace w2 = trace w1 ++ evs
    ∧ Forall (λ e, ¬ is_fetch e) evs.
Proof.
  intros w0 w1.
  apply (C2_second_run_fetches_nothing ["linux"; "windows"] w0 w1).
  - vm_compute. reflexivity.
  - repeat constructor.
    + exists (cache_loc ++ ["linux"]),
        {[ "shared" := Dir {[ "lib.so" := File "elf" ]}; "dotnet" := File "bin" ]}.
      split; [vm_compute; reflexivity|].
      intros H. apply (f_equal (λ m : gmap string node, m !! "dotnet")) in H.
      vm_compute in H. discriminate H.
    + exists (cache_loc ++ ["windows"]), {[ "dotnet.exe" := File "pe" ]}.
      split; [vm_compute; reflexivity|].
      intros H. apply (f_equal (λ m : gmap string node, m !! "dotnet.exe")) in H.
      vm_compute in H. discriminate H.
Defined.

(** C3 (amended). When the cache directory exists and its stamp is
    missing, or differs from the expected version once stripped, the
    version bookkeeping removes the whole directory with one call of
    [shutil.rmtree], makes it again and writes the stamp: the directory
    then holds the stamp and nothing else, before any platform is
    processed. When every platform of the list is in the table, the call
    then returns and the archive of every platform of the list has been
    asked for. *)
Theorem C3_stale_cache_is_rebuilt platforms w m cv :
  Fs.lookup (fs w) (root_loc w) = Some (Dir m) →
  match m !! "VERSION" with
  | None => cv = None
  | Some (File d) => cv = Some (PyStr.strip d)
  | Some (Dir _) => False
  end →
  cv ≠ Some DOTNET_RUNTIME_VERSION →
  ∃ w1,
    refresh_cache platforms w = (Ok tt, w1)
    ∧ fs w1 = Fs.put (fs w) (root_loc w)
                (Some (Dir {[ "VERSION" := File DOTNET_RUNTIME_VERSION ]}))
    ∧ trace w1 = trace w ++ refresh_events platforms cv true
    ∧ (Forall supported platforms →
       ∃ w' evs,
         update_netcore_runtime platforms w = (Ok tt, w')
         ∧ trace w' = trace w1 ++ evs
         ∧ Forall (fetched evs) platforms).
Proof.
  intros Hm Hcv Hne.
  pose proof (refresh_cache_stale platforms w m cv Hm Hcv Hne) as Hwp.
  unfold wp in Hwp. destruct (refresh_cache platforms w) as [r w1] eqn:H1.
  simpl in Hwp. destruct Hwp as (-> & Hfs & Hc & _ & Ht).
  exists w1. split_and!; [done..|]. intros Hsup.
  assert (Hroot : Fs.lookup (fs w1) (root_loc w1)
                  = Some (Dir {[ "VERSION" := File DOTNET_RUNTIME_VERSION ]})).
  { unfold root_loc in *. rewrite Hfs, Hc.
    destruct (root_parent_dir _ _ _ Hm) as [m0 Hm0].
    change (cwd w ++ ["Dependencies"; "dotnet"])
      with (cwd w ++ ["Dependencies"] ++ ["dotnet"]).
    rewrite app_assoc. by apply (lookup_put_here _ _ _ _ m0). }
  unfold update_netcore_runtime, bind. rewrite H1.
  destruct platforms as [|x xs].
  - exists (log (Print LNoPlatforms) w1), [Print LNoPlatforms]. by split_and!.
  - pose proof (for_process_fetches (x :: xs) w1 Hsup Hroot) as Hwp.
    unfold wp in Hwp. destruct (for_ (x :: xs) process_platform w1) as [r w2].
    simpl in Hwp. destruct Hwp as (-> & evs & Ht2 & Hf).
    exists (log (Print LComplete) w2), (evs ++ [Print LComplete]).
    split_and!; [done|simpl; by rewrite Ht2, app_assoc|].
    eapply Forall_impl; [exact Hf|]. intros q. apply fetched_app.
Qed.

(** C3 at work: a cache stamped 9.0.0, rebuilt for linux and windows. *)
Lemma C3_stale_cache_is_rebuilt_witness :
  let w := world_of env_ok tree_stale in
  ∃ w1 w' evs,
    refresh_cache ["linux"; "windows"] w = (Ok tt, w1)
    ∧ fs w1 = Fs.put (fs w) (root_loc w)
                (Some (Dir {[ "VERSION" := File DOTNET_RUNTIME_VERSION ]}))
    ∧ trace w1 = trace w ++ refresh_events ["linux"; "windows"] (Some "9.0.0") true
    ∧ update_netcore_runtime ["linux"; "windows"] w = (Ok tt, w')
    ∧ trace w' = trace w1 ++ evs
    ∧ Forall (fetched evs) ["linux"; "windows"].
Proof.
  intros w.
  destruct (C3_stale_cache_is_rebuilt ["linux"; "windows"] w
              {[ "VERSION" := File "9.0.0 ";
                 "linux" := Dir {[ "dotnet" := File "old" ]} ]} (Some "9.0.0"))
    as (w1 & H1 & Hfs & Ht & Hall).
  - vm_compute. reflexivity.
  - vm_compute. reflexivity.
  - vm_compute. discriminate.
  - destruct Hall as (w' & evs & Hrun & Ht' & Hf).
    { repeat constructor; eexists; vm_compute; reflexivity. }
    exists w1, w', evs. repeat split; assumption.
Defined.

(** A stale cache with a populated [linux], and [bogus] before [linux]
    in the list: the call raises [KeyError] and nothing is fetched for
    [linux]. *)
Lemma C3_counterexample :
  let w := world_of env_ok tree_stale in
  Fs.lookup (fs w) (root_loc w ++ ["VERSION"]) = Some (File "9.0.0 ")
  ∧ is_dir (fs w) (root_loc w ++ ["linux"])
  ∧ ∃ w', update_netcore_runtime ["bogus"; "linux"] w
          = (Raise (KeyError "bogus"), w')
          ∧ ¬ fetched (trace w') "linux".
Proof.
  intros w. split; [vm_compute; reflexivity|]. split.
  { eexists. vm_compute. reflexivity. }
  eexists. split; [vm_compute; reflexivity|].
  cbn [trace]. intros (url & _ & H).
  repeat (apply elem_of_cons in H as [H|H]; [discriminate H|]).
  by apply elem_of_nil in H.
Qed.

(** C4. A platform of the table, whose directory is missing or empty, is
    downloaded. When the guarded region of [download_platform_runtime]
    (the body of its [try] statement) raises an exception [e], whichever
    it is, [process_platform] returns normally all the same: the handler
    reports [e], looks for the temporary file and removes it when it is
    there, so that it is absent afterwards, and the loop over the
    platforms goes on with the next one from the state the handler
    left. *)
Theorem C4_failure_is_contained platform rest url B fresh w e w2 :
  DOTNET_RUNTIME_DOWNLOADS !! platform = Some url →
  needs_download w platform B fresh →
  download_body url (temp_file (p runtime_cache [platform]))
    (p runtime_cache [platform]) platform (guard_entry platform B fresh w)
  = (Raise e, w2) →
  ∃ w3,
    process_platform platform w = (Ok tt, w3)
    ∧ trace w3 = trace w2 ++ failure_report url e
                   ++ cleanup_events w2 (temp_file (p runtime_cache [platform]))
    ∧ path_exists w3 (temp_file (p runtime_cache [platform])) = false
    ∧ for_ (platform :: rest) process_platform w = for_ rest process_platform w3.
Proof.
  intros Hk Hn Hbody. set (dir := p runtime_cache [platform]) in *.
  set (w1 := guard_entry platform B fresh w) in *.
  pose proof (guard_entry_stat platform B fresh w Hn) as Hs. fold w1 dir in Hs.
  pose proof (stat_dir_ne _ _ _ _ _ Hs) as Hne.
  apply stat_IsDir in Hs as [Hr HB].
  assert (Hk1 : kept (fs w1) (cwd w1) B w1).
  { split_and!; [done|apply inside_refl|done|]. intros [m Hm].
    rewrite lookup_snoc, HB, lookup_empty in Hm. done. }
  destruct (download_guarded_catches (fs w1) (cwd w1) B dir Hr
              ltac:(by eexists) Hne url platform w1 e w2 Hk1 Hbody)
    as (w3 & Hg & Ht).
  pose proof (process_platform_enters platform url B fresh w Hk Hn) as Hp.
  fold dir w1 in Hp. unfold temp_file in *. simpl in Hg.
  exists w3. split_and!.
  - by rewrite Hp.
  - exact Ht.
  - by apply (wp_run _ _ _ _ _ (download_guarded_gone dir url platform w1) Hg).
  - simpl. unfold bind. rewrite Hp. change (Path.join2 dir "download.tmp") with (p dir ["download.tmp"]) in Hg. by rewrite Hg.
Qed.

(** C4 at work: a network that cannot be reached, and an empty directory for linux. *)
Lemma C4_failure_is_contained_witness :
  let w := world_of env_refused tree_empty_linux in
  let url := "https://builds.dotnet.microsoft.com/dotnet/Runtime/10.0.0/dotnet-runtime-10.0.0-linux-x64.tar.gz" in
  let dir := p runtime_cache ["linux"] in
  let B := cache_loc ++ ["linux"] in
  let w2 := (download_body url (temp_file dir) dir "linux"
               (guard_entry "linux" B false w)).2 in
  ∃ w3,
    process_platform "linux" w = (Ok tt, w3)
    ∧ trace w3 = trace w2 ++ failure_report url (URLError "unreachable")
                   ++ cleanup_events w2 (temp_file dir)
    ∧ path_exists w3 (temp_file dir) = false
    ∧ for_ ("linux" :: ["windows"]) process_platform w
      = for_ ["windows"] process_platform w3.
Proof.
  intros w url dir B w2.
  apply (C4_failure_is_contained "linux" ["windows"] url B false w
           (URLError "unreachable") w2).
  - vm_compute. reflexivity.
  - vm_compute. reflexivity.
  - vm_compute. reflexivity.
Defined.

(** C5. The network answers in full with fewer than 10240 bytes, and
    the text, in lower case, contains [html] or [<!doctype]; the
    directory of the platform has no temporary file and the look into the
    download is not disturbed. Then [download_platform_runtime] returns
    normally; the tree is what it was before the call, so the temporary
    file is gone and a directory that was empty is empty; and after the
    size is printed there are the look into the file, two lines of
    report and the removal of the file: no archive is opened. *)
Theorem C5_html_answer_is_dropped dir platform url B m data w :
  DOTNET_RUNTIME_DOWNLOADS !! platform = Some url →
  Fs.stat (fs w) (cwd w) dir = Fs.IsDir B m →
  m !! "download.tmp" = None →
  net (env w) (request_trace w platform url dir) url = Body data None →
  (Z.of_nat (String.length data) < 10240)%Z →
  html_markers data = true →
  read_fault (env w) (peek_trace w platform url dir data) = None →
  ∃ w',
    download_platform_runtime dir platform w = (Ok tt, w')
    ∧ fs w' = fs w
    ∧ trace w' = peek_trace w platform url dir data
                 ++ [Call (COpenText (temp_file dir)); Print LHtmlInstead;
                     Print (LPreview (PyStr.take 300 data));
                     Call (CRemove (temp_file dir))].
Proof.
  intros Hk Hs Hm Hn Hsz Hmk Hf.
  rewrite (download_reaches_peek dir platform url B m data w Hk Hs Hm Hn).
  erewrite try_step; cycle 1.
  { apply (html_check_drops _ (B ++ ["download.tmp"])); [|done..].
    by apply (stat_temp_written _ _ _ _ m). }
  eexists. split; [reflexivity|]. simpl. split; [|done].
  apply put_undo; [by destruct B|].
  pose proof (stat_temp_new _ _ _ _ _ Hs Hm) as Ha.
  by apply stat_Absent in Ha as [_ ?].
Qed.

(** C5 at work: an error page for linux. *)
Lemma C5_html_answer_is_dropped_witness :
  let w := world_of env_html tree_empty_linux in
  let url := "https://builds.dotnet.microsoft.com/dotnet/Runtime/10.0.0/dotnet-runtime-10.0.0-linux-x64.tar.gz" in
  let dir := p runtime_cache ["linux"] in
  let data := "<!DOCTYPE HTML><title>404</title>" in
  ∃ w',
    download_platform_runtime dir "linux" w = (Ok tt, w')
    ∧ fs w' = fs w
    ∧ trace w' = peek_trace w "linux" url dir data
                 ++ [Call (COpenText (temp_file dir)); Print LHtmlInstead;
                     Print (LPreview (PyStr.take 300 data));
                     Call (CRemove (temp_file dir))].
Proof.
  intros w url dir data.
  apply (C5_html_answer_is_dropped dir "linux" url (cache_loc ++ ["linux"]) ∅
           data w).
  - vm_compute. reflexivity.
  - vm_compute. reflexivity.
  - reflexivity.
  - reflexivity.
  - vm_compute. reflexivity.
  - vm_compute. reflexivity.
  - reflexivity.
Defined.

(** C6. The extraction step goes by the suffix of the URL. For
    [.tar.gz] its first call is the one that opens the temporary file as
    a gzip-compressed tar archive and extracts it into the target
    directory, and no archive is opened after it; when the step returns,
    the bytes of the file were decoded as a tar archive and the members
    are in the target directory: every file member with its content,
    every directory member as a directory, and nothing has changed
    outside the target directory but the removal of the temporary file.
    For [.zip] it is the call that opens the file as a zip archive, with
    the members of the zip archive, in the same way. For any other
    suffix no archive is opened: a line names the unknown format, the
    temporary file is removed, and the step returns; that removal is the
    only change of the tree. *)
Theorem C6_format_dispatch url file dir platform w r w' :
  extract_and_clean url file dir platform w = (r, w') →
  (PyStr.endswith url ".tar.gz" = true →
     (∃ evs, trace w' = trace w ++ Print LExtracting
                          :: Call (CTarExtract file dir) :: evs
             ∧ Forall quiet evs)
     ∧ (r = Ok tt →
        ∃ F data base m0 ms,
          Fs.stat (fs w) (cwd w) file = Fs.IsFile F data
          ∧ Fs.stat (fs w) (cwd w) (if decide (dir = "") then "." else dir)
            = Fs.IsDir base m0
          ∧ untar (env w) data = Readable ms None
          ∧ unpacked ms base F (fs w) (fs w')))
  ∧ (PyStr.endswith url ".zip" = true →
     (∃ evs, trace w' = trace w ++ Print LExtracting
                          :: Call (CZipExtract file dir) :: evs
             ∧ Forall quiet evs)
     ∧ (r = Ok tt →
        ∃ F data base m0 ms,
          Fs.stat (fs w) (cwd w) file = Fs.IsFile F data
          ∧ Fs.stat (fs w) (cwd w) (if decide (dir = "") then "." else dir)
            = Fs.IsDir base m0
          ∧ unzip (env w) data = Readable ms None
          ∧ unpacked ms base F (fs w) (fs w')))
  ∧ (PyStr.endswith url ".tar.gz" = false →
     PyStr.endswith url ".zip" = false →
     trace w' = trace w ++ [Print LExtracting; Print (LUnknownFormat url);
                            Call (CRemove file)]
     ∧ match Fs.stat (fs w) (cwd w) file with
       | Fs.IsFile F _ => r = Ok tt ∧ fs w' = Fs.put (fs w) F None
       | _ => fs w' = fs w
       end).
Proof.
  intros Hrun. split_and!.
  - intros H. split.
    + destruct (wp_run _ _ _ _ _
                  (extract_and_clean_tar url file dir platform w H) Hrun)
        as (evs & Ht & Hq).
      exists evs. split; [|done]. simpl in Ht. by rewrite Ht, <- app_assoc.
    + intros ->. unfold extract_and_clean in Hrun. rewrite H in Hrun.
      exact (unpack_and_clean untar _ _ file dir platform w w' Hrun).
  - intros H. split.
    + destruct (wp_run _ _ _ _ _
                  (extract_and_clean_zip url file dir platform w H) Hrun)
        as (evs & Ht & Hq).
      exists evs. split; [|done]. simpl in Ht. by rewrite Ht, <- app_assoc.
    + intros ->. unfold extract_and_clean in Hrun.
      rewrite (endswith_zip_not_tar_gz _ H), H in Hrun.
      exact (unpack_and_clean unzip _ _ file dir platform w w' Hrun).
  - intros H1 H2.
    apply (wp_run _ _ _ _ _ (extract_and_clean_other url file dir platform w H1 H2) Hrun).
Qed.

(** C6 at work: the archive for linux, downloaded into the empty
    directory of the platform, holds a directory and two files. *)
Lemma C6_format_dispatch_witness :
  let w := world_of env_ok tree_downloaded in
  let url := "https://builds.dotnet.microsoft.com/dotnet/Runtime/10.0.0/dotnet-runtime-10.0.0-linux-x64.tar.gz" in
  let dir := p runtime_cache ["linux"] in
  let file := temp_file dir in
  let r := (extract_and_clean url file dir "linux" w).1 in
  let w' := (extract_and_clean url file dir "linux" w).2 in
  r = Ok tt
  ∧ (∃ evs, trace w' = trace w ++ Print LExtracting
                         :: Call (CTarExtract file dir) :: evs
            ∧ Forall quiet evs)
  ∧ (∃ F data base m0 ms,
       Fs.stat (fs w) (cwd w) file = Fs.IsFile F data
       ∧ Fs.stat (fs w) (cwd w) (if decide (dir = "") then "." else dir)
         = Fs.IsDir base m0
       ∧ untar (env w) data = Readable ms None
       ∧ unpacked ms base F (fs w) (fs w'))
  ∧ Fs.lookup (fs w') (cache_loc ++ ["linux"; "shared"; "lib.so"])
    = Some (File "elf")
  ∧ Fs.lookup (fs w') (cache_loc ++ ["linux"; "dotnet"]) = Some (File "bin")
  ∧ Fs.lookup (fs w') (cache_loc ++ ["linux"; "download.tmp"]) = None.
Proof.
  intros w url dir file r w'.
  assert (Hr : r = Ok tt) by (vm_compute; reflexivity).
  destruct (C6_format_dispatch url file dir "linux" w r w') as (Htar & _ & _).
  { vm_compute. reflexivity. }
  destruct Htar as [Ht Hu]; [vm_compute; reflexivity|].
  split_and!; [exact Hr|exact Ht|exact (Hu Hr)|vm_compute; reflexivity..].
Defined.



(** C8. The look into a download of fewer than 10240 bytes never
    raises. When opening or reading the file raises an exception, the
    look answers that the file is no HTML page, having done nothing but
    its call of [open]; the rest of the call is then the extraction
    step under the handlers, from the very state from which it runs when
    the file is read and holds no marker. *)
Theorem C8_peek_errors_are_swallowed dir platform url B m data w :
  DOTNET_RUNTIME_DOWNLOADS !! platform = Some url →
  Fs.stat (fs w) (cwd w) dir = Fs.IsDir B m →
  m !! "download.tmp" = None →
  net (env w) (request_trace w platform url dir) url = Body data None →
  (Z.of_nat (String.length data) < 10240)%Z →
  let file := temp_file dir in
  let size := Z.of_nat (String.length data) in
  let w1 := peek_state w platform url dir B data in
  let extraction :=
    try_except (extract_and_clean url file dir platform)
      (download_handlers url file) (log (Call (COpenText file)) w1) in
  (∀ e w2, open_read_text file w1 = (Raise e, w2) →
     html_check file size w1 = (Ok false, log (Call (COpenText file)) w1)
     ∧ download_platform_runtime dir platform w = extraction)
  ∧ (∀ content w2, open_read_text file w1 = (Ok content, w2) →
       html_markers content = false →
       download_platform_runtime dir platform w = extraction)
  ∧ (∀ file' size' w', ∃ b w'', html_check file' size' w' = (Ok b, w'')).
Proof.
  intros Hk Hs Hm Hn Hsz file size w1 extraction.
  pose proof (download_reaches_peek dir platform url B m data w Hk Hs Hm Hn)
    as Hrun. fold file size w1 in Hrun.
  split_and!.
  - intros e w2 Hr. pose proof (open_read_text_raises _ _ _ _ Hr) as ->.
    pose proof (html_check_swallows file size e w1 _ Hsz Hr) as Hc.
    split; [done|]. rewrite Hrun. by rewrite (try_step _ _ _ _ _ _ Hc).
  - intros content w2 Hr Hmk.
    pose proof (open_read_text_returns _ _ _ _ Hr) as ->.
    pose proof (html_check_passes file size content w1 _ Hsz Hr Hmk) as Hc.
    rewrite Hrun. by rewrite (try_step _ _ _ _ _ _ Hc).
  - apply html_check_total.
Qed.

(** C8 at work: a download for linux that cannot be read back. *)
Lemma C8_peek_errors_are_swallowed_witness :
  let w := world_of env_fault tree_empty_linux in
  let url := "https://builds.dotnet.microsoft.com/dotnet/Runtime/10.0.0/dotnet-runtime-10.0.0-linux-x64.tar.gz" in
  let dir := p runtime_cache ["linux"] in
  let data := "archive-bytes" in
  let file := temp_file dir in
  let w1 := peek_state w "linux" url dir (cache_loc ++ ["linux"]) data in
  html_check file (Z.of_nat (String.length data)) w1
  = (Ok false, log (Call (COpenText file)) w1)
  ∧ download_platform_runtime dir "linux" w
    = try_except (extract_and_clean url file dir "linux")
        (download_handlers url file) (log (Call (COpenText file)) w1).
Proof.
  intros w url dir data file w1.
  apply (proj1 (C8_peek_errors_are_swallowed dir "linux" url
                  (cache_loc ++ ["linux"]) ∅ data w
                  ltac:(vm_compute; reflexivity) ltac:(vm_compute; reflexivity)
                  ltac:(reflexivity) ltac:(reflexivity)
                  ltac:(vm_compute; reflexivity))
           (OtherError "PermissionError" "download.tmp")
           (log (Call (COpenText file)) w1)).
  vm_compute. reflexivity.
Defined.

(** C9. A call without platforms performs the version bookkeeping and
    nothing else: every call it makes is one of the bookkeeping, on the
    cache directory or on the stamp, so that no platform directory is
    looked at or made and nothing is fetched; and when the bookkeeping
    completes, the call prints its warning and returns normally. *)
Theorem C9_empty_platform_list w r w' :
  update_netcore_runtime [] w = (r, w') →
  (∃ evs, trace w' = trace w ++ evs ∧ Forall bookkeeping evs)
  ∧ (∀ w1, refresh_cache [] w = (Ok tt, w1) →
       r = Ok tt ∧ w' = log (Print LNoPlatforms) w1).
Proof.
  intros Hrun. split.
  - refine (wp_run _ (λ _ w', only bookkeeping w w') _ _ _ _ Hrun).
    pose proof (only_steady bookkeeping).
    unfold update_netcore_runtime.
    apply resp_bind; [apply _|apply refresh_cache_only|intros _].
    by apply only_print.
  - intros w1 H1. unfold update_netcore_runtime, bind in Hrun.
    rewrite H1 in Hrun. unfold print, emit in Hrun. by simplify_eq.
Qed.

(** C9 at work: no platforms, on a cache stamped 9.0.0. *)
Lemma C9_empty_platform_list_witness :
  let w := world_of env_ok tree_stale in
  let w1 := (refresh_cache [] w).2 in
  let r := (update_netcore_runtime [] w).1 in
  let w' := (update_netcore_runtime [] w).2 in
  (∃ evs, trace w' = trace w ++ evs ∧ Forall bookkeeping evs)
  ∧ r = Ok tt ∧ w' = log (Print LNoPlatforms) w1.
Proof.
  intros w w1 r w'.
  destruct (C9_empty_platform_list w r w') as [Hb Hr].
  - vm_compute. reflexivity.
  - split; [exact Hb|]. apply Hr. vm_compute. reflexivity.
Defined.

(** C10. The stamp is written before the list of platforms is looked at:
    when the version bookkeeping of a call completes, then whatever the
    platforms are and however the call ends, the stamp holds the expected
    version at the end; and a call with no platforms on a cache whose
    stamp is missing or different removes the whole cache directory,
    makes it again with the stamp as its only entry, and returns. *)
Theorem C10_stamp_after_every_call platforms w w1 r w' :
  refresh_cache platforms w = (Ok tt, w1) →
  update_netcore_runtime platforms w = (r, w') →
  stamped w'
  ∧ (∀ m cv,
       platforms = [] →
       Fs.lookup (fs w) (root_loc w) = Some (Dir m) →
       match m !! "VERSION" with
       | None => cv = None
       | Some (File d) => cv = Some (PyStr.strip d)
       | Some (Dir _) => False
       end →
       cv ≠ Some DOTNET_RUNTIME_VERSION →
       r = Ok tt
       ∧ fs w' = Fs.put (fs w) (root_loc w)
                   (Some (Dir {[ "VERSION" := File DOTNET_RUNTIME_VERSION ]}))
       ∧ trace w' = trace w ++ refresh_events [] cv true ++ [Print LNoPlatforms]).
Proof.
  intros H1 Hrun. split; [by eapply update_stamped|].
  intros m cv -> Hm Hcv Hne.
  pose proof (wp_run _ _ _ _ _ (refresh_cache_stale [] w m cv Hm Hcv Hne) H1)
    as (_ & Hfs & _ & _ & Htr).
  unfold update_netcore_runtime, bind in Hrun. rewrite H1 in Hrun.
  unfold print, emit in Hrun. simplify_eq. simpl.
  rewrite Hfs, Htr. split_and!; [done..|]. by rewrite <- app_assoc.
Qed.

(** C10 at work: no platforms, on a cache stamped 9.0.0. *)
Lemma C10_stamp_after_every_call_witness :
  let w := world_of env_ok tree_stale in
  let w1 := (refresh_cache [] w).2 in
  let r := (update_netcore_runtime [] w).1 in
  let w' := (update_netcore_runtime [] w).2 in
  stamped w'
  ∧ r = Ok tt
  ∧ fs w' = Fs.put (fs w) (root_loc w)
              (Some (Dir {[ "VERSION" := File DOTNET_RUNTIME_VERSION ]}))
  ∧ trace w' = trace w ++ refresh_events [] (Some "9.0.0") true
                 ++ [Print LNoPlatforms].
Proof.
  intros w w1 r w'.
  destruct (C10_stamp_after_every_call [] w w1 r w') as [Hs Hrest].
  - vm_compute. reflexivity.
  - vm_compute. reflexivity.
  - split; [exact Hs|].
    apply (Hrest {[ "VERSION" := File "9.0.0 ";
                    "linux" := Dir {[ "dotnet" := File "old" ]} ]}
                 (Some "9.0.0")).
    + reflexivity.
    + vm_compute. reflexivity.
    + vm_compute. reflexivity.
    + vm_compute. discriminate.
Defined.

(** * Further properties of the script *)

(** ** The bookkeeping without a cache *)

Lemma stat_Dependencies w :
  is_dir (fs w) (cwd w) →
  Fs.stat (fs w) (cwd w) "Dependencies" =
  match Fs.lookup (fs w) (deps_loc w) with
  | None => Fs.Absent (deps_loc w)
  | Some (File d) => Fs.IsFile (deps_loc w) d
  | Some (Dir m) => Fs.IsDir (deps_loc w) m
  end.
Proof.
  intros [m0 Hm0]. unfold Fs.stat. rewrite resolve_Dependencies, Hm0.
  fold (deps_loc w). by destruct (Fs.lookup (fs w) (deps_loc w)) as [[?|?]|].
Qed.

(** Without a cache directory, and with no regular file in the place of
    [Dependencies], neither the stamp nor the cache directory exists. *)
Lemma stat_cache_missing w :
  is_dir (fs w) (cwd w) →
  (∀ d, Fs.lookup (fs w) (deps_loc w) ≠ Some (File d)) →
  Fs.lookup (fs w) (root_loc w) = None →
  path_exists w runtime_cache = false
  ∧ ∃ st, Fs.stat (fs w) (cwd w) version_file_path = st
          ∧ (st = Fs.Failed Fs.ENOENT).
Proof.
  intros Hc Hd Hr.
  pose proof (stat_Dependencies w Hc) as Hs.
  assert (Hrc : Fs.stat (fs w) (cwd w) runtime_cache = Fs.Failed Fs.ENOENT
                ∨ Fs.stat (fs w) (cwd w) runtime_cache = Fs.Absent (root_loc w)).
  { rewrite runtime_cache_eq, (stat_join _ _ _ _ plain_dotnet) by done.
    rewrite Hs. destruct (Fs.lookup (fs w) (deps_loc w)) as [[d|m]|] eqn:E.
    - by destruct (Hd d).
    - right. unfold root_loc, deps_loc in *.
      change (cwd w ++ ["Dependencies"; "dotnet"])
        with (cwd w ++ ["Dependencies"] ++ ["dotnet"]) in Hr.
      rewrite app_assoc, lookup_snoc, E in Hr. simpl in Hr. rewrite Hr.
      by rewrite <- app_assoc.
    - by left. }
  split.
  - unfold path_exists. by destruct Hrc as [-> | ->].
  - eexists. split; [done|].
    rewrite version_file_path_eq, (stat_join _ _ _ _ plain_VERSION runtime_cache_ne).
    by destruct Hrc as [-> | ->].
Qed.

Lemma mkdirs_cache_new w :
  is_dir (fs w) (cwd w) →
  (∀ d, Fs.lookup (fs w) (deps_loc w) ≠ Some (File d)) →
  Fs.lookup (fs w) (root_loc w) = None →
  ∃ n1, Fs.mkdirs (fs w) (cwd w) (Path.components runtime_cache) = inr n1
        ∧ Fs.lookup n1 (root_loc w) = Some (Dir ∅)
        ∧ inside (deps_loc w) (fs w) n1.
Proof.
  intros Hc Hd Hr. destruct (Fs.lookup (fs w) (deps_loc w)) as [[d|m1]|] eqn:E.
  - by destruct (Hd d).
  - exists (Fs.put (fs w) (root_loc w) (Some (Dir ∅))). split_and!.
    + apply mkdirs_cache_absent; [by exists m1|done].
    + rewrite root_loc_snoc. by apply (lookup_put_here _ _ _ _ m1).
    + apply put_inside. rewrite root_loc_snoc. by apply prefix_app_r.
  - destruct Hc as [m0 Hm0].
    set (n0 := Fs.put (fs w) (deps_loc w) (Some (Dir ∅))).
    assert (H0 : Fs.lookup n0 (deps_loc w) = Some (Dir ∅)).
    { by apply (lookup_put_here _ _ _ _ m0). }
    exists (Fs.put n0 (root_loc w) (Some (Dir ∅))). split_and!.
    + change (Path.components runtime_cache) with ["Dependencies"; "dotnet"].
      simpl. rewrite Hm0, !step_plain by (by repeat split).
      fold (deps_loc w). rewrite E. fold n0. rewrite H0.
      unfold deps_loc. rewrite <- app_assoc. simpl. fold (root_loc w).
      assert (Fs.lookup n0 (root_loc w) = None) as ->; [|done].
      rewrite root_loc_snoc. fold (deps_loc w). by rewrite lookup_snoc, H0.
    + rewrite root_loc_snoc. by apply (lookup_put_here _ _ _ _ ∅).
    + eapply inside_trans; [by apply put_inside|].
      apply put_inside. rewrite root_loc_snoc. by apply prefix_app_r.
Qed.

(** A first run: the cache directory is made, with the directories above
    it, and stamped; nothing is removed. *)
Lemma refresh_cache_first platforms w :
  is_dir (fs w) (cwd w) →
  (∀ d, Fs.lookup (fs w) (deps_loc w) ≠ Some (File d)) →
  Fs.lookup (fs w) (root_loc w) = None →
  wp (refresh_cache platforms)
     (λ r w', r = Ok tt
        ∧ Fs.lookup (fs w') (root_loc w)
          = Some (Dir {[ "VERSION" := File DOTNET_RUNTIME_VERSION ]})
        ∧ inside (deps_loc w) (fs w) (fs w')
        ∧ cwd w' = cwd w ∧ env w' = env w
        ∧ trace w' = trace w ++ refresh_events platforms None false) w.
Proof.
  intros Hc Hd Hr.
  destruct (stat_cache_missing w Hc Hd Hr) as (Hex & st & Hs & ->).
  destruct (mkdirs_cache_new w Hc Hd Hr) as (n1 & Hmk & Hn1 & Hin).
  unfold refresh_cache. do 2 apply wp_bind, wp_print.
  apply wp_bind, wp_try, wp_bind. eapply wp_open_read_failed; [exact Hs|].
  simpl. apply wp_ret. do 2 apply wp_bind, wp_print.
  rewrite decide_True by done. apply wp_bind, wp_os_path_exists.
  rewrite !path_exists_log, Hex.
  apply wp_bind, wp_ret, wp_bind, wp_print, wp_bind.
  eapply wp_os_makedirs; [done|exact Hmk|].
  apply wp_bind, wp_print.
  eapply wp_open_write_new; [|done|].
  { pose proof (stat_version (with_fs n1 w) ∅ Hn1) as Hs2.
    rewrite lookup_empty in Hs2. exact Hs2. }
  split_and!; try done.
  - simpl. unfold version_loc. simpl.
    by rewrite (lookup_put_parent _ _ _ _ ∅ Hn1).
  - simpl. eapply inside_trans; [exact Hin|]. apply put_inside.
    unfold version_loc. rewrite root_loc_snoc, <- app_assoc.
    by apply prefix_app_r.
  - simpl. unfold refresh_events. rewrite decide_True by done.
    simpl. by rewrite <- !app_assoc.
Qed.

(** X1. On a machine where the cache directory does not exist (and where
    [Dependencies], if it exists, is a directory), the version
    bookkeeping removes nothing: it looks for the stamp and for the cache
    directory, makes the cache directory with the directories above it
    and writes the stamp. The cache directory then holds the stamp and
    nothing else, and nothing has changed outside [Dependencies]. *)
Theorem X1_first_run_creates_cache platforms w :
  is_dir (fs w) (cwd w) →
  (∀ d, Fs.lookup (fs w) (deps_loc w) ≠ Some (File d)) →
  Fs.lookup (fs w) (root_loc w) = None →
  ∃ w1,
    refresh_cache platforms w = (Ok tt, w1)
    ∧ Fs.lookup (fs w1) (root_loc w)
      = Some (Dir {[ "VERSION" := File DOTNET_RUNTIME_VERSION ]})
    ∧ inside (deps_loc w) (fs w) (fs w1)
    ∧ trace w1 = trace w ++ refresh_events platforms None false.
Proof.
  intros Hc Hd Hr. pose proof (refresh_cache_first platforms w Hc Hd Hr) as Hwp.
  unfold wp in Hwp. destruct (refresh_cache platforms w) as [r w1].
  simpl in Hwp. destruct Hwp as (-> & Hroot & Hin & _ & _ & Ht).
  by exists w1.
Qed.

(** X1 at work: a first run for linux in a directory without [Dependencies]. *)
Lemma X1_first_run_creates_cache_witness :
  let w := world_of env_ok tree_bare in
  ∃ w1,
    refresh_cache ["linux"] w = (Ok tt, w1)
    ∧ Fs.lookup (fs w1) (root_loc w)
      = Some (Dir {[ "VERSION" := File DOTNET_RUNTIME_VERSION ]})
    ∧ inside (deps_loc w) (fs w) (fs w1)
    ∧ trace w1 = trace w ++ refresh_events ["linux"] None false.
Proof.
  intros w. apply (X1_first_run_creates_cache ["linux"] w).
  - eexists. vm_compute. reflexivity.
  - intros d. vm_compute. discriminate.
  - vm_compute. reflexivity.
Defined.

(** X2. When the stamp, stripped of white space, is the expected
    version, the version bookkeeping removes nothing and does not even
    ask whether the cache directory exists: the only change of the tree
    is that the stamp is written again, as the expected version without
    the white space. Every platform directory stays as it is. *)
Theorem X2_current_stamp_keeps_cache platforms w m d :
  Fs.lookup (fs w) (root_loc w) = Some (Dir m) →
  m !! "VERSION" = Some (File d) →
  PyStr.strip d = DOTNET_RUNTIME_VERSION →
  ∃ w1,
    refresh_cache platforms w = (Ok tt, w1)
    ∧ fs w1 = Fs.put (fs w) (version_loc w) (Some (File DOTNET_RUNTIME_VERSION))
    ∧ trace w1 = trace w
        ++ [Print (LStarting platforms); Print (LCacheDir runtime_cache);
            Call (COpenRead version_file_path);
            Print (LCurrentVersion (Some DOTNET_RUNTIME_VERSION));
            Print (LExpectedVersion DOTNET_RUNTIME_VERSION);
            Print (LCreating runtime_cache); Call (CMakedirs runtime_cache);
            Print (LWritingVersion version_file_path);
            Call (COpenWrite version_file_path DOTNET_RUNTIME_VERSION)].
Proof.
  intros Hm Hv Hd.
  pose proof (refresh_cache_current platforms w m d Hm Hv Hd) as Hwp.
  unfold wp in Hwp. destruct (refresh_cache platforms w) as [r w1].
  simpl in Hwp. destruct Hwp as (-> & Hfs & _ & _ & Ht).
  exists w1. split_and!; [done..|]. rewrite Ht. unfold refresh_events.
  by rewrite decide_False by (by intros []).
Qed.

(** X2 at work: a stamp with a space on either side of the version. *)
Lemma X2_current_stamp_keeps_cache_witness :
  let w := world_of env_ok tree_padded in
  ∃ w1,
    refresh_cache ["linux"] w = (Ok tt, w1)
    ∧ fs w1 = Fs.put (fs w) (version_loc w) (Some (File DOTNET_RUNTIME_VERSION))
    ∧ trace w1 = trace w
        ++ [Print (LStarting ["linux"]); Print (LCacheDir runtime_cache);
            Call (COpenRead version_file_path);
            Print (LCurrentVersion (Some DOTNET_RUNTIME_VERSION));
            Print (LExpectedVersion DOTNET_RUNTIME_VERSION);
            Print (LCreating runtime_cache); Call (CMakedirs runtime_cache);
            Print (LWritingVersion version_file_path);
            Call (COpenWrite version_file_path DOTNET_RUNTIME_VERSION)].
Proof.
  intros w.
  apply (X2_current_stamp_keeps_cache ["linux"] w
           {[ "VERSION" := File " 10.0.0 ";
              "linux" := Dir {[ "dotnet" := File "bin" ]} ]} " 10.0.0 ").
  - vm_compute. reflexivity.
  - vm_compute. reflexivity.
  - vm_compute. reflexivity.
Defined.

(** X3. Only [FileNotFoundError] is handled when the stamp is read.
    When a directory stands in the place of the stamp, or a regular file
    in the place of a directory on the way to it, [open] raises
    [IsADirectoryError] or [NotADirectoryError]: the exception leaves
    [update_netcore_runtime] at once, after two lines of output and the
    call of [open], with the tree as it was. Nothing is removed, made or
    fetched, whatever the platforms are. *)
Theorem X3_unreadable_stamp_aborts platforms w e :
  stamp_fault (Fs.stat (fs w) (cwd w) version_file_path) = Some e →
  update_netcore_runtime platforms w
  = (Raise e,
     with_trace (trace w ++ [Print (LStarting platforms);
                             Print (LCacheDir runtime_cache);
                             Call (COpenRead version_file_path)]) w).
Proof.
  intros Hf.
  enough (wp (update_netcore_runtime platforms)
            (λ r w', r = Raise e
               ∧ w' = with_trace (trace w ++ [Print (LStarting platforms);
                                              Print (LCacheDir runtime_cache);
                                              Call (COpenRead version_file_path)]) w)
            w) as Hwp.
  { unfold wp in Hwp. destruct (update_netcore_runtime platforms w) as [r w'].
    simpl in Hwp. by destruct Hwp as [-> ->]. }
  assert (Hw : log (Call (COpenRead version_file_path))
                 (log (Print (LCacheDir runtime_cache))
                    (log (Print (LStarting platforms)) w))
               = with_trace (trace w ++ [Print (LStarting platforms);
                                         Print (LCacheDir runtime_cache);
                                         Call (COpenRead version_file_path)]) w).
  { unfold log, with_trace. simpl. by rewrite <- !app_assoc. }
  unfold update_netcore_runtime. apply wp_bind. unfold refresh_cache.
  do 2 apply wp_bind, wp_print. apply wp_bind, wp_try, wp_bind.
  destruct (Fs.stat (fs w) (cwd w) version_file_path) as [err|?|? ?|loc m] eqn:Hs;
    simpl in Hf; [destruct err| | |]; simplify_eq.
  - eapply wp_open_read_failed; [exact Hs|]. simpl. by rewrite Hw.
  - unfold wp, open_read, read_file, bind, emit, stat. simpl. rewrite Hs. simpl.
    by rewrite <- Hw.
Qed.

(** X3 at work: a directory called [VERSION] in the cache. *)
Lemma X3_unreadable_stamp_aborts_witness :
  let w := world_of env_ok tree_stamp_dir in
  update_netcore_runtime ["linux"] w
  = (Raise (IsADirectoryError version_file_path),
     with_trace (trace w ++ [Print (LStarting ["linux"]);
                             Print (LCacheDir runtime_cache);
                             Call (COpenRead version_file_path)]) w).
Proof.
  intros w.
  apply (X3_unreadable_stamp_aborts ["linux"] w
           (IsADirectoryError version_file_path)).
  vm_compute. reflexivity.
Defined.

(** ** Entries of the cache directory that are not downloaded *)

(** X4. A platform whose directory exists and is not empty is skipped
    without a look at the table of downloads: whatever the platform is
    called, in the table or not, [process_platform] returns normally
    after asking whether the directory exists and listing it; the tree
    is unchanged, and the line that is printed counts the entries. *)
Theorem X4_populated_platform_is_skipped platform loc m w :
  Fs.stat (fs w) (cwd w) (p runtime_cache [platform]) = Fs.IsDir loc m →
  m ≠ ∅ →
  process_platform platform w
  = (Ok tt,
     with_trace
       (trace w ++ [Print (LProcessing platform);
                    Print (LPlatformDir (p runtime_cache [platform]));
                    Call (CExists (p runtime_cache [platform]));
                    Call (CListdir (p runtime_cache [platform]));
                    Print (LSkipping (size m))]) w).
Proof.
  intros Hs Hm. set (dir := p runtime_cache [platform]) in *.
  enough (wp (process_platform platform)
            (λ r w', r = Ok tt
               ∧ w' = with_trace
                        (trace w ++ [Print (LProcessing platform);
                                     Print (LPlatformDir dir); Call (CExists dir);
                                     Call (CListdir dir);
                                     Print (LSkipping (size m))]) w) w) as Hwp.
  { unfold wp in Hwp. destruct (process_platform platform w) as [r w'].
    simpl in Hwp. by destruct Hwp as [-> ->]. }
  unfold process_platform. cbv zeta. fold dir.
  do 2 apply wp_bind, wp_print. apply wp_bind, wp_os_path_exists.
  unfold path_exists. simpl. rewrite Hs. simpl.
  apply wp_bind, wp_bind. eapply wp_os_listdir_dir; [exact Hs|].
  destruct (length _ =? 0)%nat eqn:El.
  { apply Nat.eqb_eq, length_listdir in El. done. }
  apply wp_bind, wp_print, wp_ret, wp_ret. split; [done|].
  rewrite length_fmap, length_map_to_list.
  unfold log, with_trace. simpl. by rewrite <- !app_assoc.
Qed.

(** X4 at work: [bogus] has a directory with one entry. *)
Lemma X4_populated_platform_is_skipped_witness :
  let w := world_of env_ok tree_bogus in
  let dir := p runtime_cache ["bogus"] in
  DOTNET_RUNTIME_DOWNLOADS !! "bogus" = None
  ∧ process_platform "bogus" w
    = (Ok tt,
       with_trace
         (trace w ++ [Print (LProcessing "bogus"); Print (LPlatformDir dir);
                      Call (CExists dir); Call (CListdir dir);
                      Print (LSkipping (size ({[ "readme" := File "x" ]}
                                              : gmap string node)))]) w).
Proof.
  intros w dir. split; [vm_compute; reflexivity|].
  apply (X4_populated_platform_is_skipped "bogus" (cache_loc ++ ["bogus"])
           {[ "readme" := File "x" ]} w).
  - vm_compute. reflexivity.
  - intros H. apply (f_equal (λ m : gmap string node, m !! "readme")) in H.
    vm_compute in H. discriminate H.
Defined.

(** A regular file in the place of a platform directory: [os.listdir]
    raises. *)
Lemma process_file_entry platform loc d w :
  Fs.stat (fs w) (cwd w) (p runtime_cache [platform]) = Fs.IsFile loc d →
  process_platform platform w
  = (Raise (NotADirectoryError (p runtime_cache [platform])),
     with_trace
       (trace w ++ [Print (LProcessing platform);
                    Print (LPlatformDir (p runtime_cache [platform]));
                    Call (CExists (p runtime_cache [platform]));
                    Call (CListdir (p runtime_cache [platform]))]) w).
Proof.
  intros Hs. set (dir := p runtime_cache [platform]) in *.
  enough (wp (process_platform platform)
            (λ r w', r = Raise (NotADirectoryError dir)
               ∧ w' = with_trace
                        (trace w ++ [Print (LProcessing platform);
                                     Print (LPlatformDir dir); Call (CExists dir);
                                     Call (CListdir dir)]) w) w) as Hwp.
  { unfold wp in Hwp. destruct (process_platform platform w) as [r w'].
    simpl in Hwp. by destruct Hwp as [-> ->]. }
  unfold process_platform. cbv zeta. fold dir.
  do 2 apply wp_bind, wp_print. apply wp_bind, wp_os_path_exists.
  unfold path_exists. simpl. rewrite Hs. simpl.
  apply wp_bind, wp_bind. eapply wp_os_listdir_file; [exact Hs|].
  split; [done|]. unfold log, with_trace. simpl. by rewrite <- !app_assoc.
Qed.

(** X5. A platform whose path names a regular file is neither skipped
    nor downloaded: [os.path.exists] answers yes, [os.listdir] raises
    [NotADirectoryError], and no handler takes it. The exception ends the
    loop: the platforms after it are not processed; the tree is
    unchanged. *)
Theorem X5_file_in_place_of_platform platform rest loc d w :
  Fs.stat (fs w) (cwd w) (p runtime_cache [platform]) = Fs.IsFile loc d →
  ∃ w',
    for_ (platform :: rest) process_platform w
    = (Raise (NotADirectoryError (p runtime_cache [platform])), w')
    ∧ fs w' = fs w
    ∧ trace w' = trace w ++ [Print (LProcessing platform);
                             Print (LPlatformDir (p runtime_cache [platform]));
                             Call (CExists (p runtime_cache [platform]));
                             Call (CListdir (p runtime_cache [platform]))].
Proof.
  intros Hs. eexists. split_and!.
  - cbn [for_]. unfold bind.
    rewrite (process_file_entry platform loc d w Hs). reflexivity.
  - reflexivity.
  - reflexivity.
Qed.

(** X5 at work: [mac] is a regular file, and [linux] comes after it. *)
Lemma X5_file_in_place_of_platform_witness :
  let w := world_of env_ok tree_mac_file in
  let dir := p runtime_cache ["mac"] in
  ∃ w',
    for_ ("mac" :: ["linux"]) process_platform w
    = (Raise (NotADirectoryError dir), w')
    ∧ fs w' = fs w
    ∧ trace w' = trace w ++ [Print (LProcessing "mac"); Print (LPlatformDir dir);
                             Call (CExists dir); Call (CListdir dir)].
Proof.
  intros w dir.
  apply (X5_file_in_place_of_platform "mac" ["linux"] (cache_loc ++ ["mac"]) "" w).
  vm_compute. reflexivity.
Defined.

(** X6. The stamp shares the cache directory with the platforms, so
    [VERSION] cannot be a platform: once the version bookkeeping has
    completed, and the platforms before it in the list, its turn ends the
    call with [NotADirectoryError]; the platforms after it are not
    processed and the stamp is not touched. *)
Theorem X6_version_is_no_platform before after w w0 w1 :
  refresh_cache (before ++ "VERSION" :: after) w = (Ok tt, w0) →
  for_ before process_platform w0 = (Ok tt, w1) →
  update_netcore_runtime (before ++ "VERSION" :: after) w
  = (Raise (NotADirectoryError version_file_path),
     with_trace
       (trace w1 ++ [Print (LProcessing "VERSION");
                     Print (LPlatformDir version_file_path);
                     Call (CExists version_file_path);
                     Call (CListdir version_file_path)]) w1).
Proof.
  intros H0 H1.
  pose proof (refresh_cache_stamped _ _ _ H0) as Hst.
  assert (HV : Fs.lookup (fs w0) (version_loc w0) = Some (File DOTNET_RUNTIME_VERSION)).
  { by apply stat_IsFile in Hst as (_ & ? & _). }
  destruct (wp_run _ _ _ _ _ (for_process_keeps before _ _ w0 HV) H1)
    as (Hc & Hd & HV1).
  pose proof (stamped_later w0 w1 Hst Hc Hd HV1) as Hst1.
  rewrite update_loop by (by destruct before).
  unfold bind at 1. rewrite H0. unfold bind at 1.
  rewrite for_app, H1. cbn [for_]. unfold bind.
  rewrite (process_file_entry "VERSION" _ _ w1 Hst1). reflexivity.
Qed.

(** X6 at work: [VERSION] between [linux] and [windows], on a machine
    without a cache. *)
Lemma X6_version_is_no_platform_witness :
  let w := world_of env_ok tree_new in
  let w0 := (refresh_cache (["linux"] ++ "VERSION" :: ["windows"]) w).2 in
  let w1 := (for_ ["linux"] process_platform w0).2 in
  update_netcore_runtime (["linux"] ++ "VERSION" :: ["windows"]) w
  = (Raise (NotADirectoryError version_file_path),
     with_trace
       (trace w1 ++ [Print (LProcessing "VERSION");
                     Print (LPlatformDir version_file_path);
                     Call (CExists version_file_path);
                     Call (CListdir version_file_path)]) w1).
Proof.
  intros w w0 w1.
  apply (X6_version_is_no_platform ["linux"] ["windows"] w w0 w1).
  - vm_compute. reflexivity.
  - vm_compute. reflexivity.
Defined.

(** ** Downloads that stop early *)

(** X7. When [urlretrieve] returns and there is no temporary file
    afterwards, [download_platform_runtime] prints that the file was not
    created and returns normally: the size is not asked for, no archive
    is opened, nothing is removed, and the tree is as it was. *)
Theorem X7_missing_download_returns dir platform url B m w :
  DOTNET_RUNTIME_DOWNLOADS !! platform = Some url →
  Fs.stat (fs w) (cwd w) dir = Fs.IsDir B m →
  m !! "download.tmp" = None →
  net (env w) (request_trace w platform url dir) url = NoFile →
  download_platform_runtime dir platform w
  = (Ok tt,
     with_trace
       (request_trace w platform url dir
        ++ [Call (CUrlretrieve url (temp_file dir));
            Call (CExists (temp_file dir));
            Print (LNotCreated (temp_file dir))]) w).
Proof.
  intros Hk Hs Hm Hn. unfold download_platform_runtime.
  erewrite bind_ok; [|reflexivity]. cbv zeta.
  erewrite bind_ok; [|unfold getitem; by rewrite Hk].
  fold (temp_file dir). unfold download_guarded, download_body.
  rewrite !try_print.
  set (w4 := log _ (log _ (log _ (log _ (log _ w))))).
  assert (Ht4 : trace w4 = request_trace w platform url dir).
  { unfold w4, request_trace. simpl. by rewrite <- !app_assoc. }
  erewrite try_step; cycle 1.
  { unfold urlretrieve. cbv [bind get emit]. change (env w4) with (env w).
    rewrite Ht4, Hn. reflexivity. }
  erewrite try_step; [|apply os_path_exists_eq].
  unfold path_exists. cbn [fs cwd log with_trace w4].
  rewrite (stat_temp_new _ _ _ _ _ Hs Hm). simpl negb. cbv iota.
  unfold try_except, print, emit. f_equal.
  unfold log, with_trace, request_trace. simpl. by rewrite <- !app_assoc.
Qed.

(** X7 at work: an empty directory for linux. *)
Lemma X7_missing_download_returns_witness :
  let w := world_of env_nofile tree_empty_linux in
  let url := "https://builds.dotnet.microsoft.com/dotnet/Runtime/10.0.0/dotnet-runtime-10.0.0-linux-x64.tar.gz" in
  let dir := p runtime_cache ["linux"] in
  download_platform_runtime dir "linux" w
  = (Ok tt,
     with_trace
       (request_trace w "linux" url dir
        ++ [Call (CUrlretrieve url (temp_file dir));
            Call (CExists (temp_file dir));
            Print (LNotCreated (temp_file dir))]) w).
Proof.
  intros w url dir.
  apply (X7_missing_download_returns dir "linux" url (cache_loc ++ ["linux"]) ∅ w).
  - vm_compute. reflexivity.
  - vm_compute. reflexivity.
  - reflexivity.
  - reflexivity.
Defined.

#[local] Hint Resolve resp_os_path_exists resp_os_path_getsize
  resp_open_read_text resp_os_remove resp_urlretrieve resp_tar_extract
  resp_zip_extract resp_os_mkdir resp_os_listdir resp_html_check
  resp_extract_and_clean resp_remove_if_exists : resp.

(** The extraction step under the handlers starts with its line. *)
Lemma guarded_extraction_starts url file dir platform w :
  ∃ evs, trace (try_except (extract_and_clean url file dir platform)
                  (download_handlers url file) w).2
         = trace w ++ Print LExtracting :: evs.
Proof.
  unfold extract_and_clean. rewrite try_print.
  match goal with |- context [try_except ?m ?h _] =>
    assert (H : respects advances (try_except m h)) end.
  { apply resp_try; [apply _|auto 30 with resp|].
    intros e k [= <-]. destruct e; auto 20 with resp. }
  specialize (H (log (Print LExtracting) w)). unfold wp in H.
  destruct H as (_ & _ & evs & Ht). exists evs. rewrite Ht. simpl.
  by rewrite <- app_assoc.
Qed.

(** X8. The look for an HTML page is for downloads of fewer than 10240
    bytes only. A download of 10240 bytes or more is not opened for it,
    whatever it holds, an HTML page as well: after the line with the
    size, the call goes on with the extraction step under the handlers,
    whose first line comes next in the trace. *)
Theorem X8_large_download_is_not_inspected dir platform url B m data w :
  DOTNET_RUNTIME_DOWNLOADS !! platform = Some url →
  Fs.stat (fs w) (cwd w) dir = Fs.IsDir B m →
  m !! "download.tmp" = None →
  net (env w) (request_trace w platform url dir) url = Body data None →
  (10240 ≤ Z.of_nat (String.length data))%Z →
  download_platform_runtime dir platform w
  = try_except (extract_and_clean url (temp_file dir) dir platform)
      (download_handlers url (temp_file dir))
      (peek_state w platform url dir B data)
  ∧ ∃ evs, trace (download_platform_runtime dir platform w).2
           = peek_trace w platform url dir data ++ Print LExtracting :: evs.
Proof.
  intros Hk Hs Hm Hn Hsz.
  assert (Hrun : download_platform_runtime dir platform w
    = try_except (extract_and_clean url (temp_file dir) dir platform)
        (download_handlers url (temp_file dir))
        (peek_state w platform url dir B data)).
  { rewrite (download_reaches_peek dir platform url B m data w Hk Hs Hm Hn).
    assert (Hc : html_check (temp_file dir) (Z.of_nat (String.length data))
                   (peek_state w platform url dir B data)
                 = (Ok false, peek_state w platform url dir B data)).
    { unfold html_check. by rewrite (proj2 (Z.ltb_ge _ _) Hsz). }
    by rewrite (try_step _ _ _ _ _ _ Hc). }
  split; [exact Hrun|]. rewrite Hrun.
  apply (guarded_extraction_starts url (temp_file dir) dir platform
           (peek_state w platform url dir B data)).
Qed.

(** X8 at work: an error page of 10255 bytes for linux. *)
Lemma X8_large_download_is_not_inspected_witness :
  let w := world_of env_big_page tree_empty_linux in
  let url := "https://builds.dotnet.microsoft.com/dotnet/Runtime/10.0.0/dotnet-runtime-10.0.0-linux-x64.tar.gz" in
  let dir := p runtime_cache ["linux"] in
  html_markers page_10k = true
  ∧ download_platform_runtime dir "linux" w
    = try_except (extract_and_clean url (temp_file dir) dir "linux")
        (download_handlers url (temp_file dir))
        (peek_state w "linux" url dir (cache_loc ++ ["linux"]) page_10k)
  ∧ ∃ evs, trace (download_platform_runtime dir "linux" w).2
           = peek_trace w "linux" url dir page_10k ++ Print LExtracting :: evs.
Proof.
  intros w url dir. split; [vm_compute; reflexivity|].
  apply (X8_large_download_is_not_inspected dir "linux" url
           (cache_loc ++ ["linux"]) ∅ page_10k w).
  - vm_compute. reflexivity.
  - vm_compute. reflexivity.
  - reflexivity.
  - reflexivity.
  - apply Z.leb_le. vm_compute. reflexivity.
Defined.

(** ** What a failed download leaves behind *)

(** The cleanup changes nothing but the file it is given. *)
Lemma remove_if_exists_inside file F w :
  Fs.resolve (fs w) (cwd w) file = inr F →
  wp (remove_if_exists file) (λ _ w', inside F (fs w) (fs w')) w.
Proof.
  intros Hr. unfold remove_if_exists. apply wp_bind, wp_os_path_exists.
  destruct (path_exists w file); [|by apply wp_ret].
  unfold wp. rewrite os_remove_eq. cbv zeta. cbn [fs cwd log with_trace].
  destruct (Fs.stat (fs w) (cwd w) file) as [e|l|l d|l m] eqn:Hs; simpl;
    try apply inside_refl.
  apply stat_IsFile in Hs as (Hr' & _). rewrite Hr in Hr'. simplify_eq.
  by apply put_inside.
Qed.

(** An exception of the guarded region: the handler returns, and of the
    tree it changes the temporary file only. *)
Lemma download_guarded_cleans n0 c0 B dir url platform w e w2 :
  Fs.resolve n0 c0 dir = inr B → is_dir n0 B → dir ≠ "" →
  kept n0 c0 B w →
  download_body url (temp_file dir) dir platform w = (Raise e, w2) →
  ∃ w3, download_guarded url (temp_file dir) dir platform w = (Ok tt, w3)
        ∧ kept n0 c0 B w3
        ∧ inside (B ++ ["download.tmp"]) (fs w2) (fs w3).
Proof.
  intros Hdir HB Hne Hk Hbody.
  pose proof (wp_run _ _ _ _ _
                (keeps_download_body n0 c0 B dir Hdir HB Hne url platform w)
                Hbody Hk) as Hk2.
  unfold download_guarded, try_except. rewrite Hbody.
  assert (Hrm : ∀ w', kept n0 c0 B w' → fs w' = fs w2 →
            ∃ w3, remove_if_exists (temp_file dir) w' = (Ok tt, w3)
                  ∧ kept n0 c0 B w3
                  ∧ inside (B ++ ["download.tmp"]) (fs w2) (fs w3)).
  { intros w' Hk' Hfs.
    pose proof (wp_conj _ _ _ _
      (remove_if_exists_returns n0 c0 B dir Hdir HB Hne w' Hk')
      (remove_if_exists_inside (temp_file dir) (B ++ ["download.tmp"]) w'
         (kept_resolve_file n0 c0 B dir Hdir HB Hne w' Hk'))) as Hwp.
    unfold wp in Hwp. unfold temp_file in *. simpl in Hwp.
    change (p dir ["download.tmp"]) with (Path.join2 dir "download.tmp").
    destruct (remove_if_exists _ w') as [r w3]. simpl in Hwp.
    destruct Hwp as ((-> & Hk3) & Hin). exists w3. rewrite <- Hfs. by split_and!. }
  destruct e; cbv [download_handlers bind print emit];
    (apply Hrm; [exact Hk2|done]).
Qed.

(** A refused download. *)
Lemma refused_download url file dir platform e w st :
  net (env w) (trace w ++ [Print (LUrl url); Print (LTargetDir dir);
                           Print (LTempFile file); Print LStartingDownload]) url
  = Refused e →
  Fs.stat (fs w) (cwd w) file = st →
  match st with Fs.Absent _ | Fs.Failed _ => True | _ => False end →
  download_guarded url file dir platform w
  = (Ok tt,
     with_trace
       (trace w ++ [Print (LUrl url); Print (LTargetDir dir);
                    Print (LTempFile file); Print LStartingDownload]
        ++ Call (CUrlretrieve url file) :: failure_report url e
        ++ [Call (CExists file)]) w).
Proof.
  intros Hn Hs Hst. unfold download_guarded, download_body.
  rewrite !try_print, try_urlretrieve.
  set (w4 := log _ (log _ (log _ (log _ w)))).
  assert (Ht4 : trace w4 = trace w ++ [Print (LUrl url); Print (LTargetDir dir);
                  Print (LTempFile file); Print LStartingDownload]).
  { unfold w4. simpl. by rewrite <- !app_assoc. }
  change (env w4) with (env w). rewrite Ht4, Hn.
  unfold try_except, bind, raise.
  assert (Hrm : ∀ w', fs w' = fs w → cwd w' = cwd w →
            remove_if_exists file w' = (Ok tt, log (Call (CExists file)) w')).
  { intros w' Hf Hc. unfold remove_if_exists.
    erewrite bind_ok; [|apply os_path_exists_eq].
    unfold path_exists. rewrite Hf, Hc, Hs. by destruct st. }
  destruct e; cbv [download_handlers bind print emit failure_report];
    (rewrite Hrm; [|done..]); f_equal; unfold log, with_trace, w4; simpl;
    by rewrite <- !app_assoc.
Qed.

(** X9. A download that the network refuses is tried again the next
    time the platform is processed: the handler reports the exception
    and finds no temporary file to remove, and [process_platform]
    returns normally with the directory of the platform in place and
    empty, which is the state in which the platform is downloaded. *)
Theorem X9_refused_download_is_retried platform url B fresh w e :
  DOTNET_RUNTIME_DOWNLOADS !! platform = Some url →
  needs_download w platform B fresh →
  let dir := p runtime_cache [platform] in
  let w1 := guard_entry platform B fresh w in
  let asked := trace w1 ++ [Print (LUrl url); Print (LTargetDir dir);
                            Print (LTempFile (temp_file dir));
                            Print LStartingDownload] in
  net (env w) asked url = Refused e →
  ∃ w3,
    process_platform platform w = (Ok tt, w3)
    ∧ needs_download w3 platform B false
    ∧ fs w3 = fs w1
    ∧ trace w3 = asked ++ Call (CUrlretrieve url (temp_file dir))
                   :: failure_report url e ++ [Call (CExists (temp_file dir))].
Proof.
  intros Hk Hn dir w1 asked Hnet.
  pose proof (guard_entry_stat platform B fresh w Hn) as Hs. fold w1 dir in Hs.
  pose proof (process_platform_enters platform url B fresh w Hk Hn) as Hp.
  fold dir w1 in Hp.
  assert (He : env w1 = env w) by (unfold w1, guard_entry; by destruct fresh).
  rewrite <- He in Hnet.
  pose proof (refused_download url (temp_file dir) dir platform e w1 _ Hnet eq_refl)
    as Hg.
  rewrite (stat_temp_new _ _ _ _ _ Hs (lookup_empty _)) in Hg.
  specialize (Hg I). rewrite Hg in Hp. eexists. split; [exact Hp|].
  split_and!; [exact Hs|done|]. simpl. unfold asked. by rewrite <- !app_assoc.
Qed.

(** X9 at work: a network that cannot be reached, and no directory for
    linux yet. *)
Lemma X9_refused_download_is_retried_witness :
  let w := (refresh_cache ["linux"] (world_of env_refused tree_new)).2 in
  let url := "https://builds.dotnet.microsoft.com/dotnet/Runtime/10.0.0/dotnet-runtime-10.0.0-linux-x64.tar.gz" in
  let B := cache_loc ++ ["linux"] in
  let dir := p runtime_cache ["linux"] in
  let w1 := guard_entry "linux" B true w in
  let asked := trace w1 ++ [Print (LUrl url); Print (LTargetDir dir);
                            Print (LTempFile (temp_file dir));
                            Print LStartingDownload] in
  ∃ w3,
    process_platform "linux" w = (Ok tt, w3)
    ∧ needs_download w3 "linux" B false
    ∧ fs w3 = fs w1
    ∧ trace w3 = asked ++ Call (CUrlretrieve url (temp_file dir))
                   :: failure_report url (URLError "unreachable")
                   ++ [Call (CExists (temp_file dir))].
Proof.
  intros w url B dir w1 asked.
  apply (X9_refused_download_is_retried "linux" url B true w
           (URLError "unreachable")).
  - vm_compute. reflexivity.
  - vm_compute. reflexivity.
  - reflexivity.
Defined.

(** X10. The handlers remove the temporary file and nothing else. When
    the guarded region raises after something was written into the
    directory of the platform, an extraction that broke off for one, what
    was written stays: [process_platform] returns normally and the
    directory is not empty, so that the platform counts as downloaded
    and is skipped from then on. *)
Theorem X10_partial_extraction_stays platform url B fresh w e w2 name :
  DOTNET_RUNTIME_DOWNLOADS !! platform = Some url →
  needs_download w platform B fresh →
  download_body url (temp_file (p runtime_cache [platform]))
    (p runtime_cache [platform]) platform (guard_entry platform B fresh w)
  = (Raise e, w2) →
  name ≠ "download.tmp" →
  Fs.lookup (fs w2) (B ++ [name]) ≠ None →
  ∃ w3,
    process_platform platform w = (Ok tt, w3)
    ∧ Fs.lookup (fs w3) (B ++ [name]) ≠ None
    ∧ populated w3 platform.
Proof.
  intros Hk Hn Hbody Hname Hentry. set (dir := p runtime_cache [platform]) in *.
  set (w1 := guard_entry platform B fresh w) in *.
  pose proof (guard_entry_stat platform B fresh w Hn) as Hs. fold w1 dir in Hs.
  pose proof (stat_dir_ne _ _ _ _ _ Hs) as Hne.
  apply stat_IsDir in Hs as [Hr HB].
  assert (HdB : is_dir (fs w1) B) by (by eexists).
  assert (Hk1 : kept (fs w1) (cwd w1) B w1).
  { split_and!; [done|apply inside_refl|done|]. intros [m Hm].
    rewrite lookup_snoc, HB, lookup_empty in Hm. done. }
  destruct (download_guarded_cleans (fs w1) (cwd w1) B dir url platform w1 e w2
              Hr HdB Hne Hk1 Hbody) as (w3 & Hg & Hk3 & Hin).
  pose proof (process_platform_enters platform url B fresh w Hk Hn) as Hp.
  fold dir w1 in Hp. rewrite Hg in Hp. exists w3. split; [exact Hp|].
  assert (Hl3 : Fs.lookup (fs w3) (B ++ [name]) ≠ None).
  { intros Hnone%kind_none. rewrite Hin in Hnone.
    - by apply kind_none in Hnone.
    - apply snoc_not_prefix. congruence. }
  split; [exact Hl3|].
  destruct (kept_stat_dir (fs w1) (cwd w1) B dir Hr HdB w3 Hk3) as [m3 Hs3].
  exists B, m3. split; [exact Hs3|]. intros ->.
  apply stat_IsDir in Hs3 as [_ HB3]. by rewrite lookup_snoc, HB3 in Hl3.
Qed.

(** X10 at work: the first member of the archive for linux is extracted,
    then the archive ends. *)
Lemma X10_partial_extraction_stays_witness :
  let w := world_of env_truncated tree_empty_linux in
  let B := cache_loc ++ ["linux"] in
  ∃ w3,
    process_platform "linux" w = (Ok tt, w3)
    ∧ Fs.lookup (fs w3) (B ++ ["dotnet"]) ≠ None
    ∧ populated w3 "linux".
Proof.
  intros w B.
  apply (X10_partial_extraction_stays "linux"
           "https://builds.dotnet.microsoft.com/dotnet/Runtime/10.0.0/dotnet-runtime-10.0.0-linux-x64.tar.gz"
           B false w (TarError "unexpected end of data")
           (download_body
              "https://builds.dotnet.microsoft.com/dotnet/Runtime/10.0.0/dotnet-runtime-10.0.0-linux-x64.tar.gz"
              (temp_file (p runtime_cache ["linux"])) (p runtime_cache ["linux"])
              "linux" (guard_entry "linux" B false w)).2 "dotnet").
  - vm_compute. reflexivity.
  - vm_compute. reflexivity.
  - vm_compute. reflexivity.
  - discriminate.
  - vm_compute. discriminate.
Defined.

(** ** What the script prints *)

Section Lines.
Context (L : line → Prop) (HL : ∀ l, ordinary l → L l).

Local Abbreviation P := (prints_only L).

#[local] Hint Extern 1 (respects (only _) (emit (Call _))) =>
  apply only_emit; exact I : resp.
#[local] Hint Extern 1 (respects (only _) (print _)) =>
  apply only_print, HL; exact I : resp.

Lemma only_open_read path : respects (only P) (open_read path).
Proof. unfold open_read. auto 20 with resp. Qed.
Lemma only_open_write path d : respects (only P) (open_write path d).
Proof. unfold open_write. auto 20 with resp. Qed.
Lemma only_open_read_text path : respects (only P) (open_read_text path).
Proof. unfold open_read_text. auto 20 with resp. Qed.
Lemma only_os_path_exists path : respects (only P) (os_path_exists path).
Proof. unfold os_path_exists. auto 20 with resp. Qed.
Lemma only_os_listdir path : respects (only P) (os_listdir path).
Proof. unfold os_listdir. auto 20 with resp. Qed.
Lemma only_os_mkdir path : respects (only P) (os_mkdir path).
Proof. unfold os_mkdir. auto 20 with resp. Qed.
Lemma only_os_makedirs path : respects (only P) (os_makedirs path).
Proof. unfold os_makedirs. auto 20 with resp. Qed.
Lemma only_shutil_rmtree path : respects (only P) (shutil_rmtree path).
Proof. unfold shutil_rmtree. auto 20 with resp. Qed.
Lemma only_os_remove path : respects (only P) (os_remove path).
Proof. unfold os_remove. auto 20 with resp. Qed.
Lemma only_os_path_getsize path : respects (only P) (os_path_getsize path).
Proof. unfold os_path_getsize. auto 20 with resp. Qed.
Lemma only_urlretrieve url file : respects (only P) (urlretrieve url file).
Proof. unfold urlretrieve. auto 20 with resp. Qed.
Lemma only_write_member base m : respects (only P) (write_member base m).
Proof. unfold write_member. auto 20 with resp. Qed.
Lemma only_extractall d dir : respects (only P) (extractall d dir).
Proof. unfold extractall. pose proof only_write_member. auto 20 with resp. Qed.
Lemma only_tar_extract file dir : respects (only P) (tar_extract file dir).
Proof. unfold tar_extract. pose proof only_extractall. auto 20 with resp. Qed.
Lemma only_zip_extract file dir : respects (only P) (zip_extract file dir).
Proof. unfold zip_extract. pose proof only_extractall. auto 20 with resp. Qed.

#[local] Hint Resolve only_open_read only_open_write only_open_read_text
  only_os_path_exists only_os_listdir only_os_mkdir only_os_makedirs
  only_shutil_rmtree only_os_remove only_os_path_getsize only_urlretrieve
  only_tar_extract only_zip_extract : resp.

Lemma only_remove_if_exists file : respects (only P) (remove_if_exists file).
Proof. unfold remove_if_exists. auto 20 with resp. Qed.

Lemma only_html_check file size : respects (only P) (html_check file size).
Proof. unfold html_check. auto 30 with resp. Qed.

(** The extraction step, when its URL has a known suffix or the line
    for an unknown format is allowed. *)
Lemma only_extract_and_clean url file dir platform :
  PyStr.endswith url ".tar.gz" || PyStr.endswith url ".zip" = true
  ∨ L (LUnknownFormat url) →
  respects (only P) (extract_and_clean url file dir platform).
Proof.
  intros Hu. unfold extract_and_clean.
  apply resp_bind; [apply _|auto with resp|intros _].
  apply resp_bind; [apply _| |intros []; auto 20 with resp].
  destruct (PyStr.endswith url ".tar.gz"); [auto 20 with resp|].
  destruct (PyStr.endswith url ".zip"); [auto 20 with resp|].
  destruct Hu as [Hu|Hu]; [done|].
  apply resp_bind; [apply _|by apply only_print|intros _].
  auto 20 with resp.
Qed.

Lemma only_download_guarded url file dir platform :
  PyStr.endswith url ".tar.gz" || PyStr.endswith url ".zip" = true
  ∨ L (LUnknownFormat url) →
  respects (only P) (download_guarded url file dir platform).
Proof.
  intros Hu. pose proof (only_extract_and_clean url file dir platform Hu).
  pose proof only_html_check. pose proof only_remove_if_exists.
  unfold download_guarded. apply resp_try; [apply _| |].
  - unfold download_body. auto 30 with resp.
  - intros e k [= <-]. destruct e; auto 20 with resp.
Qed.
End Lines.

(** Every URL of the table has a suffix that the extraction step knows. *)
Lemma table_suffix platform url :
  DOTNET_RUNTIME_DOWNLOADS !! platform = Some url →
  PyStr.endswith url ".tar.gz" || PyStr.endswith url ".zip" = true.
Proof.
  unfold DOTNET_RUNTIME_DOWNLOADS. intros H.
  apply lookup_insert_Some in H as [[_ <-]|[_ H]]; [by vm_compute|].
  apply lookup_insert_Some in H as [[_ <-]|[_ H]]; [by vm_compute|].
  apply lookup_singleton_Some in H as [_ <-]. by vm_compute.
Qed.

Section ScriptLines.
Context (L : line → Prop) (HL : ∀ l, ordinary l → L l).

Local Abbreviation P := (prints_only L).

#[local] Hint Extern 1 (respects (only _) (emit (Call _))) =>
  apply only_emit; exact I : resp.
#[local] Hint Extern 1 (respects (only _) (print _)) =>
  apply only_print, HL; exact I : resp.
#[local] Hint Resolve only_open_read only_open_write only_open_read_text
  only_os_path_exists only_os_listdir only_os_mkdir only_os_makedirs
  only_shutil_rmtree only_os_remove only_os_path_getsize only_urlretrieve
  only_tar_extract only_zip_extract : resp.

Lemma only_download_platform_runtime dir platform :
  respects (only P) (download_platform_runtime dir platform).
Proof using HL.
  unfold download_platform_runtime.
  apply resp_bind; [apply _|auto with resp|intros _]. cbv zeta.
  unfold getitem. destruct (DOTNET_RUNTIME_DOWNLOADS !! platform) as [url|] eqn:E.
  - intros w. unfold wp, bind, ret.
    apply (only_download_guarded L HL url (p dir ["download.tmp"]) dir platform).
    left. by eapply table_suffix.
  - intros w. unfold wp, bind, raise. simpl. apply (only_steady P).
Qed.

#[local] Hint Resolve only_download_platform_runtime : resp.

(** A platform: its opening line, then lines and calls as above. *)
Lemma only_process_platform platform w :
  wp (process_platform platform)
     (λ _ w', only P (log (Print (LProcessing platform)) w) w') w.
Proof using HL.
  unfold process_platform. cbv zeta. apply wp_bind, wp_print.
  match goal with |- wp ?m _ ?w1 =>
    assert (H : respects (only P) m); [|exact (H w1)] end.
  auto 40 with resp.
Qed.

Lemma only_refresh_cache platforms :
  respects (only P) (refresh_cache platforms).
Proof using HL.
  unfold refresh_cache.
  repeat (apply resp_bind; [apply _| |intros ?]); auto with resp.
  apply resp_try; [apply _|auto 20 with resp|].
  intros e k. destruct e; intros [= <-]; apply resp_ret, _.
Qed.
End ScriptLines.

(** A step that opens no platform leaves [processed] alone. *)
Lemma processed_none evs :
  Forall (prints_only (λ l, ∀ q, l ≠ LProcessing q)) evs → processed evs = [].
Proof.
  induction 1 as [|e evs He _ IH]; [done|].
  destruct e as [l|c]; [|done]. destruct l; try done.
  by destruct (He platform).
Qed.

Lemma processed_app evs1 evs2 :
  processed (evs1 ++ evs2) = processed evs1 ++ processed evs2.
Proof.
  induction evs1 as [|e evs1 IH]; [done|]. destruct e as [l|c]; [|done].
  destruct l; simpl; by rewrite ?IH.
Qed.

Lemma ordinary_format_known l : ordinary l → format_known l.
Proof. by destruct l. Qed.

Lemma ordinary_not_processing l : ordinary l → ∀ q, l ≠ LProcessing q.
Proof. by destruct l. Qed.

(** The whole of [update_netcore_runtime], for lines that include the
    one that opens a platform. *)
Lemma only_update_netcore_runtime (L : line → Prop) platforms :
  (∀ l, ordinary l → L l) → (∀ q, L (LProcessing q)) →
  respects (only (prints_only L)) (update_netcore_runtime platforms).
Proof.
  intros HL Hq. unfold update_netcore_runtime.
  apply resp_bind; [apply _|by apply only_refresh_cache|intros _].
  assert (Hprint : ∀ l, ordinary l → respects (only (prints_only L)) (print l)).
  { intros l Hl. by apply only_print, HL. }
  destruct platforms as [|x xs]; [by apply Hprint|].
  apply resp_bind; [apply _| |intros _; by apply Hprint].
  apply resp_for; [apply _|]. intros q w.
  eapply wp_mono; [by apply (only_process_platform L HL)|]. simpl.
  intros r w' H.
  apply (only_trans _ _ (log (Print (LProcessing q)) w)); [|exact H].
  exists [Print (LProcessing q)]. split; [done|]. repeat constructor. apply Hq.
Qed.

(** X11. The branch of the extraction step for an unknown format is
    never taken when the script is run: every URL of the table ends in
    [.tar.gz] or in [.zip], so whatever the arguments, the state of the
    machine, the network and the archives are, the line for an unknown
    format is not among the lines that [main] prints. *)
Theorem X11_unknown_format_is_unreachable argv w :
  ∃ evs, trace (main argv w).2 = trace w ++ evs
         ∧ Forall (prints_only format_known) evs.
Proof.
  enough (respects (only (prints_only format_known)) (main argv)) as H
    by apply (H w).
  assert (Hprint : ∀ l, ordinary l →
            respects (only (prints_only format_known)) (print l)).
  { intros l Hl. by apply only_print, ordinary_format_known. }
  unfold main. repeat (apply resp_bind; [apply _|by apply Hprint|intros _]).
  apply only_update_netcore_runtime; [apply ordinary_format_known|done].
Qed.

(** The loop opens the platforms in the order of the list, each once,
    up to the one that raises. *)
Lemma for_process_in_order platforms w :
  wp (for_ platforms process_platform)
     (λ r w', ∃ evs, trace w' = trace w ++ evs
                     ∧ processed evs `prefix_of` platforms
                     ∧ (r = Ok tt → processed evs = platforms)) w.
Proof.
  apply (wp_for _ _ (λ rest w', ∃ evs, trace w' = trace w ++ evs
                                  ∧ processed evs ++ rest = platforms)).
  - exists []. by rewrite app_nil_r.
  - intros x rest w1 (evs & Ht & Hp).
    eapply wp_mono;
      [apply (only_process_platform (λ l, ∀ q, l ≠ LProcessing q)
                ordinary_not_processing)|].
    simpl. intros r w2 (evs2 & Ht2 & Hn%processed_none).
    assert (Hall : trace w2 = trace w ++ (evs ++ Print (LProcessing x) :: evs2)
                   ∧ processed (evs ++ Print (LProcessing x) :: evs2)
                     = processed evs ++ [x]).
    { split.
      - rewrite Ht2. simpl. by rewrite Ht, <- !app_assoc.
      - rewrite processed_app. simpl. by rewrite Hn. }
    destruct Hall as [Ht3 Hp3]. destruct r as [[]|e].
    + eexists. split; [exact Ht3|]. by rewrite Hp3, <- app_assoc.
    + eexists. split; [exact Ht3|]. rewrite Hp3, <- Hp. split; [|done].
      apply prefix_app, prefix_cons, prefix_nil.
  - intros w1 (evs & Ht & Hp). rewrite app_nil_r in Hp.
    exists evs. by rewrite Hp.
Qed.

(** X12. Run without platform arguments, the script prints its banner
    and performs the version bookkeeping, a removal of a stale cache
    included, and nothing else: every call it makes is one of the
    bookkeeping; when the bookkeeping completes, the warning is printed
    and [main] returns normally. *)
Theorem X12_run_without_arguments argv w :
  tail argv = [] →
  ∃ evs,
    trace (main argv w).2 = trace w ++ banner argv ++ evs
    ∧ Forall bookkeeping evs
    ∧ ∀ w1, refresh_cache [] (with_trace (trace w ++ banner argv) w) = (Ok tt, w1) →
            main argv w = (Ok tt, log (Print LNoPlatforms) w1).
Proof.
  intros Hargv.
  assert (Hmain : main argv w
                  = update_netcore_runtime [] (with_trace (trace w ++ banner argv) w)).
  { unfold main. rewrite Hargv. do 4 (erewrite bind_ok; [|reflexivity]).
    f_equal. unfold log, with_trace, banner. simpl. by rewrite <- !app_assoc. }
  rewrite Hmain. set (w0 := with_trace (trace w ++ banner argv) w).
  assert (Hb : respects (only bookkeeping) (update_netcore_runtime [])).
  { unfold update_netcore_runtime.
    apply resp_bind; [apply _|apply refresh_cache_only|intros _].
    by apply only_print. }
  destruct (Hb w0) as (evs & Ht & Hevs). exists evs. split_and!.
  - rewrite Ht. simpl. by rewrite <- app_assoc.
  - exact Hevs.
  - intros w1 H1. unfold update_netcore_runtime, bind. by rewrite H1.
Qed.

(** X12 at work: the script is run with its own name only, on a cache
    stamped 9.0.0. *)
Lemma X12_run_without_arguments_witness :
  let argv := ["download_net_runtime.py"] in
  let w := world_of env_ok tree_stale in
  ∃ evs,
    trace (main argv w).2 = trace w ++ banner argv ++ evs
    ∧ Forall bookkeeping evs
    ∧ ∀ w1, refresh_cache [] (with_trace (trace w ++ banner argv) w) = (Ok tt, w1) →
            main argv w = (Ok tt, log (Print LNoPlatforms) w1).
Proof.
  intros argv w. apply (X12_run_without_arguments argv w). reflexivity.
Defined.

(** X13. The platforms are processed one at a time and in the order of
    the list: the lines that open a platform, taken from the trace of a
    call, are the list itself when the call returns normally, each
    platform as often as it is in the list, and a prefix of the list
    when the call raises. *)
Theorem X13_platforms_in_order platforms w :
  ∃ evs,
    trace (update_netcore_runtime platforms w).2 = trace w ++ evs
    ∧ processed evs `prefix_of` platforms
    ∧ ((update_netcore_runtime platforms w).1 = Ok tt →
       processed evs = platforms).
Proof.
  enough (wp (update_netcore_runtime platforms)
            (λ r w', ∃ evs, trace w' = trace w ++ evs
                            ∧ processed evs `prefix_of` platforms
                            ∧ (r = Ok tt → processed evs = platforms)) w) as H
    by exact H.
  unfold update_netcore_runtime. apply wp_bind.
  eapply wp_mono;
    [apply (only_refresh_cache (λ l, ∀ q, l ≠ LProcessing q)
              ordinary_not_processing)|].
  simpl. intros r w0 (evs0 & Ht0 & Hn0%processed_none).
  destruct r as [[]|e].
  2:{ exists evs0. rewrite Hn0. split_and!; [done|apply prefix_nil|done]. }
  destruct platforms as [|x xs].
  { apply wp_print. exists (evs0 ++ [Print LNoPlatforms]). simpl.
    rewrite Ht0, processed_app, Hn0, <- app_assoc. by split_and!. }
  apply wp_bind. eapply wp_mono; [apply for_process_in_order|]. simpl.
  intros r w1 (evs1 & Ht1 & Hp1 & Hok).
  assert (Hp : processed (evs0 ++ evs1) = processed evs1)
    by (by rewrite processed_app, Hn0).
  destruct r as [[]|e].
  - apply wp_print. exists (evs0 ++ evs1 ++ [Print LComplete]). simpl.
    rewrite Ht1, Ht0, <- !app_assoc, !processed_app, Hn0. simpl.
    rewrite app_nil_r, (Hok eq_refl). by split_and!.
  - exists (evs0 ++ evs1). rewrite Ht1, Ht0, <- app_assoc, Hp.
    by split_and!.
Qed.

(** ** Platforms of the table *)

(** The loop over platforms of the table, none of which has a regular
    file in its place, runs to its end. *)
Lemma for_process_supported platforms w0 :
  Forall supported platforms →
  is_dir (fs w0) (root_loc w0) →
  (∀ q, q ∈ platforms → ∀ d, Fs.lookup (fs w0) (root_loc w0 ++ [q]) ≠ Some (File d)) →
  wp (for_ platforms process_platform)
     (λ r w', r = Ok tt ∧ cwd w' = cwd w0
        ∧ Forall (λ q, is_dir (fs w') (root_loc w0 ++ [q])) platforms) w0.
Proof.
  intros Hsup Hroot Hentries. set (root := root_loc w0) in *.
  apply (wp_for _ _ (λ rest w,
    cwd w = cwd w0 ∧ is_dir (fs w) root ∧ Forall supported rest
    ∧ (∀ q, q ∈ rest → ∀ d, Fs.lookup (fs w) (root ++ [q]) ≠ Some (File d))
    ∧ ∀ q, q ∈ platforms → q ∈ rest ∨ is_dir (fs w) (root ++ [q]))).
  - split_and!; [done..|]. intros q Hq. by left.
  - intros x rest w (Hc & Hd & Hs & Hnf & Hdone).
    apply Forall_cons in Hs as [[url Hurl] Hrest].
    assert (Hroot_w : root_loc w = root) by (unfold root, root_loc; by rewrite Hc).
    eapply wp_mono.
    { apply (process_known x url w Hurl); rewrite Hroot_w; [done|].
      destruct (Fs.lookup (fs w) (root ++ [x])) as [[d|m]|] eqn:E.
      - exfalso. apply (Hnf x ltac:(apply elem_of_cons; by left) d E).
      - right. by exists m.
      - by left. }
    rewrite Hroot_w. simpl.
    intros r w' (-> & Hc' & Hd' & Hi & HB & _).
    split_and!; [congruence|by apply Hd'|done| |].
    + intros q Hq d Hfile. destruct (decide (q = x)) as [->|Hne].
      * destruct HB as [m Hm]. congruence.
      * apply kind_file in Hfile. rewrite Hi in Hfile by by apply snoc_not_prefix.
        apply kind_file in Hfile.
        apply (Hnf q ltac:(apply elem_of_cons; by right) d Hfile).
    + intros q Hq. destruct (Hdone q Hq) as [Hin|Hdir].
      * apply elem_of_cons in Hin as [->|Hin]; [by right|by left].
      * right. by apply Hd'.
  - intros w (Hc & _ & _ & _ & Hdone). split_and!; [done..|].
    apply Forall_forall. intros q Hq.
    destruct (Hdone q Hq) as [Hin|?]; [by apply elem_of_nil in Hin|done].
Qed.

(** X14. No failure of a download leaves the call. For a list of
    platforms of the table, once the version bookkeeping has completed
    and when no requested platform has a regular file in its place,
    [update_netcore_runtime] returns normally, whatever the network
    answers and whatever the archives hold; every requested platform
    has its directory afterwards. *)
Theorem X14_supported_platforms_never_raise platforms w w0 :
  Forall supported platforms →
  refresh_cache platforms w = (Ok tt, w0) →
  (∀ q, q ∈ platforms →
        ∀ d, Fs.lookup (fs w0) (root_loc w0 ++ [q]) ≠ Some (File d)) →
  ∃ w',
    update_netcore_runtime platforms w = (Ok tt, w')
    ∧ Forall (λ q, is_dir (fs w') (root_loc w' ++ [q])) platforms.
Proof.
  intros Hsup H0 Hentries.
  assert (Hroot : is_dir (fs w0) (root_loc w0)).
  { pose proof (refresh_cache_stamped _ _ _ H0) as Hst.
    apply stat_IsFile in Hst as (_ & Hl & _). by eapply lookup_prefix_dir. }
  unfold update_netcore_runtime, bind. rewrite H0.
  destruct platforms as [|x xs].
  { eexists. split; [reflexivity|constructor]. }
  pose proof (for_process_supported (x :: xs) w0 Hsup Hroot Hentries) as Hwp.
  unfold wp in Hwp. destruct (for_ (x :: xs) process_platform w0) as [r w1].
  simpl in Hwp. destruct Hwp as (-> & Hc & Hdirs).
  eexists. split; [reflexivity|]. unfold root_loc in *.
  change (cwd (log (Print LComplete) w1)) with (cwd w1). by rewrite Hc.
Qed.

(** X14 at work: a network that cannot be reached, on a machine without
    a cache. *)
Lemma X14_supported_platforms_never_raise_witness :
  let w := world_of env_refused tree_new in
  ∃ w',
    update_netcore_runtime ["linux"; "windows"; "mac"] w = (Ok tt, w')
    ∧ Forall (λ q, is_dir (fs w') (root_loc w' ++ [q])) ["linux"; "windows"; "mac"].
Proof.
  intros w.
  apply (X14_supported_platforms_never_raise ["linux"; "windows"; "mac"] w
           (refresh_cache ["linux"; "windows"; "mac"] w).2).
  - repeat constructor; eexists; vm_compute; reflexivity.
  - vm_compute. reflexivity.
  - intros q Hq d.
    repeat (apply elem_of_cons in Hq as [->|Hq]; [vm_compute; discriminate|]).
    by apply elem_of_nil in Hq.
Defined.

(** ** Downloads that leave nothing behind *)

(** The cleanup of a temporary file that is there. *)
Lemma remove_if_exists_file file F d w :
  Fs.stat (fs w) (cwd w) file = Fs.IsFile F d →
  remove_if_exists file w
  = (Ok tt, with_fs (Fs.put (fs w) F None)
              (log (Call (CRemove file)) (log (Call (CExists file)) w))).
Proof.
  intros Hs. unfold remove_if_exists.
  erewrite bind_ok; [|apply os_path_exists_eq].
  unfold path_exists. rewrite Hs. rewrite os_remove_eq. cbv zeta.
  cbn [fs cwd log with_trace]. by rewrite Hs.
Qed.

(** An exception of the guarded part that has a handler. *)
Lemma try_caught {A B} (m : M A) (k : A → M B) h w e w1 k' :
  m w = (Raise e, w1) → h e = Some k' →
  try_except (bind m k) h w = k' w1.
Proof. intros H Hh. unfold try_except, bind. by rewrite H, Hh. Qed.

(** A handler, when the temporary file is there. *)
Lemma handler_removes url file F d e w :
  Fs.stat (fs w) (cwd w) file = Fs.IsFile F d →
  ∃ k, download_handlers url file e = Some k
       ∧ k w = (Ok tt,
                with_fs (Fs.put (fs w) F None)
                  (with_trace (trace w ++ failure_report url e
                                 ++ [Call (CExists file); Call (CRemove file)]) w)).
Proof.
  intros Hs. eexists. split; [reflexivity|].
  assert (Hrm : ∀ w', fs w' = fs w → cwd w' = cwd w →
            remove_if_exists file w'
            = (Ok tt, with_fs (Fs.put (fs w) F None)
                        (log (Call (CRemove file)) (log (Call (CExists file)) w')))).
  { intros w' Hf Hc. rewrite (remove_if_exists_file file F d w'); [by rewrite Hf|].
    by rewrite Hf, Hc. }
  destruct e; cbv [bind print emit failure_report];
    (rewrite Hrm; [|done..]); f_equal; unfold log, with_fs, with_trace; simpl;
    by rewrite <- !app_assoc.
Qed.

(** X15. A download that breaks off leaves no partial file: when
    [urlretrieve] raises after it has written a part of the answer to the
    temporary file, the handler reports the exception and removes the
    file; [download_platform_runtime] returns normally and the tree is
    what it was before the call. *)
Theorem X15_broken_download_is_removed dir platform url B m data e w :
  DOTNET_RUNTIME_DOWNLOADS !! platform = Some url →
  Fs.stat (fs w) (cwd w) dir = Fs.IsDir B m →
  m !! "download.tmp" = None →
  net (env w) (request_trace w platform url dir) url = Body data (Some e) →
  ∃ w',
    download_platform_runtime dir platform w = (Ok tt, w')
    ∧ fs w' = fs w
    ∧ trace w' = request_trace w platform url dir
                 ++ Call (CUrlretrieve url (temp_file dir))
                    :: failure_report url e
                 ++ [Call (CExists (temp_file dir)); Call (CRemove (temp_file dir))].
Proof.
  intros Hk Hs Hm Hn. unfold download_platform_runtime.
  erewrite bind_ok; [|reflexivity]. cbv zeta.
  erewrite bind_ok; [|unfold getitem; by rewrite Hk].
  fold (temp_file dir). unfold download_guarded, download_body.
  rewrite !try_print, try_urlretrieve.
  set (w4 := log _ (log _ (log _ (log _ (log _ w))))).
  assert (Ht4 : trace w4 = request_trace w platform url dir).
  { unfold w4, request_trace. simpl. by rewrite <- !app_assoc. }
  change (env w4) with (env w). rewrite Ht4, Hn.
  set (w5 := log (Call (CUrlretrieve url (temp_file dir))) w4).
  set (w6 := with_fs (Fs.put (fs w) (B ++ ["download.tmp"]) (Some (File data))) w5).
  assert (Hw : write_file (temp_file dir) data w5 = (Ok tt, w6)).
  { unfold write_file. cbv [bind stat get set_fs]. cbn [fs cwd log with_trace w5 w4].
    rewrite (stat_temp_new _ _ _ _ _ Hs Hm).
    assert (Path.has_trailing_sep (temp_file dir) = false) as ->; [|done].
    by destruct (join2_plain dir "download.tmp" plain_tmp) as (_ & Ht & _). }
  assert (Hb : (write_file (temp_file dir) data ;; raise e)%py w5
               = (@Raise unit e, w6)).
  { unfold bind. by rewrite Hw. }
  assert (Hs6 : Fs.stat (fs w6) (cwd w6) (temp_file dir)
                = Fs.IsFile (B ++ ["download.tmp"]) data).
  { by apply (stat_temp_written _ _ _ _ m). }
  destruct (handler_removes url (temp_file dir) _ _ e w6 Hs6) as (k & Hh & Hk6).
  rewrite (try_caught _ _ _ _ _ _ _ Hb Hh), Hk6.
  eexists. split; [reflexivity|]. split.
  - cbn [fs with_fs with_trace w6]. apply put_undo; [by destruct B|].
    pose proof (stat_temp_new _ _ _ _ _ Hs Hm) as Ha.
    by apply stat_Absent in Ha as [_ ?].
  - cbn [trace with_fs with_trace w6 w5 log]. rewrite Ht4.
    by rewrite <- !app_assoc.
Qed.

(** X15 at work: the connection is lost after ten bytes. *)
Lemma X15_broken_download_is_removed_witness :
  let w := world_of env_cut tree_empty_linux in
  let url := "https://builds.dotnet.microsoft.com/dotnet/Runtime/10.0.0/dotnet-runtime-10.0.0-linux-x64.tar.gz" in
  let dir := p runtime_cache ["linux"] in
  ∃ w',
    download_platform_runtime dir "linux" w = (Ok tt, w')
    ∧ fs w' = fs w
    ∧ trace w' = request_trace w "linux" url dir
                 ++ Call (CUrlretrieve url (temp_file dir))
                    :: failure_report url (URLError "retrieval incomplete")
                 ++ [Call (CExists (temp_file dir)); Call (CRemove (temp_file dir))].
Proof.
  intros w url dir.
  apply (X15_broken_download_is_removed dir "linux" url (cache_loc ++ ["linux"])
           ∅ "archive-by" (URLError "retrieval incomplete") w).
  - vm_compute. reflexivity.
  - vm_compute. reflexivity.
  - reflexivity.
  - reflexivity.
Defined.

(** A file that holds no marker passes the look, read or not. *)
Lemma html_check_unmarked file F data size w :
  Fs.stat (fs w) (cwd w) file = Fs.IsFile F data →
  html_markers data = false →
  html_check file size w
  = (Ok false, if (size <? 10240)%Z then log (Call (COpenText file)) w else w).
Proof.
  intros Hs Hmk. destruct (size <? 10240)%Z eqn:Hsz.
  - apply Z.ltb_lt in Hsz.
    destruct (open_read_text file w) as [[content|e] w1] eqn:Hr.
    + pose proof (open_read_text_returns _ _ _ _ Hr) as Hw1.
      assert (content = data) as ->.
      { revert Hr. unfold open_read_text. cbv [bind get emit].
        destruct (read_fault _ _); [done|].
        cbv [read_file bind stat get ret]. cbn [fs cwd log with_trace].
        rewrite Hs. by intros [= ->]. }
      rewrite <- Hw1. by apply (html_check_passes file size data).
    + pose proof (open_read_text_raises _ _ _ _ Hr) as Hw1.
      rewrite <- Hw1. by apply (html_check_swallows file size e).
  - unfold html_check. by rewrite Hsz.
Qed.

(** The extraction step on bytes that the decoder does not take. *)
Lemma guarded_extraction_unreadable url file dir platform F data e w :
  PyStr.endswith url ".tar.gz" || PyStr.endswith url ".zip" = true →
  Fs.stat (fs w) (cwd w) file = Fs.IsFile F data →
  decoded_by url (env w) data = Unreadable e →
  try_except (extract_and_clean url file dir platform)
    (download_handlers url file) w
  = (Ok tt,
     with_fs (Fs.put (fs w) F None)
       (with_trace (trace w ++ Print LExtracting :: Call (extract_call url file dir)
                      :: failure_report url e
                      ++ [Call (CExists file); Call (CRemove file)]) w)).
Proof.
  intros Hsuf Hs Hd. unfold extract_and_clean. rewrite try_print.
  set (w1 := log (Print LExtracting) w).
  set (w2 := log (Call (extract_call url file dir)) w1).
  assert (Hs2 : Fs.stat (fs w2) (cwd w2) file = Fs.IsFile F data) by done.
  destruct (handler_removes url file F data e w2 Hs2) as (k & Hh & Hk).
  assert (Hx : ∀ (c : call) (dec : environment → string → decoded),
            dec (env w) data = Unreadable e →
            (emit (Call c) ;; d <- read_file file ;; w' <- get ;;
             extractall (dec (env w') d) dir)%py w1
            = (@Raise unit e, log (Call c) w1)).
  { intros c dec Hdec. cbv [bind emit read_file stat get ret].
    cbn [fs cwd log with_trace w1]. rewrite Hs.
    change (env _) with (env w). by rewrite Hdec. }
  unfold decoded_by, extract_call in *.
  destruct (PyStr.endswith url ".tar.gz") eqn:Ht.
  - assert (Hb : (tar_extract file dir ;; print LTarExtracted ;; ret true)%py w1
                 = (@Raise bool e, w2)).
    { unfold bind at 1. unfold tar_extract. by rewrite (Hx _ untar Hd). }
    rewrite (try_caught _ _ _ _ _ _ _ Hb Hh), Hk. f_equal.
    unfold w2, w1, log, with_fs, with_trace. simpl. by rewrite <- !app_assoc.
  - simpl in Hsuf. rewrite Hsuf.
    assert (Hb : (zip_extract file dir ;; print LZipExtracted ;; ret true)%py w1
                 = (@Raise bool e, w2)).
    { unfold bind at 1. unfold zip_extract. by rewrite (Hx _ unzip Hd). }
    rewrite (try_caught _ _ _ _ _ _ _ Hb Hh), Hk. f_equal.
    unfold w2, w1, log, with_fs, with_trace. simpl. by rewrite <- !app_assoc.
Qed.

(** X16. A download that is no archive leaves nothing behind. When the
    downloaded bytes hold no HTML marker and the extractor selected by
    the URL raises on opening them, the call reports the exception,
    removes the temporary file and returns normally; the tree is what it
    was before the call, so the platform directory is empty again. The
    file is opened for the look only if it has fewer than 10240 bytes. *)
Theorem X16_unreadable_archive_is_removed dir platform url B m data e w :
  DOTNET_RUNTIME_DOWNLOADS !! platform = Some url →
  Fs.stat (fs w) (cwd w) dir = Fs.IsDir B m →
  m !! "download.tmp" = None →
  net (env w) (request_trace w platform url dir) url = Body data None →
  html_markers data = false →
  decoded_by url (env w) data = Unreadable e →
  ∃ w',
    download_platform_runtime dir platform w = (Ok tt, w')
    ∧ fs w' = fs w
    ∧ trace w' = peek_trace w platform url dir data
                 ++ (if (Z.of_nat (String.length data) <? 10240)%Z
                     then [Call (COpenText (temp_file dir))] else [])
                 ++ Print LExtracting :: Call (extract_call url (temp_file dir) dir)
                    :: failure_report url e
                 ++ [Call (CExists (temp_file dir)); Call (CRemove (temp_file dir))].
Proof.
  intros Hk Hs Hm Hn Hmk Hd.
  rewrite (download_reaches_peek dir platform url B m data w Hk Hs Hm Hn).
  set (w1 := peek_state w platform url dir B data).
  assert (Hs1 : Fs.stat (fs w1) (cwd w1) (temp_file dir)
                = Fs.IsFile (B ++ ["download.tmp"]) data).
  { by apply (stat_temp_written _ _ _ _ m). }
  rewrite (try_step _ _ _ _ _ _
             (html_check_unmarked _ _ _ (Z.of_nat (String.length data)) w1 Hs1 Hmk)).
  set (w2 := if (Z.of_nat (String.length data) <? 10240)%Z
             then log (Call (COpenText (temp_file dir))) w1 else w1).
  assert (Hw2 : fs w2 = fs w1 ∧ cwd w2 = cwd w1 ∧ env w2 = env w
                ∧ trace w2 = trace w1
                    ++ (if (Z.of_nat (String.length data) <? 10240)%Z
                        then [Call (COpenText (temp_file dir))] else [])).
  { unfold w2. destruct (_ <? _)%Z; split_and!; try done.
    by rewrite app_nil_r. }
  destruct Hw2 as (Hf2 & Hc2 & He2 & Ht2).
  rewrite (guarded_extraction_unreadable url (temp_file dir) dir platform
             (B ++ ["download.tmp"]) data e w2);
    [|by apply (table_suffix platform)|by rewrite Hf2, Hc2|by rewrite He2].
  eexists. split; [reflexivity|]. split.
  - cbn [fs with_fs with_trace]. rewrite Hf2. unfold w1, peek_state.
    cbn [fs with_fs with_trace]. apply put_undo; [by destruct B|].
    pose proof (stat_temp_new _ _ _ _ _ Hs Hm) as Ha.
    by apply stat_Absent in Ha as [_ ?].
  - cbn [trace with_fs with_trace]. rewrite Ht2. unfold w1, peek_state.
    cbn [trace with_fs with_trace]. by rewrite <- !app_assoc.
Qed.

(** X16 at work: thirteen bytes that are no gzip stream, for linux. *)
Lemma X16_unreadable_archive_is_removed_witness :
  let w := world_of env_garbled tree_empty_linux in
  let url := "https://builds.dotnet.microsoft.com/dotnet/Runtime/10.0.0/dotnet-runtime-10.0.0-linux-x64.tar.gz" in
  let dir := p runtime_cache ["linux"] in
  ∃ w',
    download_platform_runtime dir "linux" w = (Ok tt, w')
    ∧ fs w' = fs w
    ∧ trace w' = peek_trace w "linux" url dir "archive-bytes"
                 ++ [Call (COpenText (temp_file dir))]
                 ++ Print LExtracting :: Call (CTarExtract (temp_file dir) dir)
                    :: failure_report url (TarError "not a gzip file")
                 ++ [Call (CExists (temp_file dir)); Call (CRemove (temp_file dir))].
Proof.
  intros w url dir.
  apply (X16_unreadable_archive_is_removed dir "linux" url (cache_loc ++ ["linux"])
           ∅ "archive-bytes" (TarError "not a gzip file") w).
  - vm_compute. reflexivity.
  - vm_compute. reflexivity.
  - reflexivity.
  - reflexivity.
  - vm_compute. reflexivity.
  - vm_compute. reflexivity.
Defined.
